(** * ng-invoice-demo: the banking accounts store, service and effects

    A shallow embedding of the accounts feature of the application:
    - [src/app/banking/models/account.model.ts]   (data model, business rules)
    - [src/app/banking/store/account.state.ts]    (state, state helpers)
    - [src/app/banking/store/account.actions.ts]  (action catalog)
    - [src/app/banking/store/account.reducer.ts]  (transition function)
    - [src/app/banking/store/account.selectors.ts](memoized selectors)
    - [src/app/banking/services/account.service.ts] (HTTP gateway)
    - [src/app/banking/store/account.effects.ts]  (effects)
    - [src/app/banking/components/account-create/account-create.component.ts]
      (the forms of a new account and their submission)
    - [src/app/banking/components/account-details/account-details.component.ts]
      and [account-list.component.ts] (the helpers and handlers of the pages)
    - [src/app/common/appmenu/appmenu.component.ts] (session helpers)

    Conventions.
    - A TypeScript [number] that is an identifier or an HTTP status is a [Z];
      a [number] that is an amount of money or a rate is an exact rational
      [Q] (so [4.5] is [9#2]); rounding of IEEE doubles is not modelled.
    - A [Date] is a [Z], the milliseconds since the epoch.
    - [T | null] and an optional field [f?: T] are [option T].
    - [new Date()] reads the system clock: code that calls it is written in
      the [Timed] state monad, which threads the sequence of future clock
      readings.
    - An [Observable] built on [HttpClient] delivers one notification per
      subscription; the service is written over an explicit backend that
      answers the successive requests and counts them. *)

From Stdlib Require Import ZArith QArith List String Bool Arith Lia.
From Stdlib Require Import NArith DecimalString Qround.
From Stdlib Require DecimalFacts DecimalPos.
Import ListNotations.

Local Open Scope string_scope.
Local Open Scope list_scope.
Local Open Scope Z_scope.

(* ================================================================== *)
(** ** JavaScript values used by the code *)

(** [Date]: milliseconds since the epoch. *)
Definition Date := Z.

(** [x < y] on amounts, as a boolean. *)
Definition Qltb (x y : Q) : bool := negb (Qle_bool y x).

(** Truthiness of an optional amount, as in [c && account.overdraftLimit]:
    [undefined] and [0] are falsy. *)
Definition truthy (o : option Q) : bool :=
  match o with
  | Some q => negb (Qeq_bool q 0)
  | None => false
  end.

(** Template-literal rendering of an integer, [`${n}`]. *)
Definition Z_to_string (z : Z) : string :=
  NilZero.string_of_int (Z.to_int z).

(* ================================================================== *)
(** ** account.model.ts *)

Inductive AccountType := SAVINGS | CURRENT.

Inductive AccountStatus := ACTIVE | CLOSED | SUSPENDED.

Definition AccountType_eqb (x y : AccountType) : bool :=
  match x, y with
  | SAVINGS, SAVINGS | CURRENT, CURRENT => true
  | _, _ => false
  end.

Definition AccountStatus_eqb (x y : AccountStatus) : bool :=
  match x, y with
  | ACTIVE, ACTIVE | CLOSED, CLOSED | SUSPENDED, SUSPENDED => true
  | _, _ => false
  end.

Record Account := mkAccount {
  id : Z;
  accountNumber : string;
  accountType : AccountType;
  accountHolderName : string;
  email : string;
  phone : string;
  balance : Q;
  minBalance : Q;
  overdraftLimit : option Q;          (* Only for Current Account *)
  status : AccountStatus;
  createdDate : Date;
  lastModifiedDate : Date;
  monthlyServiceCharge : Q;
  interestRate : Q
}.

Module CreateAccountRequest.
Record t := mk {
  accountType : AccountType;
  accountHolderName : string;
  email : string;
  phone : string;
  initialDeposit : Q
}.
End CreateAccountRequest.

Module CreateAccountResponse.
Record t := mk {
  success : bool;
  message : string;
  account : Account
}.
End CreateAccountResponse.

Module CloseAccountResponse.
Record t := mk {
  success : bool;
  message : string;
  closedDate : Date
}.
End CloseAccountResponse.

Module BalanceCheckResponse.
Record t := mk {
  accountId : Z;
  accountNumber : string;
  currentBalance : Q;
  availableBalance : Q;
  isLowBalance : bool;
  minBalanceRequired : Q
}.
End BalanceCheckResponse.

(** Constants for business rules. *)
Module ACCOUNT_RULES.
Module SAVINGS.
Definition MIN_BALANCE : Q := 1000.
Definition LOW_BALANCE_THRESHOLD : Q := 2000.
Definition WITHDRAWAL_LIMIT : Q := 50000.
Definition INTEREST_RATE : Q := 9 # 2.
Definition INITIAL_DEPOSIT_MIN : Q := 1000.
End SAVINGS.
Module CURRENT.
Definition MIN_BALANCE : Q := 5000.
Definition LOW_BALANCE_THRESHOLD : Q := 7000.
Definition OVERDRAFT_LIMIT : Q := 10000.
Definition MONTHLY_SERVICE_CHARGE : Q := 500.
Definition INITIAL_DEPOSIT_MIN : Q := 5000.
End CURRENT.
End ACCOUNT_RULES.

(* ================================================================== *)
(** ** The system clock *)

(** The clock is the sequence of the readings that the coming calls of
    [new Date()] return; a computation that reads it consumes a prefix. *)
Definition Clock := nat -> Date.

(** Code with an effect on a state [W]: a function from the state before to
    the result and the state after. *)
Definition State (W A : Type) := W -> A * W.

Definition ret {W A} (a : A) : State W A := fun w => (a, w).

Definition bind {W A B} (m : State W A) (k : A -> State W B) : State W B :=
  fun w => let (a, w') := m w in k a w'.

Notation "x <- m ;; k" := (bind m (fun x => k))
  (at level 61, m at next level, right associativity).

(** Code that reads the clock. *)
Definition Timed (A : Type) := State Clock A.

(** [new Date()]. *)
Definition new_Date : Timed Date :=
  fun c => (c O, fun n => c (S n)).

(** [xs.map(f)] for a callback that reads the clock, left to right. *)
Fixpoint mapM {A B} (f : A -> Timed B) (xs : list A) : Timed (list B) :=
  match xs with
  | [] => ret []
  | x :: xs' => y <- f x ;; ys <- mapM f xs' ;; ret (y :: ys)
  end.

(** The state a timed computation returns. *)
Definition eval {A} (m : Timed A) (c : Clock) : A := fst (m c).

(* ================================================================== *)
(** ** account.state.ts *)

Record AccountState := mkState {
  accounts : list Account;
  selectedAccount : option Account;
  selectedAccountId : option Z;
  loading : bool;
  error : option string;
  lastUpdated : option Date;
  initialized : bool
}.

Definition initialAccountState : AccountState := {|
  accounts := [];
  selectedAccount := None;
  selectedAccountId := None;
  loading := false;
  error := None;
  lastUpdated := None;
  initialized := false
|}.

Definition getActiveAccounts (state : AccountState) : list Account :=
  filter (fun account => AccountStatus_eqb (status account) ACTIVE)
         (accounts state).

Definition getAccountById (state : AccountState) (accountId : Z)
  : option Account :=
  find (fun account => id account =? accountId) (accounts state).

Definition accountExists (state : AccountState) (accountId : Z) : bool :=
  existsb (fun account => id account =? accountId) (accounts state).

Definition getLowBalanceAccounts (state : AccountState) : list Account :=
  filter (fun account =>
            let threshold : Q :=
              if AccountType_eqb (accountType account) SAVINGS
              then 2000%Q else 7000%Q in
            Qltb (balance account) threshold)
         (getActiveAccounts state).

Definition hasLowBalance (account : Account) : bool :=
  let threshold : Q :=
    if AccountType_eqb (accountType account) SAVINGS then 2000%Q else 7000%Q in
  Qltb (balance account) threshold
  && AccountStatus_eqb (status account) ACTIVE.

Definition getAvailableBalance (account : Account) : Q :=
  if AccountType_eqb (accountType account) CURRENT
     && truthy (overdraftLimit account)
  then match overdraftLimit account with
       | Some od => (balance account + od)%Q
       | None => balance account
       end
  else balance account.

(* ================================================================== *)
(** ** account.actions.ts *)

Module AccountActions.
Inductive Action :=
  | loadAccounts
  | loadAccountsSuccess (accounts : list Account)
  | loadAccountsFailure (error : string)
  | loadAccount (accountId : Z)
  | loadAccountSuccess (account : Account)
  | loadAccountFailure (error : string)
  | createAccount (request : CreateAccountRequest.t)
  | createAccountSuccess (response : CreateAccountResponse.t)
  | createAccountFailure (error : string)
  | deleteAccount (accountId : Z)
  | deleteAccountSuccess (accountId : Z) (response : CloseAccountResponse.t)
  | deleteAccountFailure (error : string)
  | checkBalance (accountId : Z)
  | checkBalanceSuccess (response : BalanceCheckResponse.t)
  | checkBalanceFailure (error : string)
  | clearError
  | selectAccount (accountId : option Z)
  (** any action of another feature, such as the store's own init action *)
  | otherAction (type : string).
End AccountActions.

Import AccountActions.

(* ================================================================== *)
(** ** account.reducer.ts *)

(** [{ ...account, balance: b, lastModifiedDate: d }] *)
Definition with_balance (account : Account) (b : Q) (d : Date) : Account := {|
  id := id account;
  accountNumber := accountNumber account;
  accountType := accountType account;
  accountHolderName := accountHolderName account;
  email := email account;
  phone := phone account;
  balance := b;
  minBalance := minBalance account;
  overdraftLimit := overdraftLimit account;
  status := status account;
  createdDate := createdDate account;
  lastModifiedDate := d;
  monthlyServiceCharge := monthlyServiceCharge account;
  interestRate := interestRate account
|}.

Definition accountReducer (state : AccountState) (action : Action)
  : Timed AccountState :=
  match action with
  | loadAccounts
  | loadAccount _
  | createAccount _
  | deleteAccount _
  | checkBalance _ =>
      ret {| accounts := accounts state;
             selectedAccount := selectedAccount state;
             selectedAccountId := selectedAccountId state;
             loading := true;
             error := None;
             lastUpdated := lastUpdated state;
             initialized := initialized state |}

  | loadAccountsSuccess accounts' =>
      now <- new_Date ;;
      ret {| accounts := accounts';
             selectedAccount := selectedAccount state;
             selectedAccountId := selectedAccountId state;
             loading := false;
             error := None;
             lastUpdated := Some now;
             initialized := true |}

  | loadAccountsFailure error'
  | loadAccountFailure error'
  | createAccountFailure error'
  | deleteAccountFailure error'
  | checkBalanceFailure error' =>
      ret {| accounts := accounts state;
             selectedAccount := selectedAccount state;
             selectedAccountId := selectedAccountId state;
             loading := false;
             error := Some error';
             lastUpdated := lastUpdated state;
             initialized := initialized state |}

  | loadAccountSuccess account =>
      (* Check if account already exists in the array *)
      let accountExists :=
        existsb (fun a => id a =? id account) (accounts state) in
      (* Update or add the account to the array *)
      let updatedAccounts :=
        if accountExists
        then map (fun a => if id a =? id account then account else a)
                 (accounts state)
        else accounts state ++ [account] in
      now <- new_Date ;;
      ret {| accounts := updatedAccounts;
             selectedAccount := Some account;
             selectedAccountId := Some (id account);
             loading := false;
             error := None;
             lastUpdated := Some now;
             initialized := initialized state |}

  | createAccountSuccess response =>
      now <- new_Date ;;
      ret {| accounts := accounts state ++ [CreateAccountResponse.account response];
             selectedAccount := selectedAccount state;
             selectedAccountId := selectedAccountId state;
             loading := false;
             error := None;
             lastUpdated := Some now;
             initialized := initialized state |}

  | deleteAccountSuccess accountId _ =>
      let updatedAccounts :=
        filter (fun account => negb (id account =? accountId))
               (accounts state) in
      let selectedAccountCleared :=
        match selectedAccountId state with
        | Some sid => sid =? accountId
        | None => false
        end in
      now <- new_Date ;;
      ret {| accounts := updatedAccounts;
             selectedAccount :=
               if selectedAccountCleared then None else selectedAccount state;
             selectedAccountId :=
               if selectedAccountCleared then None else selectedAccountId state;
             loading := false;
             error := None;
             lastUpdated := Some now;
             initialized := initialized state |}

  | checkBalanceSuccess response =>
      updatedAccounts <-
        mapM (fun account =>
                if id account =? BalanceCheckResponse.accountId response
                then d <- new_Date ;;
                     ret (with_balance account
                            (BalanceCheckResponse.currentBalance response) d)
                else ret account)
             (accounts state) ;;
      (* Update selected account if it matches *)
      updatedSelectedAccount <-
        match selectedAccount state with
        | Some sel =>
            if id sel =? BalanceCheckResponse.accountId response
            then d <- new_Date ;;
                 ret (Some (with_balance sel
                              (BalanceCheckResponse.currentBalance response) d))
            else ret (Some sel)
        | None => ret None
        end ;;
      now <- new_Date ;;
      ret {| accounts := updatedAccounts;
             selectedAccount := updatedSelectedAccount;
             selectedAccountId := selectedAccountId state;
             loading := false;
             error := None;
             lastUpdated := Some now;
             initialized := initialized state |}

  | selectAccount None =>
      ret {| accounts := accounts state;
             selectedAccount := None;
             selectedAccountId := None;
             loading := loading state;
             error := error state;
             lastUpdated := lastUpdated state;
             initialized := initialized state |}
  | selectAccount (Some accountId) =>
      let account := find (fun a => id a =? accountId) (accounts state) in
      ret {| accounts := accounts state;
             selectedAccount := account;
             selectedAccountId := Some accountId;
             loading := loading state;
             error := error state;
             lastUpdated := lastUpdated state;
             initialized := initialized state |}

  | clearError =>
      ret {| accounts := accounts state;
             selectedAccount := selectedAccount state;
             selectedAccountId := selectedAccountId state;
             loading := loading state;
             error := None;
             lastUpdated := lastUpdated state;
             initialized := initialized state |}

  | otherAction _ => ret state
  end.

(** The exported reducer function: an undefined state is the initial one. *)
Definition AccountReducer (state : option AccountState) (action : Action)
  : Timed AccountState :=
  accountReducer
    (match state with Some s => s | None => initialAccountState end) action.

(** The store applies the dispatched actions in order, each transition
    reading the clock where the one before left it. *)
Fixpoint dispatchAll (state : AccountState) (actions : list Action)
  : Timed AccountState :=
  match actions with
  | [] => ret state
  | a :: rest => s' <- accountReducer state a ;; dispatchAll s' rest
  end.

(** The states that the store reaches from the initial state by actions
    that [allowed] admits in the state they are dispatched in. *)
Inductive reachableBy (allowed : AccountState -> Action -> Prop)
  : AccountState -> Prop :=
| reachable_init : reachableBy allowed initialAccountState
| reachable_step : forall s a (c : Clock),
    reachableBy allowed s -> allowed s a ->
    reachableBy allowed (eval (accountReducer s a) c).

(** The states reachable by any sequence of actions. *)
Definition reachable : AccountState -> Prop :=
  reachableBy (fun _ _ => True).

(* ================================================================== *)
(** ** account.selectors.ts *)

(** *** The store library's memoization

    [createSelector] and [createFeatureSelector] keep the last arguments and
    the last result, and return the kept result when they are called again
    with the same arguments.  The arguments are compared by reference
    ([===]); [same] stands for that test. *)

Section Memoize.
Context {A B : Type}.
Variable same : A -> A -> bool.

(** last arguments and last result, if there was a call *)
Definition Memo := option (A * B).

Definition memoize (f : A -> B) (m : Memo) (a : A) : B * Memo :=
    match m with
    | Some (a0, b0) =>
        if same a0 a then (b0, m) else (f a, Some (a, f a))
    | None => (f a, Some (a, f a))
    end.
End Memoize.

Arguments Memo : clear implicits.

(** A selector with caches of type [C], over a state [S]. *)
Definition Selector (C S R : Type) := C -> S -> R * C.

Definition createFeatureSelector {S F} (same : S -> S -> bool)
    (feature : S -> F) : Selector (Memo S F) S F :=
  memoize same feature.

Definition createSelector {C S A B} (same : A -> A -> bool)
    (input : Selector C S A) (projector : A -> B)
  : Selector (C * Memo A B) S B :=
  fun cache state =>
    let (a, c') := input (fst cache) state in
    let (b, m') := memoize same projector (snd cache) a in
    (b, (c', m')).

(** The caches a selector is left with after it was read on each of the
    [states] in turn. *)
Fixpoint cacheAfter {C S R} (sel : Selector C S R) (cache : C)
    (states : list S) : C :=
  match states with
  | [] => cache
  | s :: rest => cacheAfter sel (snd (sel cache s)) rest
  end.

(** The root state of the store; the accounts feature is registered under
    the key ['accounts']. *)
Record AppState := mkAppState {
  accountsFeature : AccountState
}.

Section Selectors.
  (** reference equality of root states, feature states and arrays *)
Variable sameApp : AppState -> AppState -> bool.
Variable sameState : AccountState -> AccountState -> bool.
Variable sameArray : list Account -> list Account -> bool.

Definition selectAccountState :=
  createFeatureSelector sameApp accountsFeature.

Definition selectAllAccounts :=
  createSelector sameState selectAccountState
    (fun state : AccountState => accounts state).

Definition selectActiveAccounts :=
  createSelector sameArray selectAllAccounts
    (fun accounts : list Account =>
       filter (fun account => AccountStatus_eqb (status account) ACTIVE)
              accounts).

Definition selectLowBalanceAccounts :=
  createSelector sameArray selectActiveAccounts
    (fun accounts : list Account =>
       filter (fun account =>
                 let threshold : Q :=
                   if AccountType_eqb (accountType account) SAVINGS
                   then 2000%Q else 7000%Q in
                 Qltb (balance account) threshold)
              accounts).

(** the caches of [selectLowBalanceAccounts] before its first call *)
Definition noCache :
    Memo AppState AccountState * Memo AccountState (list Account)
    * Memo (list Account) (list Account) * Memo (list Account) (list Account)
    := (None, None, None, None).
End Selectors.

(** The low-balance subset in the words of the specification: the ACTIVE
    accounts whose balance is below 2000 for SAVINGS or 7000 for CURRENT,
    in collection order. *)
Definition lowBalanceSubset (collection : list Account) : list Account :=
  filter (fun a =>
            AccountStatus_eqb (status a) ACTIVE
            && match accountType a with
               | SAVINGS => Qltb (balance a) 2000%Q
               | CURRENT => Qltb (balance a) 7000%Q
               end)
         collection.

(* ================================================================== *)
(** ** The HTTP client and the stream operators of the service *)

(** [error.error] of a failed request: an [ErrorEvent] for a client-side or
    network failure, anything else for a response of the backend. *)
Inductive HttpErrorBody :=
| ErrorEvent (message : string)
| responseBody.

Module HttpErrorResponse.
Record t := mk {
  error : HttpErrorBody;
  status : Z;
  statusText : string
}.
End HttpErrorResponse.

(** A value of type [any] that reaches an error handler: an object with its
    [error.message] and [message] properties (when it has them), a string,
    or something else. *)
Inductive ErrorValue :=
| errorObject (error_message : option string) (message : option string)
| errorString (s : string)
| errorOther.

(** [new Error(message)] *)
Definition new_Error (message : string) : ErrorValue :=
  errorObject None (Some message).

(** [Omit<Account, 'id'>] *)
Module NewAccount.
Record t := mk {
  accountNumber : string;
  accountType : AccountType;
  accountHolderName : string;
  email : string;
  phone : string;
  balance : Q;
  minBalance : Q;
  status : AccountStatus;
  createdDate : Date;
  lastModifiedDate : Date;
  monthlyServiceCharge : Q;
  interestRate : Q;
  overdraftLimit : option Q
}.
End NewAccount.

(** The [updates] object of [closeAccount]. *)
Module StatusUpdate.
Record t := mk {
  status : AccountStatus;
  lastModifiedDate : Date
}.
End StatusUpdate.

Inductive HttpRequest :=
| GET (url : string)
| POST (url : string) (body : NewAccount.t)
| PATCH (url : string) (updates : StatusUpdate.t).

(** What the backend answers to a request. *)
Inductive Reply (B : Type) :=
| Ok (body : B)
| Fail (e : HttpErrorResponse.t).
Arguments Ok {B} body.
Arguments Fail {B} e.

(** What a subscriber of a one-shot observable receives. *)
Inductive Notification (E A : Type) :=
| Next (value : A)
| Thrown (err : E).
Arguments Next {E A} value.
Arguments Thrown {E A} err.

(** The backend decides the outcome of the n-th request that is sent. *)
Definition Backend (B : Type) := nat -> HttpRequest -> Reply B.

(** The world of the service: the clock and the requests sent so far. *)
Record World := mkWorld {
  clock : Clock;
  sent : list HttpRequest
}.

(** [new Date()] in the world of the service. *)
Definition now : State World Date :=
  fun w => let (d, c') := new_Date (clock w) in
           (d, {| clock := c'; sent := sent w |}).

(** A cold observable: subscribing runs it against the backend. *)
Definition Observable (B E A : Type) :=
  Backend B -> State World (Notification E A).

Module Rx.
Section Operators.
Context {B : Type}.

(** [this.http.get/post/patch]: each subscription sends the request. *)
Definition http (request : HttpRequest)
  : Observable B HttpErrorResponse.t B :=
  fun backend w =>
    (match backend (List.length (sent w)) request with
     | Ok body => Next body
     | Fail e => Thrown e
     end,
     {| clock := clock w; sent := sent w ++ [request] |}).

Definition map {E A A'} (project : A -> State World A')
    (source : Observable B E A) : Observable B E A' :=
  fun backend =>
    n <- source backend ;;
    match n with
    | Next a => a' <- project a ;; ret (Next a')
    | Thrown e => ret (Thrown e)
    end.

(** [retry(count)]: on an error, subscribe to the source again, at most
    [count] times. *)
Fixpoint retry {E A} (count : nat) (source : Observable B E A)
  : Observable B E A :=
  fun backend =>
    n <- source backend ;;
    match n, count with
    | Thrown _, S count' => retry count' source backend
    | _, _ => ret n
    end.

Definition catchError {E E' A} (selector : E -> Observable B E' A)
    (source : Observable B E A) : Observable B E' A :=
  fun backend =>
    n <- source backend ;;
    match n with
    | Next a => ret (Next a)
    | Thrown e => selector e backend
    end.

(** [delay(ms)] postpones the value, not the error; time is not part of
    the world. *)
Definition delay {E A} (ms : nat) (source : Observable B E A)
  : Observable B E A := source.

Definition throwError {E A} (e : E) : Observable B E A :=
  fun _ => ret (Thrown e).
End Operators.
End Rx.

(** The outcome of calling a method and subscribing to what it returns. *)
Definition subscribe {B E A} (call : State World (Observable B E A))
    (backend : Backend B) : State World (Notification E A) :=
  observable <- call ;; observable backend.

Notation "source |> operator" := (operator source)
  (at level 65, left associativity, only parsing).

(* ================================================================== *)
(** ** account.service.ts *)

Module AccountService.
Import Rx.

Definition baseUrl := "http://localhost:3000".

Module endpoints.
Definition accounts := (baseUrl ++ "/accounts")%string.
Definition accountById (id : Z) :=
  (baseUrl ++ "/accounts/" ++ Z_to_string id)%string.
End endpoints.

(** [new Date(d)] of a date: the same instant. *)
Definition Date_of (d : Date) : Date := d.

Definition transformAccountDate (account : Account) : Account := {|
  id := id account;
  accountNumber := accountNumber account;
  accountType := accountType account;
  accountHolderName := accountHolderName account;
  email := email account;
  phone := phone account;
  balance := balance account;
  minBalance := minBalance account;
  overdraftLimit := overdraftLimit account;
  status := status account;
  createdDate := Date_of (createdDate account);
  lastModifiedDate := Date_of (lastModifiedDate account);
  monthlyServiceCharge := monthlyServiceCharge account;
  interestRate := interestRate account
|}.

Definition transformAccountDates (accounts : list Account) : list Account :=
  List.map (fun account => transformAccountDate account) accounts.

(** The message of the error that [handleError] throws (it also writes
    it to the console). *)
Definition errorMessageOf (error : HttpErrorResponse.t) : string :=
  match HttpErrorResponse.error error with
  | ErrorEvent message => ("Client Error: " ++ message)%string
  | responseBody =>
      let status := HttpErrorResponse.status error in
      if status =? 0 then
        "Unable to connect to the server. Please ensure JSON Server is running on http://localhost:3000"
      else if status =? 400 then
        "Invalid request. Please check your input."
      else if status =? 404 then
        "Account not found."
      else if status =? 500 then
        "Server error. Please try again later."
      else
        ("Server Error: " ++ Z_to_string status ++ " - "
           ++ HttpErrorResponse.statusText error)%string
  end.

Definition handleError {B A} (error : HttpErrorResponse.t)
  : Observable B ErrorValue A :=
  throwError (new_Error (errorMessageOf error)).

(** Format: ACC + 9 random digits; [random] is the value of
    [Math.random()]. *)
Definition generateAccountNumber (random : Q) : string :=
  let randomDigits := Qfloor (100000000 + random * 900000000)%Q in
  ("ACC" ++ Z_to_string randomDigits)%string.

Definition getAllAccounts : Observable (list Account) ErrorValue (list Account) :=
  http (GET endpoints.accounts)
    |> map (fun accounts => ret (transformAccountDates accounts))
    |> retry 1
    |> catchError handleError.

Definition getAccountById (accountId : Z)
  : Observable Account ErrorValue Account :=
  http (GET (endpoints.accountById accountId))
    |> map (fun account => ret (transformAccountDate account))
    |> catchError handleError.

Definition createAccount (random : Q) (request : CreateAccountRequest.t)
  : State World (Observable Account ErrorValue CreateAccountResponse.t) :=
  (* Generate account number *)
  let accountNumber_ := generateAccountNumber random in
  (* Determine account-specific properties based on type *)
  let minBalance_ :=
    if AccountType_eqb (CreateAccountRequest.accountType request) SAVINGS
    then ACCOUNT_RULES.SAVINGS.MIN_BALANCE
    else ACCOUNT_RULES.CURRENT.MIN_BALANCE in
  let monthlyServiceCharge_ :=
    if AccountType_eqb (CreateAccountRequest.accountType request) CURRENT
    then ACCOUNT_RULES.CURRENT.MONTHLY_SERVICE_CHARGE
    else 0%Q in
  let interestRate_ :=
    if AccountType_eqb (CreateAccountRequest.accountType request) SAVINGS
    then ACCOUNT_RULES.SAVINGS.INTEREST_RATE
    else 0%Q in
  (* Build account object *)
  created <- now ;;
  modified <- now ;;
  let newAccount :=
    {| NewAccount.accountNumber := accountNumber_;
       NewAccount.accountType := CreateAccountRequest.accountType request;
       NewAccount.accountHolderName :=
         CreateAccountRequest.accountHolderName request;
       NewAccount.email := CreateAccountRequest.email request;
       NewAccount.phone := CreateAccountRequest.phone request;
       NewAccount.balance := CreateAccountRequest.initialDeposit request;
       NewAccount.minBalance := minBalance_;
       NewAccount.status := ACTIVE;
       NewAccount.createdDate := created;
       NewAccount.lastModifiedDate := modified;
       NewAccount.monthlyServiceCharge := monthlyServiceCharge_;
       NewAccount.interestRate := interestRate_;
       (* Add overdraft for current accounts *)
       NewAccount.overdraftLimit :=
         if AccountType_eqb (CreateAccountRequest.accountType request)
                            CURRENT
         then Some ACCOUNT_RULES.CURRENT.OVERDRAFT_LIMIT
         else None |} in
  ret (http (POST endpoints.accounts newAccount)
         |> delay 500 (* Simulate network delay *)
         |> map (fun account : Account =>
                   ret {| CreateAccountResponse.success := true;
                          CreateAccountResponse.message :=
                            ("Account " ++ accountNumber account
                               ++ " created successfully!")%string;
                          CreateAccountResponse.account :=
                            transformAccountDate account |})
         |> catchError handleError).

Definition checkBalance (accountId : Z)
  : Observable Account ErrorValue BalanceCheckResponse.t :=
  http (GET (endpoints.accountById accountId))
    |> map (fun account : Account =>
              let threshold :=
                if AccountType_eqb (accountType account) SAVINGS
                then ACCOUNT_RULES.SAVINGS.LOW_BALANCE_THRESHOLD
                else ACCOUNT_RULES.CURRENT.LOW_BALANCE_THRESHOLD in
              let availableBalance_ :=
                if AccountType_eqb (accountType account) CURRENT
                   && truthy (overdraftLimit account)
                then match overdraftLimit account with
                     | Some overdraft => (balance account + overdraft)%Q
                     | None => balance account
                     end
                else balance account in
              ret {| BalanceCheckResponse.accountId := id account;
                     BalanceCheckResponse.accountNumber :=
                       accountNumber account;
                     BalanceCheckResponse.currentBalance := balance account;
                     BalanceCheckResponse.availableBalance :=
                       availableBalance_;
                     BalanceCheckResponse.isLowBalance :=
                       Qltb (balance account) threshold;
                     BalanceCheckResponse.minBalanceRequired :=
                       minBalance account |})
    |> catchError handleError.

(** For JSON Server: the status is updated to CLOSED instead of deleting.
    The [reason] defaults to 'Customer request' and is not sent. *)
Definition closeAccount (accountId : Z) (reason : string)
  : State World (Observable Account ErrorValue CloseAccountResponse.t) :=
  modified <- now ;;
  let updates :=
    {| StatusUpdate.status := CLOSED;
       StatusUpdate.lastModifiedDate := modified |} in
  ret (http (PATCH (endpoints.accountById accountId) updates)
         |> delay 300
         |> map (fun _ : Account =>
                   closed <- now ;;
                   ret {| CloseAccountResponse.success := true;
                          CloseAccountResponse.message :=
                            "Account closed successfully";
                          CloseAccountResponse.closedDate := closed |})
         |> catchError handleError).

End AccountService.

(* ================================================================== *)
(** ** The flattening operators of the effects

    The effects flatten the stream of the actions with the operators
    [exhaustMap] and [switchMap] of the rxjs library.  The two operators
    are given here the behaviour that the library documents for them, over
    discrete time, for inner observables that deliver one value.

    Time is counted in ticks of the event loop.  A stream is the list of
    its emissions with their times, in order of time.  The inner observable
    that an effect subscribes to for a source value delivers one value,
    [latency] ticks after the subscription, unless it is unsubscribed
    before.  When a delivery and a source emission fall on the same tick,
    the delivery comes first. *)

Definition Stream (A : Type) := list (nat * A).

Record Inner (R : Type) := mkInner {
  latency : nat;
  delivers : R
}.
Arguments mkInner {R} latency delivers.
Arguments latency {R} i.
Arguments delivers {R} i.

Section Flatten.
Context {X R : Type}.

(** the inner observable for the n-th source value *)
Variable project : nat -> X -> Inner R.

(** [switchMap]: a new source value unsubscribes the inner observable
    that is in flight and subscribes to a new one.  [inflight] is the
    inner subscription: when it delivers, and what. *)
Fixpoint switchMap_run (inflight : option (nat * R)) (n : nat)
    (source : Stream X) : Stream R :=
  match source with
  | [] =>
      match inflight with
      | Some (done, r) => [(done, r)]
      | None => []
      end
  | (t, x) :: rest =>
      let inner := project n x in
      let next := Some ((t + latency inner)%nat, delivers inner) in
      match inflight with
      | Some (done, r) =>
          if (done <=? t)%nat
          then (done, r) :: switchMap_run next (S n) rest
          else switchMap_run next (S n) rest
      | None => switchMap_run next (S n) rest
      end
  end.

Definition switchMap (source : Stream X) : Stream R :=
  switchMap_run None 0 source.

(** [exhaustMap]: a source value that arrives while an inner observable
    is in flight is ignored; [project] is not called for it. *)
Fixpoint exhaustMap_run (inflight : option (nat * R)) (n : nat)
    (source : Stream X) : Stream R :=
  match source with
  | [] =>
      match inflight with
      | Some (done, r) => [(done, r)]
      | None => []
      end
  | (t, x) :: rest =>
      let inner := project n x in
      let next := Some ((t + latency inner)%nat, delivers inner) in
      match inflight with
      | Some (done, r) =>
          if (done <=? t)%nat
          then (done, r) :: exhaustMap_run next (S n) rest
          else exhaustMap_run inflight (S n) rest
      | None => exhaustMap_run next (S n) rest
      end
  end.

Definition exhaustMap (source : Stream X) : Stream R :=
  exhaustMap_run None 0 source.

(** *** The policies in the words of the specification *)

(** "cancel-and-replace-latest": a new request supersedes awaiting the
    result of the prior one.  The result of a request is emitted when no
    later request arrives before it is there. *)
Fixpoint cancelAndReplaceLatest_from (n : nat) (source : Stream X)
  : Stream R :=
  match source with
  | [] => []
  | (t, x) :: rest =>
      let inner := project n x in
      let done := (t + latency inner)%nat in
      if forallb (fun later => (done <=? fst later)%nat) rest
      then (done, delivers inner) :: cancelAndReplaceLatest_from (S n) rest
      else cancelAndReplaceLatest_from (S n) rest
  end.

Definition cancelAndReplaceLatest := cancelAndReplaceLatest_from 0.

(** "queue-and-wait": every submission is processed, one after the other:
    a request waits until the call before it is finished.  [free] is the
    time at which the call before is finished. *)
Fixpoint queueAndWait_from (free n : nat) (source : Stream X) : Stream R :=
  match source with
  | [] => []
  | (t, x) :: rest =>
      let inner := project n x in
      let done := (Nat.max t free + latency inner)%nat in
      (done, delivers inner) :: queueAndWait_from done (S n) rest
  end.

Definition queueAndWait := queueAndWait_from 0 0.

(** Ignore-while-busy: a request is served when no call is in flight;
    [busy] is the time until which one is. *)
Fixpoint ignoreWhileBusy_from (busy n : nat) (source : Stream X)
  : Stream R :=
  match source with
  | [] => []
  | (t, x) :: rest =>
      let inner := project n x in
      let done := (t + latency inner)%nat in
      if (busy <=? t)%nat
      then (done, delivers inner) :: ignoreWhileBusy_from done (S n) rest
      else ignoreWhileBusy_from busy (S n) rest
  end.

Definition ignoreWhileBusy := ignoreWhileBusy_from 0 0.
End Flatten.

(** The times of a stream do not decrease. *)
Fixpoint ordered {A} (s : Stream A) : bool :=
  match s with
  | [] => true
  | (t, _) :: rest =>
      forallb (fun later => (t <=? fst later)%nat) rest && ordered rest
  end.

(** [ofType(creator)]: the payloads of the actions of one type. *)
Fixpoint ofType {X} (creator : Action -> option X) (actions : Stream Action)
  : Stream X :=
  match actions with
  | [] => []
  | (t, a) :: rest =>
      match creator a with
      | Some x => (t, x) :: ofType creator rest
      | None => ofType creator rest
      end
  end.

(** The payload of an action of a given type, for [ofType]. *)
Definition loadAccounts_payload (a : Action) : option unit :=
  match a with loadAccounts => Some tt | _ => None end.

Definition loadAccount_payload (a : Action) : option Z :=
  match a with loadAccount accountId => Some accountId | _ => None end.

Definition createAccount_payload (a : Action) : option CreateAccountRequest.t :=
  match a with createAccount request => Some request | _ => None end.

Definition deleteAccount_payload (a : Action) : option Z :=
  match a with deleteAccount accountId => Some accountId | _ => None end.

Definition checkBalance_payload (a : Action) : option Z :=
  match a with checkBalance accountId => Some accountId | _ => None end.

(** [of(value)] *)
Definition of_ {B E A} (value : A) : Observable B E A :=
  fun _ => ret (Next value).

(** The value of an observable that cannot fail. *)
Definition the {A} (n : Notification Empty_set A) : A :=
  match n with
  | Next a => a
  | Thrown e => match e with end
  end.

(** What surrounds the n-th call of a service method by an effect: the
    backend and the world at that time, the value of [Math.random()], and
    the ticks until the answer has been delivered. *)
Record CallEnv (B : Type) := mkCallEnv {
  env_backend : Backend B;
  env_world : World;
  env_random : Q;
  env_latency : nat
}.
Arguments env_backend {B} c.
Arguments env_world {B} c.
Arguments env_random {B} c.
Arguments env_latency {B} c.

(* ================================================================== *)
(** ** account.effects.ts *)

Module AccountEffects.
Import Rx.

Definition nonempty (s : string) : bool :=
  match s with EmptyString => false | _ => true end.

(** Extract meaningful error message from error object *)
Definition extractErrorMessage (error : ErrorValue) : string :=
  match error with
  | errorObject (Some m) (Some m') =>
      if nonempty m then m
      else if nonempty m' then m'
      else "An unexpected error occurred. Please try again."
  | errorObject (Some m) None =>
      if nonempty m then m
      else "An unexpected error occurred. Please try again."
  | errorObject None (Some m') =>
      if nonempty m' then m'
      else "An unexpected error occurred. Please try again."
  | errorObject None None =>
      "An unexpected error occurred. Please try again."
  | errorString s => s
  | errorOther => "An unexpected error occurred. Please try again."
  end.

(** The inner observable of an effect, run in its environment. *)
Definition inner {B} (env : CallEnv B)
    (call : State World (Observable B Empty_set Action)) : Inner Action :=
  {| latency := env_latency env;
     delivers :=
       the (fst (subscribe call (env_backend env)
                   (env_world env))) |}.

(** The notifications that the effects show through the toast service
    are not part of the model; an effect is the stream of the actions it
    dispatches. *)
Section Effects.
Variable listEnv : nat -> CallEnv (list Account).
Variable loadEnv createEnv deleteEnv checkEnv : nat -> CallEnv Account.

(** The inner observable of [loadAccounts$]. *)
Definition loadAccounts_inner (n : nat) (_ : unit) : Inner Action :=
  inner (listEnv n)
    (ret (AccountService.getAllAccounts
            |> map (fun accounts => ret (loadAccountsSuccess accounts))
            |> catchError (fun error =>
                 let errorMessage := extractErrorMessage error in
                 of_ (loadAccountsFailure errorMessage)))).

Definition loadAccounts_effect (actions : Stream Action) : Stream Action :=
  actions
    |> ofType loadAccounts_payload
    |> exhaustMap loadAccounts_inner.

(** The inner observable of [loadAccount$]. *)
Definition loadAccount_inner (n : nat) (accountId : Z) : Inner Action :=
  inner (loadEnv n)
    (ret (AccountService.getAccountById accountId
            |> map (fun account => ret (loadAccountSuccess account))
            |> catchError (fun error =>
                 let errorMessage := extractErrorMessage error in
                 of_ (loadAccountFailure errorMessage)))).

Definition loadAccount_effect (actions : Stream Action) : Stream Action :=
  actions
    |> ofType loadAccount_payload
    |> exhaustMap loadAccount_inner.

(** The inner observable of [createAccount$]. *)
Definition createAccount_inner (n : nat) (request : CreateAccountRequest.t)
  : Inner Action :=
  inner (createEnv n)
    (observable <- AccountService.createAccount
                     (env_random (createEnv n)) request ;;
     ret (observable
            |> map (fun response => ret (createAccountSuccess response))
            |> catchError (fun error =>
                 let errorMessage := extractErrorMessage error in
                 of_ (createAccountFailure errorMessage)))).

Definition createAccount_effect (actions : Stream Action) : Stream Action :=
  actions
    |> ofType createAccount_payload
    |> switchMap createAccount_inner.

(** The inner observable of [deleteAccount$]. *)
Definition deleteAccount_inner (n : nat) (accountId : Z) : Inner Action :=
  inner (deleteEnv n)
    (observable <- AccountService.closeAccount accountId
                     "Customer request" ;;
     ret (observable
            |> map (fun response =>
                      ret (deleteAccountSuccess accountId response))
            |> catchError (fun error =>
                 let errorMessage := extractErrorMessage error in
                 of_ (deleteAccountFailure errorMessage)))).

Definition deleteAccount_effect (actions : Stream Action) : Stream Action :=
  actions
    |> ofType deleteAccount_payload
    |> switchMap deleteAccount_inner.

(** The inner observable of [checkBalance$]. *)
Definition checkBalance_inner (n : nat) (accountId : Z) : Inner Action :=
  inner (checkEnv n)
    (ret (AccountService.checkBalance accountId
            |> map (fun response => ret (checkBalanceSuccess response))
            |> catchError (fun error =>
                 let errorMessage := extractErrorMessage error in
                 of_ (checkBalanceFailure errorMessage)))).

Definition checkBalance_effect (actions : Stream Action) : Stream Action :=
      actions
        |> ofType checkBalance_payload
        |> switchMap checkBalance_inner.
End Effects.
End AccountEffects.

(* ================================================================== *)
(** ** The properties of the store that the theorems are about *)

(** An account with its [lastModifiedDate] erased. *)
Definition untimedAccount (a : Account) : Account :=
  with_balance a (balance a) 0.

(** The id of the accounts whose [lastModifiedDate] a transition sets:
    [checkBalanceSuccess] stamps the accounts of the response's id; no
    other action touches an account's dates. *)
Definition updatedId (a : Action) : option Z :=
  match a with
  | checkBalanceSuccess response =>
      Some (BalanceCheckResponse.accountId response)
  | _ => None
  end.

(** Two accounts that are the same, except for [lastModifiedDate] when
    their id is the updated one. *)
Definition sameAccountButStamp (updated : option Z) (x y : Account) : Prop :=
  match updated with
  | Some i => if id x =? i then untimedAccount x = untimedAccount y
              else x = y
  | None => x = y
  end.

(** Two next states of the action [a] that differ at most in the
    timestamps that [a] reads from the clock: the date of [lastUpdated],
    and [lastModifiedDate] of the accounts, in the collection and in the
    selection, that have the id that [a] updates. *)
Definition agreeButStamps (a : Action) (s1 s2 : AccountState) : Prop :=
  Forall2 (sameAccountButStamp (updatedId a)) (accounts s1) (accounts s2)
  /\ match selectedAccount s1, selectedAccount s2 with
     | Some x, Some y => sameAccountButStamp (updatedId a) x y
     | None, None => True
     | _, _ => False
     end
  /\ selectedAccountId s1 = selectedAccountId s2
  /\ loading s1 = loading s2
  /\ error s1 = error s2
  /\ (lastUpdated s1 = None <-> lastUpdated s2 = None)
  /\ initialized s1 = initialized s2.

(** The actions whose transition stamps the state with [new Date()]. *)
Definition stamps (a : Action) : bool :=
  match a with
  | loadAccountsSuccess _ | loadAccountSuccess _ | createAccountSuccess _
  | deleteAccountSuccess _ _ | checkBalanceSuccess _ => true
  | _ => false
  end.

(** Two clocks that give the same readings. *)
Definition sameReadings (c1 c2 : Clock) : Prop := forall n, c1 n = c2 n.

(** [selectedAccountId] is null or the id of an account of the collection. *)
Definition selectionInCollection (s : AccountState) : Prop :=
  match selectedAccountId s with
  | None => True
  | Some i => exists a, In a (accounts s) /\ id a = i
  end.

(** An action that keeps the selected id within the collection: a
    [selectAccount] names an account of the collection or null, and a
    [loadAccountsSuccess] brings a list that still has the selected id. *)
Definition keepsSelection (s : AccountState) (a : Action) : Prop :=
  match a with
  | selectAccount (Some i) => accountExists s i = true
  | loadAccountsSuccess accounts' =>
      match selectedAccountId s with
      | Some i => existsb (fun a => id a =? i) accounts' = true
      | None => True
      end
  | _ => True
  end.

(** [overdraftLimit] is defined if and only if the type is CURRENT. *)
Definition overdraftIffCurrent (a : Account) : Prop :=
  overdraftLimit a <> None <-> accountType a = CURRENT.

(** The accounts that an action brings into the store. *)
Definition payloadAccounts (a : Action) : list Account :=
  match a with
  | loadAccountsSuccess accounts' => accounts'
  | loadAccountSuccess account => [account]
  | createAccountSuccess response => [CreateAccountResponse.account response]
  | _ => []
  end.

(** The state after a failure with message [e]. *)
Definition failed (s : AccountState) (e : string) : AccountState := {|
  accounts := accounts s;
  selectedAccount := selectedAccount s;
  selectedAccountId := selectedAccountId s;
  loading := false;
  error := Some e;
  lastUpdated := lastUpdated s;
  initialized := initialized s
|}.

(** A reference test answers true on equal values only. *)
Definition sound {A} (same : A -> A -> bool) : Prop :=
  forall x y, same x y = true -> x = y.

(** A computation that reads the clock through its readings only: on
    clocks with the same readings it returns the same value and leaves
    clocks with the same readings. *)
Definition respects {A} (m : Timed A) : Prop :=
  forall c1 c2, sameReadings c1 c2 ->
    fst (m c1) = fst (m c2) /\ sameReadings (snd (m c1)) (snd (m c2)).

(* ================================================================== *)
(** ** Sample data for the examples *)

(** A clock that starts at [t] and advances by a millisecond per reading. *)
Definition clockFrom (t : Date) : Clock := fun n => t + Z.of_nat n.

Definition sampleAccount (i : Z) (type : AccountType) (b : Q)
    (overdraft : option Q) : Account := {|
  id := i;
  accountNumber := "ACC100000001";
  accountType := type;
  accountHolderName := "Ravi";
  email := "ravi@example.com";
  phone := "9999999999";
  balance := b;
  minBalance := match type with SAVINGS => 1000%Q | CURRENT => 5000%Q end;
  overdraftLimit := overdraft;
  status := ACTIVE;
  createdDate := 0;
  lastModifiedDate := 0;
  monthlyServiceCharge := match type with SAVINGS => 0%Q | CURRENT => 500%Q end;
  interestRate := match type with SAVINGS => (9 # 2)%Q | CURRENT => 0%Q end
|}.

(** The accounts of the scenarios of the specification. *)
Definition account1 : Account := sampleAccount 1 SAVINGS 500%Q None.
Definition account2 : Account := sampleAccount 2 CURRENT 100%Q (Some 10000%Q).
Definition account3 : Account := sampleAccount 3 SAVINGS 1500%Q None.

Definition sampleState : AccountState := {|
  accounts := [account1; account2; account3];
  selectedAccount := Some account1;
  selectedAccountId := Some 1;
  loading := true;
  error := None;
  lastUpdated := Some 1000;
  initialized := true
|}.

Definition sampleClosed : CloseAccountResponse.t := {|
  CloseAccountResponse.success := true;
  CloseAccountResponse.message := "Account closed successfully";
  CloseAccountResponse.closedDate := 2000
|}.

(** An action whose accounts all have [overdraftLimit] iff they are
    CURRENT. *)
Definition bringsTypedAccounts (_ : AccountState) (a : Action) : Prop :=
  Forall overdraftIffCurrent (payloadAccounts a).

(** A SAVINGS account with an overdraft limit and a CURRENT account with
    none: the [Account] interface admits both. *)
Definition savingsWithOverdraft : Account :=
  sampleAccount 7 SAVINGS 500%Q (Some 10000%Q).
Definition currentWithoutOverdraft : Account :=
  sampleAccount 8 CURRENT 9000%Q None.

Definition sampleRequest : CreateAccountRequest.t := {|
  CreateAccountRequest.accountType := CURRENT;
  CreateAccountRequest.accountHolderName := "Ravi";
  CreateAccountRequest.email := "ravi@example.com";
  CreateAccountRequest.phone := "9999999999";
  CreateAccountRequest.initialDeposit := 6000%Q
|}.

Definition sampleWorld : World := {| clock := clockFrom 1000; sent := [] |}.

(** [account2] with a new balance, as a reloaded copy. *)
Definition account2' : Account := sampleAccount 2 CURRENT 999%Q (Some 10000%Q).

(** A backend that answers every request with [account2]. *)
Definition account2Backend : Backend Account := fun _ _ => Ok account2.

(** A failed request with status 500. *)
Definition serverError : HttpErrorResponse.t := {|
  HttpErrorResponse.error := responseBody;
  HttpErrorResponse.status := 500;
  HttpErrorResponse.statusText := "Internal Server Error"
|}.

(** Backends whose first answer is a failure and whose later answers are
    successes. *)
Definition flakyList : Backend (list Account) :=
  fun n _ => match n with O => Fail serverError | _ => Ok [account1] end.

Definition flaky : Backend Account :=
  fun n _ => match n with O => Fail serverError | _ => Ok account1 end.

(** A kept result is the projector's value on the kept arguments. *)
Definition memoConsistent {A B} (f : A -> B) (m : Memo A B) : Prop :=
  match m with
  | Some (a0, b0) => b0 = f a0
  | None => True
  end.

(** A selector whose caches satisfy [inv] returns [f] of the state, and
    leaves caches that satisfy [inv]. *)
Definition computes {C S R} (sel : Selector C S R) (inv : C -> Prop)
    (f : S -> R) : Prop :=
  forall c s, inv c -> fst (sel c s) = f s /\ inv (snd (sel c s)).

(** Reference tests for the examples: no two root states or feature states
    are the same object; two arrays are the same when both are empty. *)
Definition neverSame {A} (_ _ : A) : bool := false.

Definition bothEmpty (l1 l2 : list Account) : bool :=
  match l1, l2 with
  | [], [] => true
  | _, _ => false
  end.

(** Environments of the effects for the examples: every call takes five
    ticks; the first call is answered with [account1], the later ones with
    [account2]. *)
Definition sampleListEnv : nat -> CallEnv (list Account) :=
  fun n =>
    {| env_backend :=
         fun _ _ => Ok match n with O => [account1] | _ => [account2] end;
       env_world := sampleWorld;
       env_random := 0%Q;
       env_latency := 5 |}.

Definition sampleEnv : nat -> CallEnv Account :=
  fun n =>
    {| env_backend :=
         fun _ _ => Ok match n with O => account1 | _ => account2 end;
       env_world := sampleWorld;
       env_random := 0%Q;
       env_latency := 5 |}.

(** Two requests, the second dispatched one tick after the first, while the
    call of the first is in flight. *)
Definition twoLoads : Stream Action :=
  [(0%nat, loadAccounts); (1%nat, loadAccounts)].

Definition twoCreates : Stream Action :=
  [(0%nat, createAccount sampleRequest); (1%nat, createAccount sampleRequest)].

(** The response of the service for a created account. *)
Definition created (a : Account) : CreateAccountResponse.t := {|
  CreateAccountResponse.success := true;
  CreateAccountResponse.message := "Account ACC100000001 created successfully!";
  CreateAccountResponse.account := a
|}.

(** Loads and creations in turn, one per tick. *)
Definition mixedActions : Stream Action :=
  [(0%nat, loadAccounts); (1%nat, createAccount sampleRequest);
   (2%nat, loadAccounts); (3%nat, createAccount sampleRequest)].

(** The selected account, when there is one, is the account of the
    selected id. *)
Definition selectionConsistent (s : AccountState) : Prop :=
  match selectedAccount s with
  | Some a => selectedAccountId s = Some (id a)
  | None => True
  end.

(* ================================================================== *)
(** ** account.state.ts, the other state helpers *)

Definition getClosedAccounts (state : AccountState) : list Account :=
  filter (fun account => AccountStatus_eqb (status account) CLOSED)
         (accounts state).

Definition getSuspendedAccounts (state : AccountState) : list Account :=
  filter (fun account => AccountStatus_eqb (status account) SUSPENDED)
         (accounts state).

Definition getSavingsAccounts (state : AccountState) : list Account :=
  filter (fun account => AccountType_eqb (accountType account) SAVINGS)
         (accounts state).

Definition getCurrentAccounts (state : AccountState) : list Account :=
  filter (fun account => AccountType_eqb (accountType account) CURRENT)
         (accounts state).

(** [reduce((total, account) => total + account.balance, 0)] *)
Definition calculateTotalBalance (state : AccountState) : Q :=
  fold_left (fun total account => (total + balance account)%Q)
            (getActiveAccounts state) 0%Q.

Definition calculateTotalAvailableBalance (state : AccountState) : Q :=
  fold_left (fun total account =>
               let available :=
                 if AccountType_eqb (accountType account) CURRENT
                    && truthy (overdraftLimit account)
                 then match overdraftLimit account with
                      | Some overdraft => (balance account + overdraft)%Q
                      | None => balance account
                      end
                 else balance account in
               (total + available)%Q)
            (getActiveAccounts state) 0%Q.

Definition getAccountByNumber (state : AccountState) (number : string)
  : option Account :=
  find (fun account => String.eqb (accountNumber account) number)
       (accounts state).

Module AccountStatistics.
Record t := mk {
  totalAccounts : nat;
  activeAccounts : nat;
  closedAccounts : nat;
  suspendedAccounts : nat;
  savingsAccounts : nat;
  currentAccounts : nat;
  totalBalance : Q;
  totalAvailableBalance : Q;
  lowBalanceCount : nat
}.
End AccountStatistics.

Definition getAccountStatistics (state : AccountState) : AccountStatistics.t := {|
  AccountStatistics.totalAccounts := List.length (accounts state);
  AccountStatistics.activeAccounts := List.length (getActiveAccounts state);
  AccountStatistics.closedAccounts := List.length (getClosedAccounts state);
  AccountStatistics.suspendedAccounts :=
    List.length (getSuspendedAccounts state);
  AccountStatistics.savingsAccounts := List.length (getSavingsAccounts state);
  AccountStatistics.currentAccounts := List.length (getCurrentAccounts state);
  AccountStatistics.totalBalance := calculateTotalBalance state;
  AccountStatistics.totalAvailableBalance :=
    calculateTotalAvailableBalance state;
  AccountStatistics.lowBalanceCount :=
    List.length (getLowBalanceAccounts state)
|}.

(** Check if state needs refresh (data older than 5 minutes).  The clock
    is read only when the state has been updated before. *)
Definition needsRefresh (state : AccountState) : Timed bool :=
  match lastUpdated state with
  | None => ret true
  | Some updated =>
      let FIVE_MINUTES := 5 * 60 * 1000 in
      now <- new_Date ;;
      let lastUpdate := updated in
      ret (FIVE_MINUTES <? now - lastUpdate)
  end.

Definition canPerformTransactions (account : Account) : bool :=
  AccountStatus_eqb (status account) ACTIVE.

(** [x >= y] on amounts, as a boolean. *)
Definition Qgeb (x y : Q) : bool := Qle_bool y x.

Definition hasSufficientBalance (account : Account) (amount : Q) : bool :=
  if AccountType_eqb (accountType account) CURRENT
     && truthy (overdraftLimit account)
  then match overdraftLimit account with
       | Some overdraft =>
           let availableBalance := (balance account + overdraft)%Q in
           Qgeb availableBalance amount
       | None => Qgeb (balance account) amount
       end
  else Qgeb (balance account) amount.

Definition exceedsWithdrawalLimit (account : Account) (amount : Q) : bool :=
  if AccountType_eqb (accountType account) SAVINGS
  then let SAVINGS_WITHDRAWAL_LIMIT := 50000%Q in
       Qltb SAVINGS_WITHDRAWAL_LIMIT amount
  else (* No limit for current accounts *) false.

Definition getAccountTypeDisplayName (type : AccountType) : string :=
  if AccountType_eqb type SAVINGS then "Savings Account"
  else "Current Account".

Definition getStatusDisplayColor (s : AccountStatus) : string :=
  match s with
  | ACTIVE => "primary"
  | CLOSED => "warn"
  | SUSPENDED => "accent"
  end.

(* ================================================================== *)
(** ** account.selectors.ts, the other selectors *)

(** [createSelector] with two input selectors: the projector is memoized
    on the pair of its arguments, each compared with [===].  (In the
    library two selectors that share an input selector share its cache;
    here each keeps a cache of its own for it, which returns the same
    values.) *)
Definition createSelector2 {C1 C2 S A1 A2 B}
    (same1 : A1 -> A1 -> bool) (same2 : A2 -> A2 -> bool)
    (input1 : Selector C1 S A1) (input2 : Selector C2 S A2)
    (projector : A1 -> A2 -> B)
  : Selector (C1 * C2 * Memo (A1 * A2) B) S B :=
  fun cache state =>
    let (a1, c1') := input1 (fst (fst cache)) state in
    let (a2, c2') := input2 (snd (fst cache)) state in
    let (b, m') :=
      memoize (fun x y => same1 (fst x) (fst y) && same2 (snd x) (snd y))
              (fun p => projector (fst p) (snd p)) (snd cache) (a1, a2) in
    (b, (c1', c2', m')).




(** [===] on a string or null: strings are compared by value. *)
Definition sameText (x y : option string) : bool :=
  match x, y with
  | Some a, Some b => String.eqb a b
  | None, None => true
  | _, _ => false
  end.

(** [{ ...account, isLowBalance, canTransact, availableBalance }] *)
Module AccountWithStatus.
Record t := mk {
  account : Account;
  isLowBalance : bool;
  canTransact : bool;
  availableBalance : Q
}.
End AccountWithStatus.

Definition withStatus (account : Account) : AccountWithStatus.t := {|
  AccountWithStatus.account := account;
  AccountWithStatus.isLowBalance :=
    Qltb (balance account)
         (if AccountType_eqb (accountType account) SAVINGS
          then 2000%Q else 7000%Q);
  AccountWithStatus.canTransact := AccountStatus_eqb (status account) ACTIVE;
  AccountWithStatus.availableBalance :=
    if AccountType_eqb (accountType account) CURRENT
       && truthy (overdraftLimit account)
    then match overdraftLimit account with
         | Some overdraft => (balance account + overdraft)%Q
         | None => balance account
         end
    else balance account
|}.

Section MoreSelectors.
(** reference equality of root states, feature states, arrays, accounts
    and dates *)
Variable sameApp : AppState -> AppState -> bool.
Variable sameState : AccountState -> AccountState -> bool.
Variable sameArray : list Account -> list Account -> bool.
Variable sameAccount : option Account -> option Account -> bool.
Variable sameDate : option Date -> option Date -> bool.

Definition selectSelectedAccount :=
  createSelector sameState (selectAccountState sameApp)
    (fun state : AccountState => selectedAccount state).

Definition selectAccountsLoading :=
  createSelector sameState (selectAccountState sameApp)
    (fun state : AccountState => loading state).

Definition selectAccountError :=
  createSelector sameState (selectAccountState sameApp)
    (fun state : AccountState => error state).


Definition selectInitialized :=
  createSelector sameState (selectAccountState sameApp)
    (fun state : AccountState => initialized state).

(** Account by ID Selector Factory *)
Definition selectAccountById (accountId : Z) :=
  createSelector sameArray (selectAllAccounts sameApp sameState)
    (fun accounts : list Account =>
       find (fun account => id account =? accountId) accounts).

Definition selectTotalBalance :=
  createSelector sameArray (selectActiveAccounts sameApp sameState sameArray)
    (fun accounts : list Account =>
       fold_left (fun total account => (total + balance account)%Q)
                 accounts 0%Q).

Definition selectTotalAvailableBalance :=
  createSelector sameArray (selectActiveAccounts sameApp sameState sameArray)
    (fun accounts : list Account =>
       fold_left (fun total account =>
                    let available :=
                      if AccountType_eqb (accountType account) CURRENT
                         && truthy (overdraftLimit account)
                      then match overdraftLimit account with
                           | Some overdraft =>
                               (balance account + overdraft)%Q
                           | None => balance account
                           end
                      else balance account in
                    (total + available)%Q)
                 accounts 0%Q).

Definition selectLowBalanceCount :=
  createSelector sameArray
    (selectLowBalanceAccounts sameApp sameState sameArray)
    (fun accounts : list Account => List.length accounts).

Definition selectHasError :=
  createSelector sameText selectAccountError
    (fun error : option string =>
       match error with Some _ => true | None => false end).


Definition selectIsDataReady :=
  createSelector2 Bool.eqb Bool.eqb selectInitialized selectAccountsLoading
    (fun initialized loading => initialized && negb loading).

Definition selectAccountsWithStatus :=
  createSelector sameArray (selectAllAccounts sameApp sameState)
    (fun accounts : list Account =>
       List.map (fun account => withStatus account) accounts).

Definition selectSelectedAccountWithInfo :=
  createSelector sameAccount selectSelectedAccount
    (fun account : option Account =>
       match account with
       | None => None
       | Some account => Some (withStatus account)
       end).
End MoreSelectors.

(* ================================================================== *)
(** ** account.service.ts, the queries built on the calls above *)

(** The statistics object of the service. *)
Module ServiceStatistics.
Record t := mk {
  totalAccounts : nat;
  activeAccounts : nat;
  closedAccounts : nat;
  suspendedAccounts : nat;
  savingsAccounts : nat;
  currentAccounts : nat;
  totalBalance : Q
}.
End ServiceStatistics.

Module AccountServiceQueries.
Import Rx.

(** The value of an enum member, as it is written in a query string. *)
Definition statusValue (s : AccountStatus) : string :=
  match s with
  | ACTIVE => "ACTIVE"
  | CLOSED => "CLOSED"
  | SUSPENDED => "SUSPENDED"
  end.

Definition typeValue (t : AccountType) : string :=
  match t with
  | SAVINGS => "SAVINGS"
  | CURRENT => "CURRENT"
  end.

(** [new HttpParams().set('status', status)]: the request goes to the url
    with the query string appended. *)
Definition getAccountsByStatus (s : AccountStatus)
  : Observable (list Account) ErrorValue (list Account) :=
  http (GET (AccountService.endpoints.accounts ++ "?status="
               ++ statusValue s)%string)
    |> map (fun accounts =>
              ret (AccountService.transformAccountDates accounts))
    |> catchError AccountService.handleError.

Definition getAccountsByType (type : AccountType)
  : Observable (list Account) ErrorValue (list Account) :=
  http (GET (AccountService.endpoints.accounts ++ "?accountType="
               ++ typeValue type)%string)
    |> map (fun accounts =>
              ret (AccountService.transformAccountDates accounts))
    |> catchError AccountService.handleError.

Definition updateAccountStatus (accountId : Z) (s : AccountStatus)
  : State World (Observable Account ErrorValue Account) :=
  modified <- now ;;
  let updates :=
    {| StatusUpdate.status := s;
       StatusUpdate.lastModifiedDate := modified |} in
  ret (http (PATCH (AccountService.endpoints.accountById accountId) updates)
         |> map (fun account =>
                   ret (AccountService.transformAccountDate account))
         |> catchError AccountService.handleError).

(** Calculated client-side from all accounts. *)
Definition getAccountStatistics
  : Observable (list Account) ErrorValue ServiceStatistics.t :=
  AccountService.getAllAccounts
    |> map (fun accounts : list Account =>
              let active :=
                filter (fun a => AccountStatus_eqb (status a) ACTIVE)
                       accounts in
              let savings :=
                filter (fun a => AccountType_eqb (accountType a) SAVINGS)
                       accounts in
              let current :=
                filter (fun a => AccountType_eqb (accountType a) CURRENT)
                       accounts in
              ret {| ServiceStatistics.totalAccounts := List.length accounts;
                     ServiceStatistics.activeAccounts := List.length active;
                     ServiceStatistics.closedAccounts :=
                       List.length
                         (filter (fun a => AccountStatus_eqb (status a) CLOSED)
                                 accounts);
                     ServiceStatistics.suspendedAccounts :=
                       List.length
                         (filter (fun a =>
                                    AccountStatus_eqb (status a) SUSPENDED)
                                 accounts);
                     ServiceStatistics.savingsAccounts := List.length savings;
                     ServiceStatistics.currentAccounts := List.length current;
                     ServiceStatistics.totalBalance :=
                       fold_left (fun sum a => (sum + balance a)%Q)
                                 active 0%Q |}).

(** Filter client-side based on thresholds. *)
Definition getLowBalanceAccounts
  : Observable (list Account) ErrorValue (list Account) :=
  AccountService.getAllAccounts
    |> map (fun accounts : list Account =>
              ret (filter
                     (fun account =>
                        if negb (AccountStatus_eqb (status account) ACTIVE)
                        then false
                        else
                          let threshold :=
                            if AccountType_eqb (accountType account) SAVINGS
                            then ACCOUNT_RULES.SAVINGS.LOW_BALANCE_THRESHOLD
                            else ACCOUNT_RULES.CURRENT.LOW_BALANCE_THRESHOLD in
                          Qltb (balance account) threshold)
                     accounts)).
End AccountServiceQueries.

(* ================================================================== *)
(** ** account-details.component.ts *)

Module AccountDetailsComponent.

Definition getAccountTypeLabel (type : AccountType) : string :=
  if AccountType_eqb type SAVINGS then "Savings Account"
  else "Current Account".

Definition getStatusColor (s : AccountStatus) : string :=
  match s with
  | ACTIVE => "primary"
  | CLOSED => "warn"
  | SUSPENDED => "accent"
  end.

Definition isLowBalance (account : Account) : bool :=
  let threshold :=
    if AccountType_eqb (accountType account) SAVINGS
    then ACCOUNT_RULES.SAVINGS.LOW_BALANCE_THRESHOLD
    else ACCOUNT_RULES.CURRENT.LOW_BALANCE_THRESHOLD in
  Qltb (balance account) threshold.

Definition getAvailableBalance (account : Account) : Q :=
  if AccountType_eqb (accountType account) CURRENT
     && truthy (overdraftLimit account)
  then match overdraftLimit account with
       | Some overdraft => (balance account + overdraft)%Q
       | None => balance account
       end
  else balance account.

Definition canPerformTransactions (account : Account) : bool :=
  AccountStatus_eqb (status account) ACTIVE.

(** [refreshBalance]: the actions dispatched, by the component's
    [accountId]; [null] and [0] are falsy. *)
Definition refreshBalance (accountId : option Z) : list Action :=
  match accountId with
  | Some i => if i =? 0 then [] else [checkBalance i]
  | None => []
  end.

(** [closeAccount], by the answer to the confirmation: the actions
    dispatched and the url navigated to, if any. *)
Definition closeAccount (confirmed : bool) (account : Account)
  : list Action * option string :=
  if confirmed
  then ([deleteAccount (id account)], Some "/banking/accounts")
  else ([], None).

End AccountDetailsComponent.

(* ================================================================== *)
(** ** account-list.component.ts *)

Module AccountListComponent.

Definition loadAccounts : list Action := [AccountActions.loadAccounts].

(** [closeAccount], by the answer to the confirmation. *)
Definition closeAccount (confirmed : bool) (account : Account)
  : list Action :=
  if confirmed then [deleteAccount (id account)] else [].

Definition isAccountActive (s : AccountStatus) : bool :=
  AccountStatus_eqb s ACTIVE.

End AccountListComponent.

(* ================================================================== *)
(** ** account-create.component.ts *)

Module AccountCreateComponent.

(** The values of the three forms, the minimum that the [Validators.min]
    validator of the deposit control holds, and the component's
    [selectedAccountType].  An empty control is [None] or the empty
    string. *)
Record Forms := mkForms {
  accountHolderName : string;
  email : string;
  phone : string;
  accountType : option AccountType;
  initialDeposit : option Q;
  depositMinimum : Q;
  selectedAccountType : option AccountType
}.

Definition initializeForms : Forms := {|
  accountHolderName := "";
  email := "";
  phone := "";
  accountType := None;
  initialDeposit := None;
  depositMinimum := 100%Q;
  selectedAccountType := None
|}.

Definition updateDepositValidation (type : AccountType) (forms : Forms)
  : Forms := {|
  accountHolderName := accountHolderName forms;
  email := email forms;
  phone := phone forms;
  accountType := accountType forms;
  initialDeposit := initialDeposit forms;
  depositMinimum :=
    if AccountType_eqb type SAVINGS
    then ACCOUNT_RULES.SAVINGS.INITIAL_DEPOSIT_MIN
    else ACCOUNT_RULES.CURRENT.INITIAL_DEPOSIT_MIN;
  selectedAccountType := selectedAccountType forms
|}.

(** What the user does to the forms.  Choosing an account type runs the
    subscriber of [valueChanges]: it sets [selectedAccountType] and updates
    the deposit validation.  The deposit control is taken to be a numeric
    input, whose value is a number or null; a deposit control that holds
    other text is not modelled. *)
Inductive Edit :=
| enterName (value : string)
| enterEmail (value : string)
| enterPhone (value : string)
| enterDeposit (value : option Q)
| chooseType (type : AccountType).

Definition edit (forms : Forms) (e : Edit) : Forms :=
  match e with
  | enterName value =>
      {| accountHolderName := value; email := email forms;
         phone := phone forms; accountType := accountType forms;
         initialDeposit := initialDeposit forms;
         depositMinimum := depositMinimum forms;
         selectedAccountType := selectedAccountType forms |}
  | enterEmail value =>
      {| accountHolderName := accountHolderName forms; email := value;
         phone := phone forms; accountType := accountType forms;
         initialDeposit := initialDeposit forms;
         depositMinimum := depositMinimum forms;
         selectedAccountType := selectedAccountType forms |}
  | enterPhone value =>
      {| accountHolderName := accountHolderName forms; email := email forms;
         phone := value; accountType := accountType forms;
         initialDeposit := initialDeposit forms;
         depositMinimum := depositMinimum forms;
         selectedAccountType := selectedAccountType forms |}
  | enterDeposit value =>
      {| accountHolderName := accountHolderName forms; email := email forms;
         phone := phone forms; accountType := accountType forms;
         initialDeposit := value;
         depositMinimum := depositMinimum forms;
         selectedAccountType := selectedAccountType forms |}
  | chooseType type =>
      updateDepositValidation type
        {| accountHolderName := accountHolderName forms;
           email := email forms;
           phone := phone forms; accountType := Some type;
           initialDeposit := initialDeposit forms;
           depositMinimum := depositMinimum forms;
           selectedAccountType := Some type |}
  end.

Definition getMinDeposit (forms : Forms) : Q :=
  match selectedAccountType forms with
  | Some SAVINGS => ACCOUNT_RULES.SAVINGS.INITIAL_DEPOSIT_MIN
  | Some CURRENT => ACCOUNT_RULES.CURRENT.INITIAL_DEPOSIT_MIN
  | None => 0%Q
  end.

(** [Validators.required] on a text control. *)
Definition required (value : string) : bool :=
  match value with EmptyString => false | _ => true end.

(** [Validators.minLength(n)]: an empty value passes. *)
Definition minLength (n : nat) (value : string) : bool :=
  match value with
  | EmptyString => true
  | _ => (n <=? String.length value)%nat
  end.

Definition isDigit (c : Ascii.ascii) : bool :=
  let n := Ascii.nat_of_ascii c in ((48 <=? n) && (n <=? 57))%nat.

(** [Validators.pattern(/^[0-9]{10}$/)]: an empty value passes. *)
Definition phonePattern (value : string) : bool :=
  match value with
  | EmptyString => true
  | _ => (String.length value =? 10)%nat
         && forallb isDigit (list_ascii_of_string value)
  end.

(** [Validators.min(n)] with [Validators.required] on the deposit. *)
Definition depositValid (minimum : Q) (value : option Q) : bool :=
  match value with
  | Some v => Qgeb v minimum
  | None => false
  end.

Section Submit.
(** [Validators.email] of the forms library *)
Variable emailValid : string -> bool.

Definition personalInfoValid (forms : Forms) : bool :=
  required (accountHolderName forms) && minLength 3 (accountHolderName forms)
  && (required (email forms) && emailValid (email forms))
  && (required (phone forms) && phonePattern (phone forms)).

(** The actions that [onSubmit] dispatches. *)
Definition onSubmit (forms : Forms) : list Action :=
  if negb (personalInfoValid forms)
     || negb (match accountType forms with Some _ => true | None => false end)
     || negb (depositValid (depositMinimum forms) (initialDeposit forms))
  then []
  else
    match accountType forms, initialDeposit forms with
    | Some type, Some deposit =>
        let createRequest :=
          {| CreateAccountRequest.accountHolderName :=
               accountHolderName forms;
             CreateAccountRequest.email := email forms;
             CreateAccountRequest.phone := phone forms;
             CreateAccountRequest.accountType := type;
             CreateAccountRequest.initialDeposit := deposit |} in
        [createAccount createRequest]
    | _, _ => []
    end.
End Submit.

End AccountCreateComponent.

(* ================================================================== *)
(** ** appmenu.component.ts *)

Module AppmenuComponent.

(** [localStorage]: the keys with their values. *)
Definition Storage := list (string * string).

Definition getItem (key : string) (storage : Storage) : option string :=
  match find (fun entry => String.eqb (fst entry) key) storage with
  | Some entry => Some (snd entry)
  | None => None
  end.

(** [ngDoCheck]: the menu is hidden on the authentication pages. *)
Definition showmenu (currenturl : string) : bool :=
  if String.eqb currenturl "/login" || String.eqb currenturl "/register"
  then false else true.

Definition getUsername (storage : Storage) : string :=
  match getItem "username" storage with
  | Some username =>
      match username with EmptyString => "Guest" | _ => username end
  | None => "Guest"
  end.

Definition isLoggedIn (storage : Storage) : bool :=
  match getItem "username" storage with
  | Some _ => true
  | None => false
  end.

(** [logout], by the answer to the confirmation: the storage afterwards
    and the url navigated to, if any. *)
Definition logout (confirmed : bool) (storage : Storage)
  : Storage * option string :=
  if confirmed then ([], Some "/login") else (storage, None).

End AppmenuComponent.

(** The accounts of the collection have different ids. *)
Definition uniqueIds (s : AccountState) : Prop :=
  NoDup (List.map id (accounts s)).

(** An action that keeps the ids different: a loaded list has different
    ids, and a created account has an id that no account has yet. *)
Definition bringsNewIds (s : AccountState) (a : Action) : Prop :=
  match a with
  | loadAccountsSuccess accounts' => NoDup (List.map id accounts')
  | createAccountSuccess response =>
      accountExists s (id (CreateAccountResponse.account response)) = false
  | _ => True
  end.

(** A selector that, started with the caches [c0], returns [f] of the
    state at every read. *)
Definition reads {C S R} (sel : Selector C S R) (c0 : C) (f : S -> R)
  : Prop :=
  exists inv : C -> Prop, inv c0 /\ computes sel inv f.

(** A closed account whose balance is below the threshold of its type. *)
Definition closedLowAccount : Account := {|
  id := 9;
  accountNumber := "ACC100000009";
  accountType := SAVINGS;
  accountHolderName := "Kishore";
  email := "kishore@example.com";
  phone := "9999999998";
  balance := 10%Q;
  minBalance := 1000%Q;
  overdraftLimit := None;
  status := CLOSED;
  createdDate := 0;
  lastModifiedDate := 0;
  monthlyServiceCharge := 0%Q;
  interestRate := (9 # 2)%Q
|}.

Definition sampleApp : AppState := {| accountsFeature := sampleState |}.
Definition emptyApp : AppState := {| accountsFeature := initialAccountState |}.

(** The actions that start a call of the service. *)
Definition requests (a : Action) : bool :=
  match a with
  | loadAccounts | loadAccount _ | createAccount _ | deleteAccount _
  | checkBalance _ => true
  | _ => false
  end.

(** The error message of a failure action. *)
Definition failureOf (a : Action) : option string :=
  match a with
  | loadAccountsFailure e | loadAccountFailure e | createAccountFailure e
  | deleteAccountFailure e | checkBalanceFailure e => Some e
  | _ => None
  end.



(** The answer of [checkBalance] for an account. *)
Definition balanceOf (account : Account) : BalanceCheckResponse.t := {|
  BalanceCheckResponse.accountId := id account;
  BalanceCheckResponse.accountNumber := accountNumber account;
  BalanceCheckResponse.currentBalance := balance account;
  BalanceCheckResponse.availableBalance := getAvailableBalance account;
  BalanceCheckResponse.isLowBalance :=
    Qltb (balance account)
         (if AccountType_eqb (accountType account) SAVINGS
          then 2000%Q else 7000%Q);
  BalanceCheckResponse.minBalanceRequired := minBalance account
|}.

(** The decimal digits of a number, the lowest first: [k] digits of [n]. *)
Definition lowDigit (m : N) (d : Decimal.uint) : Decimal.uint :=
  match m with
  | 0%N => Decimal.D0 d | 1%N => Decimal.D1 d | 2%N => Decimal.D2 d
  | 3%N => Decimal.D3 d | 4%N => Decimal.D4 d | 5%N => Decimal.D5 d
  | 6%N => Decimal.D6 d | 7%N => Decimal.D7 d | 8%N => Decimal.D8 d
  | _ => Decimal.D9 d
  end.

Fixpoint littleDigits (k : nat) (n : N) : Decimal.uint :=
  match k with
  | O => Decimal.Nil
  | S k' => lowDigit (n mod 10)%N (littleDigits k' (n / 10)%N)
  end.

(* ================================================================== *)
(** ** account.service.ts, the validation helpers of the service

    Strings are sequences of ASCII characters; the white space that
    [trim] removes is the ASCII white space. *)

Module AccountServiceValidation.

Definition isWhiteSpace (c : Ascii.ascii) : bool :=
  let n := Ascii.nat_of_ascii c in
  ((9 <=? n) && (n <=? 13) || (n =? 32))%nat.

Fixpoint trimStart (s : string) : string :=
  match s with
  | EmptyString => EmptyString
  | String c rest => if isWhiteSpace c then trimStart rest else s
  end.

Fixpoint trimEnd (s : string) : string :=
  match s with
  | EmptyString => EmptyString
  | String c rest =>
      match trimEnd rest with
      | EmptyString =>
          if isWhiteSpace c then EmptyString else String c EmptyString
      | rest' => String c rest'
      end
  end.

Definition trim (s : string) : string := trimEnd (trimStart s).

Definition validateAccountHolderName (name : string) : bool :=
  match name with
  | EmptyString => false
  | _ =>
      let trimmedName := trim name in
      ((3 <=? String.length trimmedName)
       && (String.length trimmedName <=? 100))%nat
  end.

(** [/^[0-9]{10}$/.test(phone)] *)
Definition validatePhone (phone : string) : bool :=
  (String.length phone =? 10)%nat
  && forallb (fun c => let n := Ascii.nat_of_ascii c in
                       ((48 <=? n) && (n <=? 57))%nat)
             (list_ascii_of_string phone).

Definition validateInitialDeposit (amount : Q) (accountType : AccountType)
  : bool :=
  if AccountType_eqb accountType SAVINGS then Qgeb amount 1000%Q
  else if AccountType_eqb accountType CURRENT then Qgeb amount 5000%Q
  else false.

End AccountServiceValidation.

(* ================================================================== *)
(** * Theorems *)

(** ** Amounts and lists *)

Lemma Qltb_lt (x y : Q) : Qltb x y = true <-> (x < y)%Q.
Proof.
  unfold Qltb. rewrite negb_true_iff. split.
  - intros H. apply Qnot_le_lt. intros Hle.
    apply Qle_bool_iff in Hle. congruence.
  - intros H. destruct (Qle_bool y x) eqn:E; [|reflexivity].
    apply Qle_bool_iff in E. exfalso. exact (Qlt_not_le _ _ H E).
Qed.

Lemma truthy_false_zero (q : Q) : truthy (Some q) = false -> (q == 0)%Q.
Proof.
  unfold truthy. rewrite negb_false_iff. apply Qeq_bool_eq.
Qed.

Lemma AccountType_eqb_eq (x y : AccountType) :
  AccountType_eqb x y = true <-> x = y.
Proof. destruct x, y; simpl; split; congruence. Qed.

Lemma AccountStatus_eqb_eq (x y : AccountStatus) :
  AccountStatus_eqb x y = true <-> x = y.
Proof. destruct x, y; simpl; split; congruence. Qed.

Lemma existsb_id_In (i : Z) (l : list Account) :
  existsb (fun a => id a =? i) l = true <-> exists a, In a l /\ id a = i.
Proof.
  rewrite existsb_exists. split; intros [a [Hin H]]; exists a; split; auto.
  - now apply Z.eqb_eq.
  - now apply Z.eqb_eq.
Qed.

(** ** The transitions of the reducer, one by one *)

Section Transitions.
Variable s : AccountState.
Variable c : Clock.

Lemma failure_step (e : string) (a : Action) :
  In a [loadAccountsFailure e; loadAccountFailure e; createAccountFailure e;
        deleteAccountFailure e; checkBalanceFailure e] ->
  accountReducer s a c = (failed s e, c).
Proof.
  simpl. intros [H|[H|[H|[H|[H|[]]]]]]; subst a; reflexivity.
Qed.

Lemma deleteAccountSuccess_step (X : Z) (response : CloseAccountResponse.t) :
  let cleared := match selectedAccountId s with
                 | Some sid => sid =? X
                 | None => false
                 end in
  eval (accountReducer s (deleteAccountSuccess X response)) c =
  {| accounts := filter (fun a => negb (id a =? X)) (accounts s);
     selectedAccount := if cleared then None else selectedAccount s;
     selectedAccountId := if cleared then None else selectedAccountId s;
     loading := false;
     error := None;
     lastUpdated := Some (c O);
     initialized := initialized s |}.
Proof. reflexivity. Qed.

Lemma loadAccountSuccess_step (a : Account) :
  eval (accountReducer s (loadAccountSuccess a)) c =
  {| accounts :=
       if accountExists s (id a)
       then List.map (fun x => if id x =? id a then a else x) (accounts s)
       else accounts s ++ [a];
     selectedAccount := Some a;
     selectedAccountId := Some (id a);
     loading := false;
     error := None;
     lastUpdated := Some (c O);
     initialized := initialized s |}.
Proof. reflexivity. Qed.
End Transitions.

(** C6. Every failure action with error payload [e] leads to the state with
    [loading = false] and [error = e] in which the accounts, the selected
    account and its id, [initialized] and [lastUpdated] are those of the
    state before; the clock is not read. *)
Theorem failures_keep_cached_data (s : AccountState) (e : string) (c : Clock) :
  Forall (fun a =>
            accountReducer s a c = (failed s e, c)
            /\ loading (eval (accountReducer s a) c) = false
            /\ error (eval (accountReducer s a) c) = Some e
            /\ accounts (eval (accountReducer s a) c) = accounts s
            /\ selectedAccount (eval (accountReducer s a) c)
               = selectedAccount s
            /\ selectedAccountId (eval (accountReducer s a) c)
               = selectedAccountId s
            /\ initialized (eval (accountReducer s a) c) = initialized s
            /\ lastUpdated (eval (accountReducer s a) c) = lastUpdated s)
         [loadAccountsFailure e; loadAccountFailure e; createAccountFailure e;
          deleteAccountFailure e; checkBalanceFailure e].
Proof.
  apply Forall_forall. intros a Ha. unfold eval.
  rewrite (failure_step s c e a Ha). simpl. repeat split; reflexivity.
Qed.

(** C4. [deleteAccountSuccess {accountId: X}] removes every account whose id
    is X and keeps the others in their order, sets [loading] to false and
    [lastUpdated] to the time of the transition; when the selected id was X
    the selected id and the selected account are null afterwards, otherwise
    the selection is the one before. *)
Theorem deleteAccountSuccess_removes_and_clears
    (s : AccountState) (X : Z) (response : CloseAccountResponse.t)
    (c : Clock) :
  let s' := eval (accountReducer s (deleteAccountSuccess X response)) c in
  accounts s' = filter (fun a => negb (id a =? X)) (accounts s)
  /\ (forall a, In a (accounts s') <-> In a (accounts s) /\ id a <> X)
  /\ loading s' = false
  /\ lastUpdated s' = Some (c O)
  /\ (selectedAccountId s = Some X ->
      selectedAccountId s' = None /\ selectedAccount s' = None)
  /\ (selectedAccountId s <> Some X ->
      selectedAccountId s' = selectedAccountId s
      /\ selectedAccount s' = selectedAccount s).
Proof.
  intros s'. subst s'. rewrite deleteAccountSuccess_step. simpl.
  split; [reflexivity|]. split.
  { intros a. rewrite filter_In, negb_true_iff, Z.eqb_neq. reflexivity. }
  split; [reflexivity|]. split; [reflexivity|]. split.
  - intros H. rewrite H, Z.eqb_refl. split; reflexivity.
  - intros H. destruct (selectedAccountId s) as [sid|] eqn:E.
    + destruct (Z.eqb_spec sid X) as [->|Hne]; [congruence|].
      split; reflexivity.
    + split; reflexivity.
Qed.

(** C5. [loadAccountSuccess {account: a}] upserts [a] by id: when an element
    has the id of [a], the collection keeps its length and its order and
    the elements with that id are [a]; otherwise [a] is appended at the
    end.  [a] becomes the selected account, [selectedAccountId] its id,
    [loading] false, [error] null and [lastUpdated] the time of the
    transition. *)
Theorem loadAccountSuccess_upserts
    (s : AccountState) (a : Account) (c : Clock) :
  let s' := eval (accountReducer s (loadAccountSuccess a)) c in
  ((exists x, In x (accounts s) /\ id x = id a) ->
     List.length (accounts s') = List.length (accounts s)
     /\ In a (accounts s')
     /\ forall i,
          nth_error (accounts s') i =
          option_map (fun x => if id x =? id a then a else x)
                     (nth_error (accounts s) i))
  /\ ((forall x, In x (accounts s) -> id x <> id a) ->
      accounts s' = accounts s ++ [a])
  /\ selectedAccount s' = Some a
  /\ selectedAccountId s' = Some (id a)
  /\ loading s' = false
  /\ error s' = None
  /\ lastUpdated s' = Some (c O).
Proof.
  intros s'. subst s'. rewrite loadAccountSuccess_step. simpl.
  unfold accountExists. split; [|split].
  - intros Hex. pose proof Hex as Hex'.
    apply existsb_id_In in Hex'. rewrite Hex'.
    split; [apply length_map|]. split.
    + destruct Hex as [x [Hin Hid]]. apply in_map_iff. exists x.
      split; [|exact Hin]. apply Z.eqb_eq in Hid. now rewrite Hid.
    + intros i. apply nth_error_map.
  - intros Hnone.
    destruct (existsb (fun x => id x =? id a) (accounts s)) eqn:E;
      [|reflexivity].
    apply existsb_id_In in E. destruct E as [x [Hin Hid]].
    exfalso. exact (Hnone x Hin Hid).
  - repeat split; reflexivity.
Qed.

(** ** The reducer and the clock *)

Lemma respects_ret {A} (a : A) : respects (ret a).
Proof. intros c1 c2 H. split; [reflexivity | exact H]. Qed.

Lemma respects_new_Date : respects new_Date.
Proof.
  intros c1 c2 H. split; simpl.
  - apply H.
  - intros n. apply H.
Qed.

Lemma respects_bind {A B} (m : Timed A) (k : A -> Timed B) :
  respects m -> (forall a, respects (k a)) -> respects (bind m k).
Proof.
  intros Hm Hk c1 c2 H. unfold bind.
  destruct (Hm c1 c2 H) as [Hv Hc].
  destruct (m c1) as [a1 c1'], (m c2) as [a2 c2']. simpl in Hv, Hc.
  subst a2. apply Hk. exact Hc.
Qed.

Lemma respects_mapM {A B} (f : A -> Timed B) (xs : list A) :
  (forall x, respects (f x)) -> respects (mapM f xs).
Proof.
  intros Hf. induction xs as [|x xs IH]; simpl.
  - apply respects_ret.
  - apply respects_bind; [apply Hf|]. intros y.
    apply respects_bind; [exact IH|]. intros ys. apply respects_ret.
Qed.

Ltac respects_step :=
  first [ apply respects_ret
        | apply respects_new_Date
        | apply respects_mapM; intros
        | apply respects_bind; [|intros] ].

Lemma accountReducer_respects (s : AccountState) (a : Action) :
  respects (accountReducer s a).
Proof.
  destruct a as [ | | | | | | | | | | | | | | | |[i|]| ]; simpl;
    repeat respects_step.
  - destruct (id x =? BalanceCheckResponse.accountId response);
      repeat respects_step.
  - destruct (selectedAccount s) as [sel|]; [|apply respects_ret].
    destruct (id sel =? BalanceCheckResponse.accountId response);
      repeat respects_step.
Qed.

(** Two runs of a callback over a list give related lists when each call
    gives related values. *)
Lemma mapM_related {A B} (R : B -> B -> Prop) (f : A -> Timed B) :
  (forall x c c', R (fst (f x c)) (fst (f x c'))) ->
  forall xs c c', Forall2 R (fst (mapM f xs c)) (fst (mapM f xs c')).
Proof.
  intros Hf xs. induction xs as [|x xs IH]; intros c c'; simpl.
  - constructor.
  - unfold bind. specialize (Hf x c c').
    destruct (f x c) as [y c1], (f x c') as [y' c1']. simpl in Hf.
    specialize (IH c1 c1').
    destruct (mapM f xs c1) as [ys c2], (mapM f xs c1') as [ys' c2'].
    simpl in *. now constructor.
Qed.

Lemma Forall2_eq_refl {A} (l : list A) : Forall2 eq l l.
Proof. induction l; constructor; auto. Qed.

Lemma Forall2_eq {A} (l l' : list A) : Forall2 eq l l' -> l = l'.
Proof. induction 1; congruence. Qed.

Lemma accountReducer_agreeButStamps
    (s : AccountState) (a : Action) (c1 c2 : Clock) :
  agreeButStamps a (eval (accountReducer s a) c1)
                 (eval (accountReducer s a) c2).
Proof.
  assert (Hplain : forall s1 s2 : AccountState,
             updatedId a = None ->
             accounts s1 = accounts s2 ->
             selectedAccount s1 = selectedAccount s2 ->
             selectedAccountId s1 = selectedAccountId s2 ->
             loading s1 = loading s2 -> error s1 = error s2 ->
             (lastUpdated s1 = None <-> lastUpdated s2 = None) ->
             initialized s1 = initialized s2 ->
             agreeButStamps a s1 s2).
  { intros s1 s2 Hu Ha Hs Hi Hl He Ht Hn. unfold agreeButStamps.
    rewrite Hu, Ha, Hs. cbn [sameAccountButStamp].
    split; [apply Forall2_eq_refl|].
    split; [destruct (selectedAccount s2); [reflexivity | exact I]|].
    repeat split; try assumption; apply Ht. }
  destruct a as [ | | | | | | | | | | | | |response| | |[i|]| ];
    try (apply Hplain; try reflexivity; split; intros H; exact H);
    try (apply Hplain; try reflexivity; split; intros H; discriminate H).
  unfold eval. simpl accountReducer. unfold bind.
  set (rid := BalanceCheckResponse.accountId response).
  set (f := fun account : Account => if id account =? rid then _ else _).
  assert (Hf : forall x c c',
             sameAccountButStamp (Some rid) (fst (f x c)) (fst (f x c'))).
  { intros x c c'. unfold f, sameAccountButStamp.
    destruct (id x =? rid) eqn:E; cbn [fst ret new_Date bind].
    - unfold bind, new_Date, ret. cbn [fst with_balance id]. rewrite E.
      reflexivity.
    - unfold ret. cbn [fst]. rewrite E. reflexivity. }
  pose proof (mapM_related _ f Hf (accounts s) c1 c2) as Hm.
  destruct (mapM f (accounts s) c1) as [ys d1],
           (mapM f (accounts s) c2) as [ys' d2]. cbn [fst] in Hm.
  unfold agreeButStamps. cbn [updatedId]. fold rid.
  destruct (selectedAccount s) as [sel|].
  - destruct (id sel =? rid) eqn:E;
      unfold bind, new_Date, ret;
      cbn [fst snd accounts selectedAccount selectedAccountId loading
           error lastUpdated initialized sameAccountButStamp with_balance id];
      rewrite E; repeat split; try exact Hm; intros H; discriminate H.
  - unfold bind, new_Date, ret;
      cbn [fst snd accounts selectedAccount selectedAccountId loading
           error lastUpdated initialized];
      repeat split; try exact Hm; intros H; discriminate H.
Qed.

Lemma accountReducer_unstamped (s : AccountState) (a : Action) (c : Clock) :
  stamps a = false -> accountReducer s a c = (eval (accountReducer s a) c, c).
Proof.
  destruct a as [ | | | | | | | | | | | | | | | |[i|]| ];
    simpl; intros H; try discriminate; reflexivity.
Qed.

(** C1, as the code has it.  The transition function is a function of the
    state, the action and the readings of the clock: with the same readings
    it yields the same next state.  For an action that does not stamp the
    state (every action but the five successes) the next state depends on
    the state and the action alone.  For the five successes, two
    applications to the same state and action agree on everything except
    the timestamps: the date of [lastUpdated], and [lastModifiedDate] of
    the accounts that [checkBalanceSuccess] updates, those with the id of
    the response.  In particular every action but [checkBalanceSuccess]
    yields the same collection and the same selected account at any time,
    and [checkBalanceSuccess] yields the same accounts of any other id. *)
Theorem transition_deterministic_up_to_clock
    (s : AccountState) (a : Action) (c1 c2 : Clock) :
  let s1 := eval (accountReducer s a) c1 in
  let s2 := eval (accountReducer s a) c2 in
  (sameReadings c1 c2 -> s1 = s2)
  /\ (stamps a = false -> s1 = s2)
  /\ agreeButStamps a s1 s2
  /\ (updatedId a = None ->
      accounts s1 = accounts s2 /\ selectedAccount s1 = selectedAccount s2)
  /\ (forall i x, nth_error (accounts s1) i = Some x ->
                  updatedId a <> Some (id x) ->
                  nth_error (accounts s2) i = Some x).
Proof.
  intros s1 s2.
  pose proof (accountReducer_agreeButStamps s a c1 c2) as Hagree.
  fold s1 s2 in Hagree.
  split; [|split; [|split; [exact Hagree|split]]].
  - intros H. exact (proj1 (accountReducer_respects s a c1 c2 H)).
  - intros H. unfold s1, s2, eval.
    rewrite (accountReducer_unstamped s a c1 H).
    rewrite (accountReducer_unstamped s a c2 H). simpl.
    destruct a as [ | | | | | | | | | | | | | | | |[i|]| ];
      try discriminate; reflexivity.
  - intros Hu. destruct Hagree as (Hacc & Hsel & _). rewrite Hu in *.
    split; [exact (Forall2_eq _ _ Hacc)|].
    destruct (selectedAccount s1), (selectedAccount s2);
      cbn [sameAccountButStamp] in Hsel; try contradiction;
      [now rewrite Hsel | reflexivity].
  - destruct Hagree as (Hacc & _).
    induction Hacc as [|x y l l' Hxy _ IH]; intros i z Hi Hz.
    + destruct i; discriminate Hi.
    + destruct i as [|i]; cbn [nth_error] in *.
      * injection Hi as ->. f_equal. symmetry.
        unfold sameAccountButStamp in Hxy.
        destruct (updatedId a) as [u|]; [|exact Hxy].
        destruct (Z.eqb_spec (id z) u) as [E|E]; [|exact Hxy].
        exfalso. apply Hz. now rewrite E.
      * exact (IH i z Hi Hz).
Qed.

Lemma transition_deterministic_up_to_clock_witness :
  sameReadings (clockFrom 5) (fun n => Z.of_nat n + 5)
  /\ eval (accountReducer sampleState (loadAccountsSuccess [account2]))
          (clockFrom 5)
     = eval (accountReducer sampleState (loadAccountsSuccess [account2]))
            (fun n => Z.of_nat n + 5).
Proof.
  assert (H : sameReadings (clockFrom 5) (fun n => Z.of_nat n + 5)).
  { intros n. unfold clockFrom. lia. }
  split; [exact H|].
  exact (proj1 (transition_deterministic_up_to_clock sampleState
                  (loadAccountsSuccess [account2]) _ _) H).
Defined.

(** C1, as stated, fails: the same state and the same action, applied at two
    different times, give two different next states. *)
Lemma transition_reads_clock :
  eval (accountReducer initialAccountState (loadAccountsSuccess []))
       (clockFrom 1000)
  <> eval (accountReducer initialAccountState (loadAccountsSuccess []))
          (clockFrom 2000).
Proof. unfold eval, clockFrom. simpl. intros H. discriminate H. Qed.

(** ** The selection and the collection *)

Lemma selectionInCollection_ids (s : AccountState) :
  selectionInCollection s <->
  match selectedAccountId s with
  | None => True
  | Some i => In i (List.map id (accounts s))
  end.
Proof.
  unfold selectionInCollection. destruct (selectedAccountId s) as [i|].
  - rewrite in_map_iff. split; intros [a [H1 H2]]; exists a; tauto.
  - tauto.
Qed.

Lemma mapM_ids {A} (f : Account -> Timed Account) (g : Account -> A) :
  (forall x c, g (fst (f x c)) = g x) ->
  forall xs c, List.map g (fst (mapM f xs c)) = List.map g xs.
Proof.
  intros Hf xs. induction xs as [|x xs IH]; intros c; simpl.
  - reflexivity.
  - unfold bind. specialize (Hf x c). destruct (f x c) as [y c1].
    specialize (IH c1). destruct (mapM f xs c1) as [ys c2].
    simpl in *. now rewrite Hf, IH.
Qed.

Lemma checkBalanceSuccess_accounts {A} (g : Account -> A)
    (s : AccountState) (response : BalanceCheckResponse.t) (c : Clock) :
  (forall a b d, g (with_balance a b d) = g a) ->
  List.map g (accounts (eval (accountReducer s (checkBalanceSuccess response)) c))
  = List.map g (accounts s)
  /\ selectedAccountId (eval (accountReducer s (checkBalanceSuccess response)) c)
     = selectedAccountId s.
Proof.
  intros Hg. unfold eval. simpl. unfold bind.
  set (f := fun account : Account =>
              if id account =? BalanceCheckResponse.accountId response
              then _ else _).
  assert (Hf : forall x c, g (fst (f x c)) = g x).
  { intros x c0. unfold f.
    destruct (id x =? BalanceCheckResponse.accountId response); simpl;
      [apply Hg | reflexivity]. }
  pose proof (mapM_ids f g Hf (accounts s) c) as Hm.
  destruct (mapM f (accounts s) c) as [ys d1]. simpl in Hm.
  destruct (selectedAccount s) as [sel|]; simpl.
  - destruct (id sel =? BalanceCheckResponse.accountId response); simpl;
      split; [exact Hm | reflexivity | exact Hm | reflexivity].
  - split; [exact Hm | reflexivity].
Qed.

Lemma selection_step (s : AccountState) (a : Action) (c : Clock) :
  selectionInCollection s -> keepsSelection s a ->
  selectionInCollection (eval (accountReducer s a) c).
Proof.
  intros Hs Ha.
  destruct a as [ |l|e|i|a|e|r|r|e|i|X r|e|i|r|e| |[i|]|t];
    try exact Hs.
  - (* loadAccountsSuccess *)
    unfold selectionInCollection in *. simpl in *.
    destruct (selectedAccountId s) as [i|]; [|exact I].
    now apply existsb_id_In.
  - (* loadAccountSuccess *)
    unfold selectionInCollection. rewrite loadAccountSuccess_step. simpl.
    exists a. split; [|reflexivity].
    destruct (accountExists s (id a)) eqn:E.
    + apply existsb_id_In in E. destruct E as [x [Hin Hid]].
      apply in_map_iff. exists x. split; [|exact Hin].
      apply Z.eqb_eq in Hid. now rewrite Hid.
    + apply in_or_app. right. now left.
  - (* createAccountSuccess *)
    unfold selectionInCollection in *. simpl in *.
    destruct (selectedAccountId s) as [i|]; [|exact I].
    destruct Hs as [x [Hin Hid]]. exists x. split; [|exact Hid].
    apply in_or_app. now left.
  - (* deleteAccountSuccess *)
    unfold selectionInCollection in *. rewrite deleteAccountSuccess_step.
    simpl. destruct (selectedAccountId s) as [i|]; [|exact I].
    destruct (Z.eqb_spec i X) as [->|Hne]; [exact I|].
    destruct Hs as [x [Hin Hid]]. exists x. split; [|exact Hid].
    apply filter_In. split; [exact Hin|].
    apply negb_true_iff, Z.eqb_neq. congruence.
  - (* checkBalanceSuccess *)
    apply selectionInCollection_ids.
    apply selectionInCollection_ids in Hs.
    destruct (checkBalanceSuccess_accounts id s r c) as [Hm Hsel];
      [reflexivity|].
    rewrite Hsel, Hm. exact Hs.
  - (* selectAccount of an id *)
    unfold selectionInCollection. simpl in *.
    now apply existsb_id_In.
  - (* selectAccount of null *)
    exact I.
Qed.

(** C2, as the code has it.  In every state reached from the initial state
    by actions in which each [selectAccount] carries null or the id of an
    account that is in the collection then, and each [loadAccountsSuccess]
    carries a list that has the selected id (when an id is selected),
    [selectedAccountId] is null or the id of an account of the
    collection.  Both conditions are needed, in every state:
    [selectAccount] stores the id it is given and selects the first
    account with that id, so with an id that no account has it leaves
    [selectedAccountId] outside the collection with a null
    [selectedAccount]; and [loadAccountsSuccess] replaces the collection
    and keeps [selectedAccountId] and [selectedAccount] as they are, so
    with a list that lacks the selected id it leaves [selectedAccountId]
    outside the collection. *)
Theorem selection_stays_in_collection :
  (forall s, reachableBy keepsSelection s -> selectionInCollection s)
  /\ (forall s i c,
        let s' := eval (accountReducer s (selectAccount (Some i))) c in
        selectedAccountId s' = Some i
        /\ selectedAccount s' = getAccountById s i
        /\ accounts s' = accounts s
        /\ (accountExists s i = false ->
            selectedAccount s' = None /\ ~ selectionInCollection s'))
  /\ (forall s l c,
        let s' := eval (accountReducer s (loadAccountsSuccess l)) c in
        accounts s' = l
        /\ selectedAccountId s' = selectedAccountId s
        /\ selectedAccount s' = selectedAccount s
        /\ (forall i, selectedAccountId s = Some i ->
                      existsb (fun a => id a =? i) l = false ->
                      ~ selectionInCollection s')).
Proof.
  split; [|split].
  - induction 1 as [|s a c Hreach IH Hok].
    + exact I.
    + now apply selection_step.
  - intros s i c s'. subst s'.
    split; [reflexivity|]. split; [reflexivity|]. split; [reflexivity|].
    intros Hno. split.
    + cbn. unfold accountExists in Hno.
      induction (accounts s) as [|x l IH]; [reflexivity|].
      cbn in *. destruct (id x =? i); [discriminate Hno | exact (IH Hno)].
    + intros Hin. unfold selectionInCollection in Hin. cbn in Hin.
      destruct Hin as [x [Hx Hid]].
      assert (E : accountExists s i = true).
      { apply existsb_exists. exists x. split; [exact Hx|].
        now apply Z.eqb_eq. }
      congruence.
  - intros s l c s'. subst s'.
    split; [reflexivity|]. split; [reflexivity|]. split; [reflexivity|].
    intros i Hsel Hno Hin. unfold selectionInCollection in Hin.
    cbn in Hin. rewrite Hsel in Hin. destruct Hin as [x [Hx Hid]].
    assert (E : existsb (fun a => id a =? i) l = true).
    { apply existsb_exists. exists x. split; [exact Hx|].
      now apply Z.eqb_eq. }
    congruence.
Qed.

Lemma selection_stays_in_collection_witness :
  let s1 := eval (accountReducer initialAccountState
                    (loadAccountsSuccess [account1; account2])) (clockFrom 10) in
  let s2 := eval (accountReducer s1 (selectAccount (Some 2))) (clockFrom 20) in
  let s3 := eval (accountReducer s2 (deleteAccountSuccess 1 sampleClosed))
                 (clockFrom 30) in
  reachableBy keepsSelection s3
  /\ selectedAccountId s3 = Some 2
  /\ selectionInCollection s3.
Proof.
  intros s1 s2 s3.
  assert (H : reachableBy keepsSelection s3).
  { unfold s3, s2, s1.
    apply reachable_step; [|exact I].
    apply reachable_step; [|reflexivity].
    apply reachable_step; [|exact I].
    apply reachable_init. }
  split; [exact H|]. split; [reflexivity|].
  exact (proj1 selection_stays_in_collection s3 H).
Defined.

(** C2, as stated, fails, in two ways.  [selectAccount] with an id that no
    account has stores that id, and the state is reachable.  And after an
    account of the collection was selected, which keeps the selected id in
    the collection, [loadAccountsSuccess] with a list that lacks that
    account leaves the selected id, and the selected account, in place. *)
Lemma selected_id_outside_collection :
  let s := eval (accountReducer initialAccountState (selectAccount (Some 5)))
                (clockFrom 0) in
  let t1 := eval (accountReducer initialAccountState
                    (loadAccountsSuccess [account1])) (clockFrom 10) in
  let t2 := eval (accountReducer t1 (selectAccount (Some 1))) (clockFrom 20) in
  let t3 := eval (accountReducer t2 (loadAccountsSuccess [account2]))
                 (clockFrom 30) in
  (reachable s
   /\ selectedAccountId s = Some 5
   /\ selectedAccount s = None
   /\ accounts s = []
   /\ ~ selectionInCollection s)
  /\ (reachableBy keepsSelection t2
      /\ selectionInCollection t2
      /\ reachable t3
      /\ selectedAccountId t3 = Some 1
      /\ selectedAccount t3 = Some account1
      /\ accounts t3 = [account2]
      /\ ~ selectionInCollection t3).
Proof.
  intros s t1 t2 t3. split.
  - split.
    { unfold s. apply reachable_step; [apply reachable_init | exact I]. }
    split; [reflexivity|]. split; [reflexivity|]. split; [reflexivity|].
    intros [a [Hin _]]. exact Hin.
  - split.
    { unfold t2, t1. apply reachable_step; [|reflexivity].
      apply reachable_step; [apply reachable_init | exact I]. }
    split.
    { exists account1. split; [now left | reflexivity]. }
    split.
    { unfold t3, t2, t1.
      repeat (apply reachable_step; [|exact I]). apply reachable_init. }
    split; [reflexivity|]. split; [reflexivity|]. split; [reflexivity|].
    intros [a [Hin Hid]]. destruct Hin as [<- | []]. discriminate Hid.
Qed.

(** ** Overdraft limits and account types *)

Lemma overdraftIffCurrent_map (l : list Account) :
  Forall overdraftIffCurrent l <->
  Forall (fun p : option Q * AccountType => fst p <> None <-> snd p = CURRENT)
         (List.map (fun a => (overdraftLimit a, accountType a)) l).
Proof. rewrite Forall_map. reflexivity. Qed.

Lemma overdraft_step (s : AccountState) (a : Action) (c : Clock) :
  Forall overdraftIffCurrent (accounts s) ->
  Forall overdraftIffCurrent (payloadAccounts a) ->
  Forall overdraftIffCurrent (accounts (eval (accountReducer s a) c)).
Proof.
  intros Hs Ha.
  destruct a as [ |l|e|i|a|e|r|r|e|i|X r|e|i|r|e| |[i|]|t];
    try exact Hs.
  - (* loadAccountsSuccess *) exact Ha.
  - (* loadAccountSuccess *)
    rewrite loadAccountSuccess_step. simpl in *.
    apply Forall_inv in Ha.
    destruct (accountExists s (id a)).
    + apply Forall_map. apply Forall_forall. intros x Hx.
      destruct (id x =? id a); [exact Ha|].
      revert x Hx. now apply Forall_forall.
    + apply Forall_app. split; [exact Hs | now constructor].
  - (* createAccountSuccess *)
    simpl in *. apply Forall_app. split; [exact Hs | exact Ha].
  - (* deleteAccountSuccess *)
    rewrite deleteAccountSuccess_step. simpl.
    apply Forall_forall. intros x Hx. apply filter_In in Hx.
    destruct Hx as [Hx _]. revert x Hx. now apply Forall_forall.
  - (* checkBalanceSuccess *)
    apply overdraftIffCurrent_map.
    apply overdraftIffCurrent_map in Hs.
    destruct (checkBalanceSuccess_accounts
                (fun a => (overdraftLimit a, accountType a)) s r c) as [Hm _];
      [reflexivity|].
    rewrite Hm. exact Hs.
Qed.

Lemma createAccount_posts (random : Q) (request : CreateAccountRequest.t)
    (backend : Backend Account) (w : World) :
  exists body,
    sent (snd (subscribe (AccountService.createAccount random request)
                 backend w))
    = sent w ++ [POST AccountService.endpoints.accounts body]
    /\ NewAccount.accountType body = CreateAccountRequest.accountType request
    /\ NewAccount.overdraftLimit body
       = match CreateAccountRequest.accountType request with
         | CURRENT => Some ACCOUNT_RULES.CURRENT.OVERDRAFT_LIMIT
         | SAVINGS => None
         end.
Proof.
  unfold subscribe, AccountService.createAccount, bind, now, new_Date, ret.
  cbn [clock sent fst snd].
  unfold Rx.catchError, Rx.map, Rx.delay, Rx.http, bind, ret.
  cbn [clock sent fst snd].
  match goal with |- context [backend ?n ?r] => destruct (backend n r) end;
    cbn [clock sent fst snd];
    (eexists; split; [reflexivity|]; split; [reflexivity|];
     cbn [NewAccount.overdraftLimit];
     destruct (CreateAccountRequest.accountType request); reflexivity).
Qed.

(** C3, as the code has it.  The store keeps the accounts as the actions
    bring them: when every account that an action carries
    ([loadAccountsSuccess], [loadAccountSuccess], [createAccountSuccess])
    has [overdraftLimit] defined iff its type is CURRENT, so has every
    account of every state reached.  The account that
    [AccountService.createAccount] posts has [overdraftLimit] defined iff
    the requested type is CURRENT. *)
Theorem overdraft_iff_current_when_payloads_are
    (s : AccountState) (random : Q) (request : CreateAccountRequest.t)
    (backend : Backend Account) (w : World) :
  (reachableBy bringsTypedAccounts s ->
   Forall overdraftIffCurrent (accounts s))
  /\ exists body,
       sent (snd (subscribe (AccountService.createAccount random request)
                    backend w))
       = sent w ++ [POST AccountService.endpoints.accounts body]
       /\ NewAccount.accountType body
          = CreateAccountRequest.accountType request
       /\ (NewAccount.overdraftLimit body <> None
           <-> NewAccount.accountType body = CURRENT).
Proof.
  split.
  - induction 1 as [|s0 a c Hreach IH Hok].
    + constructor.
    + now apply overdraft_step.
  - destruct (createAccount_posts random request backend w)
      as [body [Hsent [Htype Hod]]].
    exists body. split; [exact Hsent|]. split; [exact Htype|].
    rewrite Hod, Htype.
    destruct (CreateAccountRequest.accountType request);
      split; congruence.
Qed.

Lemma overdraft_iff_current_when_payloads_are_witness :
  let s1 := eval (accountReducer initialAccountState
                    (loadAccountsSuccess [account1; account2])) (clockFrom 10) in
  let s2 := eval (accountReducer s1 (loadAccountSuccess account3))
                 (clockFrom 20) in
  reachableBy bringsTypedAccounts s2
  /\ Forall overdraftIffCurrent (accounts s2).
Proof.
  intros s1 s2.
  assert (T1 : overdraftIffCurrent account1)
    by (split; [intros H; now contradiction H | discriminate]).
  assert (T2 : overdraftIffCurrent account2)
    by (split; [reflexivity | discriminate]).
  assert (T3 : overdraftIffCurrent account3)
    by (split; [intros H; now contradiction H | discriminate]).
  assert (H : reachableBy bringsTypedAccounts s2).
  { unfold s2, s1.
    apply reachable_step;
      [|repeat (apply Forall_cons; [assumption|]); apply Forall_nil].
    apply reachable_step;
      [|repeat (apply Forall_cons; [assumption|]); apply Forall_nil].
    apply reachable_init. }
  split; [exact H|].
  exact (proj1 (overdraft_iff_current_when_payloads_are s2 0%Q sampleRequest
                  (fun _ _ => Ok account2) sampleWorld) H).
Defined.

(** C3, as stated, fails: a loaded list is stored as it comes, so a SAVINGS
    account with an overdraft limit and a CURRENT account with none are in
    the collection of a reachable state. *)
Lemma untyped_accounts_reachable :
  let s := eval (accountReducer initialAccountState
                   (loadAccountsSuccess
                      [savingsWithOverdraft; currentWithoutOverdraft]))
                (clockFrom 0) in
  reachable s
  /\ accounts s = [savingsWithOverdraft; currentWithoutOverdraft]
  /\ ~ overdraftIffCurrent savingsWithOverdraft
  /\ ~ overdraftIffCurrent currentWithoutOverdraft
  /\ ~ Forall overdraftIffCurrent (accounts s).
Proof.
  intros s.
  assert (B1 : ~ overdraftIffCurrent savingsWithOverdraft).
  { intros [H _]. assert (E : SAVINGS = CURRENT) by (apply H; discriminate).
    discriminate E. }
  assert (B2 : ~ overdraftIffCurrent currentWithoutOverdraft).
  { intros [_ H]. apply H; reflexivity. }
  split.
  { unfold s. apply reachable_step; [apply reachable_init | exact I]. }
  split; [reflexivity|]. split; [exact B1|]. split; [exact B2|].
  intros H. apply Forall_inv in H. exact (B1 H).
Qed.

(** ** Examples of the transitions *)

Lemma deleteAccountSuccess_removes_and_clears_witness :
  selectedAccountId sampleState = Some 1
  /\ let s' := eval (accountReducer sampleState
                       (deleteAccountSuccess 1 sampleClosed))
                    (clockFrom 5000) in
     accounts s' = [account2; account3]
     /\ selectedAccountId s' = None
     /\ selectedAccount s' = None
     /\ lastUpdated s' = Some 5000.
Proof.
  split; [reflexivity|]. intros s'. unfold s'.
  destruct (deleteAccountSuccess_removes_and_clears sampleState 1 sampleClosed
              (clockFrom 5000)) as (Hacc & _ & _ & Hupd & Hsel & _).
  destruct (Hsel eq_refl) as [H1 H2].
  split; [rewrite Hacc; reflexivity|].
  split; [exact H1|]. split; [exact H2 | exact Hupd].
Defined.

Lemma loadAccountSuccess_upserts_witness :
  (exists x, In x (accounts sampleState) /\ id x = id account2')
  /\ let s' := eval (accountReducer sampleState (loadAccountSuccess account2'))
                    (clockFrom 5000) in
     List.length (accounts s') = 3%nat
     /\ In account2' (accounts s')
     /\ nth_error (accounts s') 1 = Some account2'
     /\ selectedAccountId s' = Some 2.
Proof.
  assert (H : exists x, In x (accounts sampleState) /\ id x = id account2').
  { exists account2. split; [right; left; reflexivity | reflexivity]. }
  split; [exact H|]. intros s'. unfold s'.
  destruct (loadAccountSuccess_upserts sampleState account2' (clockFrom 5000))
    as (Hup & _ & _ & Hid & _).
  destruct (Hup H) as (Hlen & Hin & Hnth).
  split; [rewrite Hlen; reflexivity|]. split; [exact Hin|].
  split; [rewrite Hnth; reflexivity | exact Hid].
Defined.

(** The scenario of the specification: [loadAccounts], then
    [loadAccountsSuccess] with one account. *)
Example load_scenario :
  let s1 := eval (accountReducer initialAccountState loadAccounts)
                 (clockFrom 0) in
  let s2 := eval (accountReducer s1 (loadAccountsSuccess [account1]))
                 (clockFrom 0) in
  loading s1 = true
  /\ loading s2 = false
  /\ List.length (accounts s2) = 1%nat
  /\ initialized s2 = true.
Proof. repeat split; reflexivity. Qed.

(** ** The balance check of the service *)

Lemma checkBalance_reply (accountId : Z) (backend : Backend Account)
    (w : World) :
  fst (AccountService.checkBalance accountId backend w) =
  match backend (List.length (sent w))
                (GET (AccountService.endpoints.accountById accountId)) with
  | Ok account =>
      Next {| BalanceCheckResponse.accountId := id account;
              BalanceCheckResponse.accountNumber := accountNumber account;
              BalanceCheckResponse.currentBalance := balance account;
              BalanceCheckResponse.availableBalance :=
                if AccountType_eqb (accountType account) CURRENT
                   && truthy (overdraftLimit account)
                then match overdraftLimit account with
                     | Some overdraft => (balance account + overdraft)%Q
                     | None => balance account
                     end
                else balance account;
              BalanceCheckResponse.isLowBalance :=
                Qltb (balance account)
                     (if AccountType_eqb (accountType account) SAVINGS
                      then 2000%Q else 7000%Q);
              BalanceCheckResponse.minBalanceRequired := minBalance account |}
  | Fail e => Thrown (new_Error (AccountService.errorMessageOf e))
  end.
Proof.
  unfold AccountService.checkBalance, Rx.catchError, Rx.map, Rx.http,
    AccountService.handleError, Rx.throwError, bind, ret.
  destruct (backend _ _); reflexivity.
Qed.

(** C7, as the code has it.  The balance check of an account [a] answers
    with [availableBalance = balance + overdraftLimit] when [a] is CURRENT
    (with an overdraft limit) and [availableBalance = balance] when [a] is
    SAVINGS, and with [isLowBalance = (balance < 2000)] for SAVINGS and
    [(balance < 7000)] for CURRENT, whatever the backend and the world; for
    a CURRENT account with balance 100 and overdraft limit 10000 the
    available balance is 10100 and [isLowBalance] is true, since 100 is
    below 7000.  (A CURRENT account that has no overdraft limit gets
    [availableBalance = balance].) *)
Theorem checkBalance_available_and_low
    (accountId : Z) (backend : Backend Account) (w : World) (a : Account) :
  backend (List.length (sent w))
          (GET (AccountService.endpoints.accountById accountId)) = Ok a ->
  exists r,
    fst (AccountService.checkBalance accountId backend w) = Next r
    /\ BalanceCheckResponse.currentBalance r = balance a
    /\ (accountType a = CURRENT ->
        forall od, overdraftLimit a = Some od ->
          (BalanceCheckResponse.availableBalance r == balance a + od)%Q)
    /\ (accountType a = CURRENT -> overdraftLimit a = None ->
        BalanceCheckResponse.availableBalance r = balance a)
    /\ (accountType a = SAVINGS ->
        BalanceCheckResponse.availableBalance r = balance a)
    /\ BalanceCheckResponse.isLowBalance r
       = match accountType a with
         | SAVINGS => Qltb (balance a) 2000%Q
         | CURRENT => Qltb (balance a) 7000%Q
         end
    /\ (BalanceCheckResponse.isLowBalance r = true <->
        (balance a < match accountType a with
                     | SAVINGS => 2000
                     | CURRENT => 7000
                     end)%Q)
    /\ (accountType a = CURRENT -> balance a = 100%Q ->
        overdraftLimit a = Some 10000%Q ->
        BalanceCheckResponse.availableBalance r = 10100%Q
        /\ BalanceCheckResponse.isLowBalance r = true).
Proof.
  intros Hreply. rewrite checkBalance_reply, Hreply.
  eexists. split; [reflexivity|].
  cbn [BalanceCheckResponse.currentBalance
       BalanceCheckResponse.availableBalance
       BalanceCheckResponse.isLowBalance].
  split; [reflexivity|]. split; [|split; [|split; [|split; [|split]]]].
  - intros Ht od Hod. rewrite Ht, Hod. cbn [AccountType_eqb andb].
    destruct (truthy (Some od)) eqn:E.
    + reflexivity.
    + apply truthy_false_zero in E. rewrite E. symmetry. apply Qplus_0_r.
  - intros Ht Hod. rewrite Ht, Hod. reflexivity.
  - intros Ht. rewrite Ht. reflexivity.
  - destruct (accountType a); reflexivity.
  - rewrite Qltb_lt. destruct (accountType a); reflexivity.
  - intros Ht Hb Hod. rewrite Ht, Hb, Hod. split; vm_compute; reflexivity.
Qed.

Lemma checkBalance_available_and_low_witness :
  account2Backend (List.length (sent sampleWorld))
                  (GET (AccountService.endpoints.accountById 2)) = Ok account2
  /\ exists r,
       fst (AccountService.checkBalance 2 account2Backend sampleWorld) = Next r
       /\ BalanceCheckResponse.availableBalance r = 10100%Q
       /\ (BalanceCheckResponse.isLowBalance r = true <-> (100 < 7000)%Q).
Proof.
  split; [reflexivity|].
  destruct (checkBalance_available_and_low 2 account2Backend sampleWorld
              account2 eq_refl)
    as (r & Hr & _ & _ & _ & _ & _ & Hlow & Hscenario).
  exists r. split; [exact Hr|].
  split; [exact (proj1 (Hscenario eq_refl eq_refl eq_refl)) | exact Hlow].
Defined.

(** C7, as stated, fails in its scenario: for the CURRENT account with
    balance 100 and overdraft limit 10000 the available balance is 10100,
    and [isLowBalance] is true, not false. *)
Lemma current_scenario_is_low :
  fst (AccountService.checkBalance 2 account2Backend sampleWorld)
  = Next {| BalanceCheckResponse.accountId := 2;
            BalanceCheckResponse.accountNumber := "ACC100000001";
            BalanceCheckResponse.currentBalance := 100%Q;
            BalanceCheckResponse.availableBalance := 10100%Q;
            BalanceCheckResponse.isLowBalance := true;
            BalanceCheckResponse.minBalanceRequired := 5000%Q |}
  /\ ~ (exists r,
          fst (AccountService.checkBalance 2 account2Backend sampleWorld)
          = Next r
          /\ BalanceCheckResponse.isLowBalance r = false).
Proof.
  split; [reflexivity|].
  intros (r & Hr & Hlow).
  assert (E : r = {| BalanceCheckResponse.accountId := 2;
                     BalanceCheckResponse.accountNumber := "ACC100000001";
                     BalanceCheckResponse.currentBalance := 100%Q;
                     BalanceCheckResponse.availableBalance := 10100%Q;
                     BalanceCheckResponse.isLowBalance := true;
                     BalanceCheckResponse.minBalanceRequired := 5000%Q |}).
  { assert (H : fst (AccountService.checkBalance 2 account2Backend sampleWorld)
                = Next {| BalanceCheckResponse.accountId := 2;
                          BalanceCheckResponse.accountNumber := "ACC100000001";
                          BalanceCheckResponse.currentBalance := 100%Q;
                          BalanceCheckResponse.availableBalance := 10100%Q;
                          BalanceCheckResponse.isLowBalance := true;
                          BalanceCheckResponse.minBalanceRequired := 5000%Q |})
      by reflexivity.
    rewrite Hr in H. now inversion H. }
  rewrite E in Hlow. discriminate Hlow.
Qed.

(** The scenario of the specification for a SAVINGS account: balance 1500 is
    low. *)
Example savings_low_scenario :
  fst (AccountService.checkBalance 3 (fun _ _ => Ok account3) sampleWorld)
  = Next {| BalanceCheckResponse.accountId := 3;
            BalanceCheckResponse.accountNumber := "ACC100000001";
            BalanceCheckResponse.currentBalance := 1500%Q;
            BalanceCheckResponse.availableBalance := 1500%Q;
            BalanceCheckResponse.isLowBalance := true;
            BalanceCheckResponse.minBalanceRequired := 1000%Q |}.
Proof. reflexivity. Qed.

(** ** Retries of the service *)

Lemma retry_0 {B E A} (source : Observable B E A) (backend : Backend B)
    (w : World) :
  Rx.retry 0 source backend w = source backend w.
Proof.
  simpl. unfold bind. destruct (source backend w) as [[a|e] w']; reflexivity.
Qed.

Lemma retry_S {B E A} (count : nat) (source : Observable B E A)
    (backend : Backend B) (w : World) :
  Rx.retry (S count) source backend w =
  match source backend w with
  | (Next a, w') => (Next a, w')
  | (Thrown _, w') => Rx.retry count source backend w'
  end.
Proof.
  simpl. unfold bind. destruct (source backend w) as [[a|e] w']; reflexivity.
Qed.

Lemma map_http_run {B A} (f : B -> A) (request : HttpRequest)
    (backend : Backend B) (w : World) :
  Rx.map (fun x => ret (f x)) (Rx.http request) backend w =
  (match backend (List.length (sent w)) request with
   | Ok body => Next (f body)
   | Fail e => Thrown e
   end,
   {| clock := clock w; sent := sent w ++ [request] |}).
Proof.
  unfold Rx.map, Rx.http, bind, ret.
  destruct (backend _ _); reflexivity.
Qed.

(** What [getAllAccounts] delivers and sends, by the answers of the backend
    to the first and the second request. *)
Lemma getAllAccounts_run (backend : Backend (list Account)) (w : World) :
  let n := List.length (sent w) in
  let get := GET AccountService.endpoints.accounts in
  AccountService.getAllAccounts backend w =
  match backend n get with
  | Ok accounts =>
      (Next (AccountService.transformAccountDates accounts),
       {| clock := clock w; sent := sent w ++ [get] |})
  | Fail _ =>
      (match backend (S n) get with
       | Ok accounts => Next (AccountService.transformAccountDates accounts)
       | Fail e => Thrown (new_Error (AccountService.errorMessageOf e))
       end,
       {| clock := clock w; sent := sent w ++ [get; get] |})
  end.
Proof.
  intros n get. unfold AccountService.getAllAccounts, Rx.catchError.
  unfold bind at 1. rewrite retry_S, map_http_run. fold get. fold n.
  destruct (backend n get) as [l|e1]; [reflexivity|].
  rewrite retry_0, map_http_run. cbn [clock sent]. fold get.
  rewrite length_app. cbn [List.length]. rewrite Nat.add_1_r. fold n.
  rewrite <- app_assoc. cbn [app].
  destruct (backend (S n) get) as [l|e2]; reflexivity.
Qed.

(** What [createAccount] delivers and sends. *)
Lemma createAccount_run (random : Q) (request : CreateAccountRequest.t)
    (backend : Backend Account) (w : World) :
  exists post,
    sent (snd (subscribe (AccountService.createAccount random request)
                 backend w)) = sent w ++ [post]
    /\ fst (subscribe (AccountService.createAccount random request) backend w)
       = match backend (List.length (sent w)) post with
         | Ok account =>
             Next {| CreateAccountResponse.success := true;
                     CreateAccountResponse.message :=
                       ("Account " ++ accountNumber account
                          ++ " created successfully!")%string;
                     CreateAccountResponse.account :=
                       AccountService.transformAccountDate account |}
         | Fail e => Thrown (new_Error (AccountService.errorMessageOf e))
         end.
Proof.
  unfold subscribe, AccountService.createAccount, bind, now, new_Date, ret.
  cbn [clock sent fst snd].
  unfold Rx.catchError, Rx.map, Rx.delay, Rx.http, bind, ret.
  cbn [clock sent fst snd].
  match goal with |- context [backend ?n ?r] =>
    exists r; destruct (backend n r) end;
    cbn [clock sent fst snd]; split; reflexivity.
Qed.

(** What [closeAccount] delivers and sends. *)
Lemma closeAccount_run (accountId : Z) (reason : string)
    (backend : Backend Account) (w : World) :
  exists patch,
    sent (snd (subscribe (AccountService.closeAccount accountId reason)
                 backend w)) = sent w ++ [patch]
    /\ fst (subscribe (AccountService.closeAccount accountId reason) backend w)
       = match backend (List.length (sent w)) patch with
         | Ok _ =>
             Next {| CloseAccountResponse.success := true;
                     CloseAccountResponse.message :=
                       "Account closed successfully";
                     CloseAccountResponse.closedDate := clock w 1%nat |}
         | Fail e => Thrown (new_Error (AccountService.errorMessageOf e))
         end.
Proof.
  unfold subscribe, AccountService.closeAccount, bind, now, new_Date, ret.
  cbn [clock sent fst snd].
  unfold Rx.catchError, Rx.map, Rx.delay, Rx.http, bind, now, new_Date, ret.
  cbn [clock sent fst snd].
  match goal with |- context [backend ?n ?r] =>
    exists r; destruct (backend n r) end;
    cbn [clock sent fst snd]; split; reflexivity.
Qed.

(** C8. [getAllAccounts] sends its request once when the backend answers
    it, and twice, not more, when the first attempt fails: the caller gets
    the accounts of the first attempt that succeeds, and the error of the
    second attempt when both fail.  [createAccount] and [closeAccount] send
    one request, whatever its outcome: a failure of it is the error the
    caller gets. *)
Theorem getAllAccounts_retries_once_mutations_never
    (listBackend : Backend (list Account)) (backend : Backend Account)
    (w : World) (random : Q) (request : CreateAccountRequest.t)
    (accountId : Z) (reason : string) :
  let n := List.length (sent w) in
  let get := GET AccountService.endpoints.accounts in
  (AccountService.getAllAccounts listBackend w =
   match listBackend n get with
   | Ok accounts =>
       (Next (AccountService.transformAccountDates accounts),
        {| clock := clock w; sent := sent w ++ [get] |})
   | Fail _ =>
       (match listBackend (S n) get with
        | Ok accounts => Next (AccountService.transformAccountDates accounts)
        | Fail e => Thrown (new_Error (AccountService.errorMessageOf e))
        end,
        {| clock := clock w; sent := sent w ++ [get; get] |})
   end)
  /\ (exists post,
        sent (snd (subscribe (AccountService.createAccount random request)
                     backend w)) = sent w ++ [post]
        /\ forall e, backend n post = Fail e ->
             fst (subscribe (AccountService.createAccount random request)
                    backend w)
             = Thrown (new_Error (AccountService.errorMessageOf e)))
  /\ (exists patch,
        sent (snd (subscribe (AccountService.closeAccount accountId reason)
                     backend w)) = sent w ++ [patch]
        /\ forall e, backend n patch = Fail e ->
             fst (subscribe (AccountService.closeAccount accountId reason)
                    backend w)
             = Thrown (new_Error (AccountService.errorMessageOf e))).
Proof.
  intros n get. split; [apply getAllAccounts_run|]. split.
  - destruct (createAccount_run random request backend w)
      as (post & Hsent & Hfst).
    exists post. split; [exact Hsent|]. intros e He.
    rewrite Hfst. fold n. now rewrite He.
  - destruct (closeAccount_run accountId reason backend w)
      as (patch & Hsent & Hfst).
    exists patch. split; [exact Hsent|]. intros e He.
    rewrite Hfst. fold n. now rewrite He.
Qed.

Lemma getAllAccounts_retries_once_mutations_never_witness :
  fst (AccountService.getAllAccounts flakyList sampleWorld) = Next [account1]
  /\ List.length (sent (snd (AccountService.getAllAccounts flakyList
                               sampleWorld))) = 2%nat
  /\ fst (subscribe (AccountService.createAccount 0 sampleRequest) flaky
            sampleWorld)
     = Thrown (new_Error "Server error. Please try again later.")
  /\ List.length (sent (snd (subscribe (AccountService.createAccount 0
                                          sampleRequest) flaky sampleWorld)))
     = 1%nat
  /\ fst (subscribe (AccountService.closeAccount 1 "Customer request") flaky
            sampleWorld)
     = Thrown (new_Error "Server error. Please try again later.")
  /\ List.length (sent (snd (subscribe (AccountService.closeAccount 1
                                          "Customer request") flaky
                               sampleWorld)))
     = 1%nat.
Proof.
  destruct (getAllAccounts_retries_once_mutations_never flakyList flaky
              sampleWorld 0 sampleRequest 1 "Customer request")
    as (Hget & (post & Hpost & Hcreate) & (patch & Hpatch & Hclose)).
  rewrite Hget, Hpost, Hpatch, (Hcreate serverError eq_refl),
    (Hclose serverError eq_refl).
  repeat split; reflexivity.
Defined.

(** ** The memoized selectors *)

Lemma memoize_computes {A B} (same : A -> A -> bool) (f : A -> B)
    (m : Memo A B) (a : A) :
  sound same -> memoConsistent f m ->
  fst (memoize same f m a) = f a
  /\ memoConsistent f (snd (memoize same f m a)).
Proof.
  intros Hsame Hm. unfold memoize.
  destruct m as [[a0 b0]|]; simpl in *.
  - destruct (same a0 a) eqn:E; simpl.
    + apply Hsame in E. subst a0. split; assumption.
    + split; reflexivity.
  - split; reflexivity.
Qed.

Lemma createFeatureSelector_computes {S F} (same : S -> S -> bool)
    (feature : S -> F) :
  sound same ->
  computes (createFeatureSelector same feature) (memoConsistent feature)
           feature.
Proof.
  intros Hsame c s Hc. now apply memoize_computes.
Qed.

Lemma createSelector_computes {C S A B} (same : A -> A -> bool)
    (input : Selector C S A) (projector : A -> B)
    (inv : C -> Prop) (f : S -> A) :
  sound same -> computes input inv f ->
  computes (createSelector same input projector)
           (fun cache => inv (fst cache)
                         /\ memoConsistent projector (snd cache))
           (fun s => projector (f s)).
Proof.
  intros Hsame Hin [c m] s [Hc Hm]. simpl in Hc, Hm.
  unfold createSelector. simpl fst. simpl snd.
  destruct (Hin c s Hc) as [Hv Hc'].
  destruct (input c s) as [a c']. simpl in Hv, Hc'. subst a.
  destruct (memoize_computes same projector m (f s) Hsame Hm) as [Hb Hm'].
  destruct (memoize same projector m (f s)) as [b m']. simpl in *.
  split; [exact Hb | split; assumption].
Qed.

Lemma cacheAfter_inv {C S R} (sel : Selector C S R) (inv : C -> Prop)
    (f : S -> R) :
  computes sel inv f ->
  forall states c, inv c -> inv (cacheAfter sel c states).
Proof.
  intros Hsel states. induction states as [|s rest IH]; intros c Hc; simpl.
  - exact Hc.
  - apply IH. exact (proj2 (Hsel c s Hc)).
Qed.

Lemma getLowBalanceAccounts_subset (state : AccountState) :
  getLowBalanceAccounts state = lowBalanceSubset (accounts state).
Proof.
  unfold getLowBalanceAccounts, getActiveAccounts, lowBalanceSubset.
  induction (accounts state) as [|a l IH]; simpl; [reflexivity|].
  destruct (AccountStatus_eqb (status a) ACTIVE); simpl.
  - rewrite IH. destruct (accountType a); reflexivity.
  - exact IH.
Qed.

(** C10. The state helper [getLowBalanceAccounts] and the memoized selector
    [selectLowBalanceAccounts] return the same list, whatever the selector
    was read on before: the ACTIVE accounts whose balance is below 2000 for
    SAVINGS or 7000 for CURRENT, in the order of the collection. *)
Theorem lowBalance_helper_and_selector_agree
    (sameApp : AppState -> AppState -> bool)
    (sameState : AccountState -> AccountState -> bool)
    (sameArray : list Account -> list Account -> bool)
    (history : list AppState) (app : AppState) :
  sound sameApp -> sound sameState -> sound sameArray ->
  let selector := selectLowBalanceAccounts sameApp sameState sameArray in
  fst (selector (cacheAfter selector noCache history) app)
  = getLowBalanceAccounts (accountsFeature app)
  /\ getLowBalanceAccounts (accountsFeature app)
     = lowBalanceSubset (accounts (accountsFeature app)).
Proof.
  intros HA HS HL selector. split; [|apply getLowBalanceAccounts_subset].
  pose proof (createFeatureSelector_computes sameApp accountsFeature HA)
    as H1.
  pose proof (createSelector_computes sameState _
                (fun state : AccountState => accounts state) _ _ HS H1)
    as H2.
  pose proof (createSelector_computes sameArray _
                (fun accounts : list Account =>
                   filter (fun account =>
                             AccountStatus_eqb (status account) ACTIVE)
                          accounts) _ _ HL H2)
    as H3.
  pose proof (createSelector_computes sameArray _
                (fun accounts : list Account =>
                   filter (fun account =>
                             let threshold : Q :=
                               if AccountType_eqb (accountType account) SAVINGS
                               then 2000%Q else 7000%Q in
                             Qltb (balance account) threshold)
                          accounts) _ _ HL H3)
    as H4.
  refine (proj1 (H4 _ app _)).
  apply (cacheAfter_inv _ _ _ H4).
  repeat split.
Qed.

Lemma lowBalance_helper_and_selector_agree_witness :
  sound (@neverSame AppState) /\ sound (@neverSame AccountState)
  /\ sound bothEmpty
  /\ let selector := selectLowBalanceAccounts neverSame neverSame bothEmpty in
     let app := {| accountsFeature := sampleState |} in
     let empty := {| accountsFeature := initialAccountState |} in
     fst (selector (cacheAfter selector noCache [empty; app; empty]) app)
     = [account1; account2; account3]
     /\ fst (selector (cacheAfter selector noCache [empty]) empty) = [].
Proof.
  assert (HN : forall A, sound (@neverSame A))
    by (intros A x y H; discriminate H).
  assert (HE : sound bothEmpty).
  { intros [|x l1] [|y l2] H; try discriminate H. reflexivity. }
  split; [apply HN|]. split; [apply HN|]. split; [exact HE|].
  intros selector app empty. unfold selector. split.
  - rewrite (proj1 (lowBalance_helper_and_selector_agree neverSame neverSame
                      bothEmpty [empty; app; empty] app
                      (HN _) (HN _) HE)).
    reflexivity.
  - rewrite (proj1 (lowBalance_helper_and_selector_agree neverSame neverSame
                      bothEmpty [empty] empty (HN _) (HN _) HE)).
    reflexivity.
Defined.

(** ** The flattening policies of the effects *)

Section FlattenFacts.
Context {X R : Type}.
Variable project : nat -> X -> Inner R.

Lemma forallb_later (d t : nat) (l : Stream X) :
  (d <= t)%nat ->
  forallb (fun later => (t <=? fst later)%nat) l = true ->
  forallb (fun later => (d <=? fst later)%nat) l = true.
Proof.
  intros Hdt H. rewrite forallb_forall in *. intros x Hx.
  specialize (H x Hx). apply Nat.leb_le in H. apply Nat.leb_le. lia.
Qed.

(** [exhaustMap] serves a request when no call is in flight. *)
Lemma exhaustMap_run_spec (source : Stream X) :
  forall n inflight,
    exhaustMap_run project inflight n source =
    match inflight with
    | Some (done, r) => (done, r) :: ignoreWhileBusy_from project done n source
    | None => ignoreWhileBusy_from project 0 n source
    end.
Proof.
  induction source as [|[t x] rest IH]; intros n inflight.
  - destruct inflight as [[done r]|]; reflexivity.
  - cbn [exhaustMap_run ignoreWhileBusy_from].
    destruct inflight as [[done r]|].
    + destruct (done <=? t)%nat; rewrite IH; reflexivity.
    + rewrite IH. reflexivity.
Qed.

(** [switchMap] delivers the result of a request when no later request
    arrives before it. *)
Lemma switchMap_run_spec (source : Stream X) :
  ordered source = true ->
  forall n inflight,
    switchMap_run project inflight n source =
    match inflight with
    | Some (done, r) =>
        if forallb (fun later => (done <=? fst later)%nat) source
        then [(done, r)] else []
    | None => []
    end ++ cancelAndReplaceLatest_from project n source.
Proof.
  induction source as [|[t x] rest IH]; intros Hord n inflight.
  - destruct inflight as [[done r]|]; reflexivity.
  - cbn [ordered] in Hord. apply andb_prop in Hord.
    destruct Hord as [Hrest Hord].
    cbn [switchMap_run cancelAndReplaceLatest_from forallb fst].
    set (done' := (t + latency (project n x))%nat).
    destruct inflight as [[done r]|].
    + destruct (Nat.leb_spec done t) as [Hle|Hlt].
      * rewrite (forallb_later done t rest Hle Hrest).
        rewrite (IH Hord). cbn [andb app].
        destruct (forallb (fun later => (done' <=? fst later)%nat) rest);
          reflexivity.
      * rewrite (IH Hord). cbn [andb app].
        destruct (forallb (fun later => (done' <=? fst later)%nat) rest);
          reflexivity.
    + rewrite (IH Hord). cbn [app].
      destruct (forallb (fun later => (done' <=? fst later)%nat) rest);
        reflexivity.
Qed.

Lemma exhaustMap_ignoreWhileBusy (source : Stream X) :
  exhaustMap project source = ignoreWhileBusy project source.
Proof. apply exhaustMap_run_spec. Qed.

Lemma switchMap_cancelAndReplaceLatest (source : Stream X) :
  ordered source = true ->
  switchMap project source = cancelAndReplaceLatest project source.
Proof. intros H. apply (switchMap_run_spec source H 0%nat None). Qed.

(** Two requests, the second while the call of the first is in flight. *)
Lemma exhaustMap_two (t1 t2 : nat) (x1 x2 : X) :
  (t2 < t1 + latency (project 0%nat x1))%nat ->
  exhaustMap project [(t1, x1); (t2, x2)]
  = [((t1 + latency (project 0%nat x1))%nat, delivers (project 0%nat x1))].
Proof.
  intros H. unfold exhaustMap. cbn [exhaustMap_run].
  destruct (Nat.leb_spec (t1 + latency (project 0%nat x1)) t2);
    [lia | reflexivity].
Qed.

Lemma switchMap_two (t1 t2 : nat) (x1 x2 : X) :
  (t2 < t1 + latency (project 0%nat x1))%nat ->
  switchMap project [(t1, x1); (t2, x2)]
  = [((t2 + latency (project 1%nat x2))%nat, delivers (project 1%nat x2))].
Proof.
  intros H. unfold switchMap. cbn [switchMap_run].
  destruct (Nat.leb_spec (t1 + latency (project 0%nat x1)) t2);
    [lia | reflexivity].
Qed.
End FlattenFacts.

Lemma ofType_later {X} (creator : Action -> option X) (t : nat)
    (actions : Stream Action) :
  forallb (fun later => (t <=? fst later)%nat) actions = true ->
  forallb (fun later => (t <=? fst later)%nat) (ofType creator actions) = true.
Proof.
  induction actions as [|[u a] rest IH]; intros H; [reflexivity|].
  cbn [forallb fst] in H. apply andb_prop in H. destruct H as [Hu Hrest].
  cbn [ofType]. destruct (creator a) as [x|].
  - cbn [forallb fst]. now rewrite Hu, IH.
  - now apply IH.
Qed.

Lemma ofType_ordered {X} (creator : Action -> option X)
    (actions : Stream Action) :
  ordered actions = true -> ordered (ofType creator actions) = true.
Proof.
  induction actions as [|[t a] rest IH]; intros H; [reflexivity|].
  cbn [ordered] in H. apply andb_prop in H. destruct H as [Hrest Hord].
  cbn [ofType]. destruct (creator a) as [x|].
  - cbn [ordered]. rewrite (ofType_later creator t rest Hrest).
    now rewrite IH.
  - now apply IH.
Qed.

(** C9, as the code has it.  The effects for the list and load requests are
    written with [exhaustMap]: a request that is dispatched while a call of
    its kind is in flight is ignored, and the result of the call in flight
    is dispatched.  The effects for the check, create and delete requests
    are written with [switchMap], cancel-and-replace-latest: the result of
    a request is dispatched when no later request of its kind arrives
    before it, so of two submissions in a row the first is superseded. *)
Theorem effects_flatten_as_written
    (listEnv : nat -> CallEnv (list Account))
    (loadEnv createEnv deleteEnv checkEnv : nat -> CallEnv Account)
    (actions : Stream Action) :
  ordered actions = true ->
  (AccountEffects.loadAccounts_effect listEnv actions
   = ignoreWhileBusy (AccountEffects.loadAccounts_inner listEnv)
       (ofType loadAccounts_payload actions)
   /\ AccountEffects.loadAccount_effect loadEnv actions
      = ignoreWhileBusy (AccountEffects.loadAccount_inner loadEnv)
          (ofType loadAccount_payload actions)
   /\ AccountEffects.checkBalance_effect checkEnv actions
      = cancelAndReplaceLatest (AccountEffects.checkBalance_inner checkEnv)
          (ofType checkBalance_payload actions)
   /\ AccountEffects.createAccount_effect createEnv actions
      = cancelAndReplaceLatest (AccountEffects.createAccount_inner createEnv)
          (ofType createAccount_payload actions)
   /\ AccountEffects.deleteAccount_effect deleteEnv actions
      = cancelAndReplaceLatest (AccountEffects.deleteAccount_inner deleteEnv)
          (ofType deleteAccount_payload actions))
  /\ (forall t1 t2 : nat,
        (t2 < t1 + env_latency (listEnv 0%nat))%nat ->
        AccountEffects.loadAccounts_effect listEnv
          [(t1, loadAccounts); (t2, loadAccounts)]
        = [((t1 + env_latency (listEnv 0%nat))%nat,
            delivers (AccountEffects.loadAccounts_inner listEnv 0%nat tt))])
  /\ (forall (t1 t2 : nat) (i1 i2 : Z),
        (t2 < t1 + env_latency (loadEnv 0%nat))%nat ->
        AccountEffects.loadAccount_effect loadEnv
          [(t1, loadAccount i1); (t2, loadAccount i2)]
        = [((t1 + env_latency (loadEnv 0%nat))%nat,
            delivers (AccountEffects.loadAccount_inner loadEnv 0%nat i1))])
  /\ (forall (t1 t2 : nat) (i1 i2 : Z),
        (t2 < t1 + env_latency (checkEnv 0%nat))%nat ->
        AccountEffects.checkBalance_effect checkEnv
          [(t1, checkBalance i1); (t2, checkBalance i2)]
        = [((t2 + env_latency (checkEnv 1%nat))%nat,
            delivers (AccountEffects.checkBalance_inner checkEnv 1%nat i2))])
  /\ (forall (t1 t2 : nat) (r1 r2 : CreateAccountRequest.t),
        (t2 < t1 + env_latency (createEnv 0%nat))%nat ->
        AccountEffects.createAccount_effect createEnv
          [(t1, createAccount r1); (t2, createAccount r2)]
        = [((t2 + env_latency (createEnv 1%nat))%nat,
            delivers (AccountEffects.createAccount_inner createEnv 1%nat r2))])
  /\ (forall (t1 t2 : nat) (i1 i2 : Z),
        (t2 < t1 + env_latency (deleteEnv 0%nat))%nat ->
        AccountEffects.deleteAccount_effect deleteEnv
          [(t1, deleteAccount i1); (t2, deleteAccount i2)]
        = [((t2 + env_latency (deleteEnv 1%nat))%nat,
            delivers (AccountEffects.deleteAccount_inner deleteEnv 1%nat i2))]).
Proof.
  intros Hord. split; [|split; [|split; [|split; [|split]]]].
  - unfold AccountEffects.loadAccounts_effect,
      AccountEffects.loadAccount_effect, AccountEffects.checkBalance_effect,
      AccountEffects.createAccount_effect, AccountEffects.deleteAccount_effect.
    repeat split;
      first [ apply exhaustMap_ignoreWhileBusy
            | apply switchMap_cancelAndReplaceLatest, ofType_ordered, Hord ].
  - intros t1 t2 H.
    exact (exhaustMap_two (AccountEffects.loadAccounts_inner listEnv)
             t1 t2 tt tt H).
  - intros t1 t2 i1 i2 H.
    exact (exhaustMap_two (AccountEffects.loadAccount_inner loadEnv)
             t1 t2 i1 i2 H).
  - intros t1 t2 i1 i2 H.
    exact (switchMap_two (AccountEffects.checkBalance_inner checkEnv)
             t1 t2 i1 i2 H).
  - intros t1 t2 r1 r2 H.
    exact (switchMap_two (AccountEffects.createAccount_inner createEnv)
             t1 t2 r1 r2 H).
  - intros t1 t2 i1 i2 H.
    exact (switchMap_two (AccountEffects.deleteAccount_inner deleteEnv)
             t1 t2 i1 i2 H).
Qed.

Lemma effects_flatten_as_written_witness :
  ordered mixedActions = true
  /\ AccountEffects.loadAccounts_effect sampleListEnv mixedActions
     = [(5%nat, loadAccountsSuccess [account1])]
  /\ AccountEffects.createAccount_effect sampleEnv mixedActions
     = [(8%nat, createAccountSuccess (created account2))].
Proof.
  split; [reflexivity|].
  destruct (effects_flatten_as_written sampleListEnv sampleEnv sampleEnv
              sampleEnv sampleEnv mixedActions eq_refl)
    as ((Hlist & _ & _ & Hcreate & _) & _).
  rewrite Hlist, Hcreate. split; reflexivity.
Defined.

(** C9, as stated, fails.  Of two list requests one tick apart the effect
    dispatches the result of the first and ignores the second, where
    cancel-and-replace-latest dispatches the result of the second; of two
    create requests one tick apart the effect dispatches the result of the
    second only, where queue-and-wait dispatches both. *)
Lemma effects_differ_from_stated_policies :
  AccountEffects.loadAccounts_effect sampleListEnv twoLoads
  = [(5%nat, loadAccountsSuccess [account1])]
  /\ cancelAndReplaceLatest (AccountEffects.loadAccounts_inner sampleListEnv)
       (ofType loadAccounts_payload twoLoads)
     = [(6%nat, loadAccountsSuccess [account2])]
  /\ AccountEffects.loadAccounts_effect sampleListEnv twoLoads
     <> cancelAndReplaceLatest (AccountEffects.loadAccounts_inner sampleListEnv)
          (ofType loadAccounts_payload twoLoads)
  /\ AccountEffects.createAccount_effect sampleEnv twoCreates
     = [(6%nat, createAccountSuccess (created account2))]
  /\ List.length (AccountEffects.createAccount_effect sampleEnv twoCreates)
     = 1%nat
  /\ queueAndWait (AccountEffects.createAccount_inner sampleEnv)
       (ofType createAccount_payload twoCreates)
     = [(5%nat, createAccountSuccess (created account1));
        (10%nat, createAccountSuccess (created account2))]
  /\ AccountEffects.createAccount_effect sampleEnv twoCreates
     <> queueAndWait (AccountEffects.createAccount_inner sampleEnv)
          (ofType createAccount_payload twoCreates).
Proof.
  assert (L1 : AccountEffects.loadAccounts_effect sampleListEnv twoLoads
               = [(5%nat, loadAccountsSuccess [account1])]) by reflexivity.
  assert (L2 : cancelAndReplaceLatest
                 (AccountEffects.loadAccounts_inner sampleListEnv)
                 (ofType loadAccounts_payload twoLoads)
               = [(6%nat, loadAccountsSuccess [account2])]) by reflexivity.
  assert (C1 : AccountEffects.createAccount_effect sampleEnv twoCreates
               = [(6%nat, createAccountSuccess (created account2))])
    by reflexivity.
  assert (C2 : queueAndWait (AccountEffects.createAccount_inner sampleEnv)
                 (ofType createAccount_payload twoCreates)
               = [(5%nat, createAccountSuccess (created account1));
                  (10%nat, createAccountSuccess (created account2))])
    by reflexivity.
  split; [exact L1|]. split; [exact L2|]. split.
  { rewrite L1, L2. intros H. discriminate H. }
  split; [exact C1|]. split; [now rewrite C1|]. split; [exact C2|].
  rewrite C1, C2. intros H. discriminate H.
Qed.

(** ** Further properties of the store *)

(** Dispatching [clearError] twice in a row yields the same state as
    dispatching it once. *)
Theorem clearError_idempotent (s : AccountState) (c1 c2 : Clock) :
  eval (accountReducer (eval (accountReducer s clearError) c1) clearError) c2
  = eval (accountReducer s clearError) c1.
Proof. reflexivity. Qed.

(** An action of another feature leaves the state as it is, and an
    undefined state is the initial state. *)
Theorem unhandled_action_is_identity (s : AccountState) (type : string)
    (c : Clock) :
  accountReducer s (otherAction type) c = (s, c)
  /\ AccountReducer None (otherAction type) c = (initialAccountState, c).
Proof. split; reflexivity. Qed.

(** Round trip: after [loadAccountsSuccess] with the accounts [A],
    selecting the id of an element of [A] makes the selected account the
    first element of [A] with that id. *)
Theorem select_after_load_reads_back
    (s : AccountState) (A : list Account) (x : Account) (c1 c2 : Clock) :
  In x A ->
  let s1 := eval (accountReducer s (loadAccountsSuccess A)) c1 in
  let s2 := eval (accountReducer s1 (selectAccount (Some (id x)))) c2 in
  selectedAccountId s2 = Some (id x)
  /\ selectedAccount s2 = find (fun a => id a =? id x) A
  /\ exists a, selectedAccount s2 = Some a /\ In a A /\ id a = id x.
Proof.
  intros Hin s1 s2. split; [reflexivity|]. split; [reflexivity|].
  unfold s2, s1, eval. simpl.
  destruct (find (fun a => id a =? id x) A) as [a|] eqn:E.
  - apply find_some in E. destruct E as [Ha Hid].
    exists a. split; [reflexivity|]. split; [exact Ha|].
    now apply Z.eqb_eq.
  - exfalso. pose proof (find_none _ _ E x Hin) as H. simpl in H.
    rewrite Z.eqb_refl in H. discriminate H.
Qed.

Lemma select_after_load_reads_back_witness :
  In account2 [account1; account2; account3]
  /\ selectedAccount
       (eval (accountReducer
                (eval (accountReducer initialAccountState
                         (loadAccountsSuccess [account1; account2; account3]))
                      (clockFrom 10))
                (selectAccount (Some 2)))
             (clockFrom 20))
     = Some account2.
Proof.
  assert (H : In account2 [account1; account2; account3])
    by (right; left; reflexivity).
  split; [exact H|].
  destruct (select_after_load_reads_back initialAccountState
              [account1; account2; account3] account2 (clockFrom 10)
              (clockFrom 20) H) as (_ & Hsel & _).
  etransitivity; [exact Hsel | reflexivity].
Defined.

(** A callback that reads the clock once for the elements that [matches]
    holds of, run over a list: the n-th of those elements gets the n-th
    reading, the others get none. *)
Lemma mapM_stamps {A} (matches : A -> bool) (stamp : A -> Date -> A)
    (f : A -> Timed A) :
  (forall x c, f x c = if matches x then (stamp x (c O), fun n => c (S n))
                       else (x, c)) ->
  forall xs c,
    (forall n, snd (mapM f xs c) n
               = c (List.length (filter matches xs) + n)%nat)
    /\ List.length (fst (mapM f xs c)) = List.length xs
    /\ (forall i a, nth_error xs i = Some a ->
          nth_error (fst (mapM f xs c)) i
          = Some (if matches a
                  then stamp a (c (List.length
                                     (filter matches (firstn i xs))))
                  else a)).
Proof.
  intros Hf xs. induction xs as [|x xs IH]; intros c.
  - split; [reflexivity|]. split; [reflexivity|].
    intros i a H. destruct i; discriminate H.
  - cbn [mapM]. unfold bind. rewrite Hf.
    destruct (matches x) eqn:E.
    + destruct (IH (fun n => c (S n))) as (Hclock & Hlen & Hnth).
      destruct (mapM f xs (fun n => c (S n))) as [ys c2].
      cbn [fst snd ret] in *. unfold ret. cbn [fst snd filter].
      rewrite E. cbn [List.length].
      split; [intros n; rewrite Hclock; reflexivity|].
      split; [now rewrite Hlen|].
      intros [|i] a H; cbn [nth_error firstn filter] in *.
      * injection H as <-. now rewrite E.
      * rewrite E. cbn [List.length]. exact (Hnth i a H).
    + destruct (IH c) as (Hclock & Hlen & Hnth).
      destruct (mapM f xs c) as [ys c2].
      cbn [fst snd ret] in *. unfold ret. cbn [fst snd filter].
      rewrite E.
      split; [exact Hclock|].
      split; [cbn [List.length]; now rewrite Hlen|].
      intros [|i] a H; cbn [nth_error firstn filter] in *.
      * injection H as <-. now rewrite E.
      * rewrite E. exact (Hnth i a H).
Qed.

(** [checkBalanceSuccess] reads the clock once for every account with the
    id of the response, in collection order, then once for the selected
    account when it has that id, then once for [lastUpdated].  The n-th
    account with that id gets [currentBalance] as its balance and the n-th
    reading as its [lastModifiedDate]; the other accounts are the ones
    before, at the same positions.  The selected account with that id gets
    the balance and the next reading, and [lastUpdated] the reading after
    that. *)
Theorem checkBalanceSuccess_updates_matching
    (s : AccountState) (response : BalanceCheckResponse.t) (c : Clock) :
  let s' := eval (accountReducer s (checkBalanceSuccess response)) c in
  let matches := fun a : Account =>
                   id a =? BalanceCheckResponse.accountId response in
  let updated := fun (a : Account) (n : nat) =>
                   if matches a
                   then with_balance a
                          (BalanceCheckResponse.currentBalance response) (c n)
                   else a in
  let k := List.length (filter matches (accounts s)) in
  List.length (accounts s') = List.length (accounts s)
  /\ (forall i a, nth_error (accounts s) i = Some a ->
        nth_error (accounts s') i
        = Some (updated a (List.length
                             (filter matches (firstn i (accounts s))))))
  /\ selectedAccount s'
     = option_map (fun sel => updated sel k) (selectedAccount s)
  /\ lastUpdated s'
     = Some (c (k + match selectedAccount s with
                    | Some sel => if matches sel then 1 else 0
                    | None => 0
                    end)%nat)
  /\ loading s' = false
  /\ error s' = None
  /\ selectedAccountId s' = selectedAccountId s
  /\ initialized s' = initialized s.
Proof.
  intros s' matches updated k. unfold s', eval. simpl. unfold bind.
  set (f := fun account : Account =>
              if id account =? BalanceCheckResponse.accountId response
              then _ else _).
  assert (Hf : forall x c0,
             f x c0
             = if matches x
               then (with_balance x
                       (BalanceCheckResponse.currentBalance response)
                       (c0 O),
                     fun n => c0 (S n))
               else (x, c0)).
  { intros x c0. unfold f, matches.
    destruct (id x =? BalanceCheckResponse.accountId response); reflexivity. }
  destruct (mapM_stamps matches
              (fun a d => with_balance a
                            (BalanceCheckResponse.currentBalance response) d)
              f Hf (accounts s) c) as (Hclock & Hlen & Hnth).
  fold k in Hclock.
  destruct (mapM f (accounts s) c) as [ys c1]. cbn [fst snd] in *.
  assert (H0 : c1 O = c k) by (rewrite Hclock; f_equal; lia).
  assert (H1 : c1 1%nat = c (k + 1)%nat) by (rewrite Hclock; reflexivity).
  destruct (selectedAccount s) as [sel|]; cbn [option_map].
  - unfold updated. fold (matches sel). destruct (matches sel);
      cbn [fst snd accounts selectedAccount selectedAccountId loading
           error lastUpdated initialized new_Date ret];
      rewrite ?H0, ?H1, ?Nat.add_0_r;
      repeat split; try assumption; try reflexivity.
  - cbn [fst snd accounts selectedAccount selectedAccountId loading
         error lastUpdated initialized new_Date ret];
      rewrite ?H0, ?Nat.add_0_r;
      repeat split; try assumption; try reflexivity.
Qed.

(** The scenario of the specification: the balance of account 1 becomes
    999, the other accounts are unchanged. *)
Example checkBalanceSuccess_scenario :
  accounts (eval (accountReducer sampleState
                    (checkBalanceSuccess
                       {| BalanceCheckResponse.accountId := 1;
                          BalanceCheckResponse.accountNumber := "ACC100000001";
                          BalanceCheckResponse.currentBalance := 999%Q;
                          BalanceCheckResponse.availableBalance := 999%Q;
                          BalanceCheckResponse.isLowBalance := true;
                          BalanceCheckResponse.minBalanceRequired := 1000%Q |}))
                 (clockFrom 7000))
  = [with_balance account1 999%Q 7000; account2; account3].
Proof. reflexivity. Qed.

Lemma selectionConsistent_step (s : AccountState) (a : Action) (c : Clock) :
  selectionConsistent s -> selectionConsistent (eval (accountReducer s a) c).
Proof.
  intros Hs.
  destruct a as [ |l|e|i|a|e|r|r|e|i|X r|e|i|r|e| |[i|]|t];
    try exact Hs; try exact I; try reflexivity.
  - (* deleteAccountSuccess *)
    unfold selectionConsistent in *. rewrite deleteAccountSuccess_step. simpl.
    destruct (selectedAccountId s) as [sid|].
    + destruct (sid =? X); [exact I | exact Hs].
    + exact Hs.
  - (* checkBalanceSuccess *)
    unfold selectionConsistent in *. unfold eval. simpl. unfold bind.
    destruct (mapM _ (accounts s) c) as [ys d1].
    destruct (selectedAccount s) as [sel|]; simpl; [|exact I].
    destruct (id sel =? BalanceCheckResponse.accountId r); simpl; exact Hs.
  - (* selectAccount of an id *)
    unfold selectionConsistent. simpl.
    destruct (find (fun a => id a =? i) (accounts s)) as [a|] eqn:E;
      [|exact I].
    apply find_some in E. destruct E as [_ E]. apply Z.eqb_eq in E.
    now rewrite E.
Qed.

(** In every reachable state the selected account, when there is one, has
    the selected id. *)
Theorem selected_account_has_selected_id (s : AccountState) :
  reachable s -> selectionConsistent s.
Proof.
  induction 1 as [|s a c Hreach IH _].
  - exact I.
  - now apply selectionConsistent_step.
Qed.

Lemma selected_account_has_selected_id_witness :
  reachable (eval (accountReducer initialAccountState
                     (loadAccountSuccess account2)) (clockFrom 10))
  /\ selectionConsistent
       (eval (accountReducer initialAccountState (loadAccountSuccess account2))
             (clockFrom 10)).
Proof.
  assert (H : reachable (eval (accountReducer initialAccountState
                                 (loadAccountSuccess account2))
                              (clockFrom 10))).
  { apply reachable_step; [apply reachable_init | exact I]. }
  split; [exact H | exact (selected_account_has_selected_id _ H)].
Defined.

(** The states that the store goes through when it applies a list of
    actions are reachable. *)
Theorem dispatchAll_reachable (actions : list Action) :
  forall (s : AccountState) (c : Clock),
    reachable s -> reachable (eval (dispatchAll s actions) c).
Proof.
  induction actions as [|a rest IH]; intros s c Hs.
  - exact Hs.
  - unfold eval. cbn [dispatchAll]. unfold bind.
    pose proof (reachable_step _ s a c Hs I) as Hstep. unfold eval in Hstep.
    destruct (accountReducer s a c) as [s1 c1]. simpl in Hstep.
    exact (IH s1 c1 Hstep).
Qed.

Lemma dispatchAll_reachable_witness :
  reachable (eval (dispatchAll initialAccountState
                     [loadAccounts; loadAccountsSuccess [account1];
                      selectAccount (Some 1)])
                  (clockFrom 0)).
Proof.
  exact (dispatchAll_reachable _ initialAccountState (clockFrom 0)
           (reachable_init _)).
Defined.

(** ** From the service to the actions of an effect *)

Lemma errorMessageOf_nonempty (e : HttpErrorResponse.t) :
  AccountEffects.nonempty (AccountService.errorMessageOf e) = true.
Proof.
  unfold AccountService.errorMessageOf.
  destruct (HttpErrorResponse.error e); [reflexivity|].
  repeat match goal with
         | |- context [if ?b then _ else _] => destruct b
         end; reflexivity.
Qed.

(** The message that an effect shows and stores for an error thrown by the
    service is the message that the service gave it. *)
Lemma extractErrorMessage_of_service_error (e : HttpErrorResponse.t) :
  AccountEffects.extractErrorMessage
    (new_Error (AccountService.errorMessageOf e))
  = AccountService.errorMessageOf e.
Proof.
  unfold new_Error. cbn [AccountEffects.extractErrorMessage].
  now rewrite errorMessageOf_nonempty.
Qed.

(** The inner observable of [loadAccounts$] never fails: it delivers
    [loadAccountsSuccess] with the accounts of the first attempt that
    succeeds, and [loadAccountsFailure] with the message of the second
    failure when both attempts fail. *)
Theorem loadAccounts_inner_delivers
    (listEnv : nat -> CallEnv (list Account)) (k : nat) :
  let backend := env_backend (listEnv k) in
  let n := List.length (sent (env_world (listEnv k))) in
  let get := GET AccountService.endpoints.accounts in
  delivers (AccountEffects.loadAccounts_inner listEnv k tt) =
  match backend n get with
  | Ok accounts =>
      loadAccountsSuccess (AccountService.transformAccountDates accounts)
  | Fail _ =>
      match backend (S n) get with
      | Ok accounts =>
          loadAccountsSuccess (AccountService.transformAccountDates accounts)
      | Fail e => loadAccountsFailure (AccountService.errorMessageOf e)
      end
  end.
Proof.
  intros backend n get.
  unfold AccountEffects.loadAccounts_inner, AccountEffects.inner.
  cbn [delivers]. unfold subscribe. unfold bind at 1. unfold ret at 1.
  unfold Rx.catchError at 1. unfold bind at 1.
  unfold Rx.map at 1. unfold bind at 1.
  rewrite getAllAccounts_run. fold backend. fold n. fold get.
  destruct (backend n get) as [l|e1]; [reflexivity|].
  destruct (backend (S n) get) as [l|e2]; [reflexivity|].
  unfold of_, ret, the. cbn [fst].
  now rewrite extractErrorMessage_of_service_error.
Qed.

(** A failed list request, after its retry, leaves the cached accounts as
    they were: the action of the effect is a failure action, and the
    reducer keeps the collection and the selection on it. *)
Example failed_load_keeps_accounts :
  let env := fun _ : nat =>
               {| env_backend := fun _ _ => Fail serverError;
                  env_world := sampleWorld;
                  env_random := 0%Q;
                  env_latency := 5 |} in
  let action := delivers (AccountEffects.loadAccounts_inner env 0%nat tt) in
  action = loadAccountsFailure "Server error. Please try again later."
  /\ eval (accountReducer sampleState action) (clockFrom 0)
     = failed sampleState "Server error. Please try again later.".
Proof. split; reflexivity. Qed.

(** ** The state helpers *)

(** The accounts of [getLowBalanceAccounts] are the accounts of the
    collection for which [hasLowBalance] holds. *)
Theorem getLowBalanceAccounts_hasLowBalance (state : AccountState)
    (a : Account) :
  In a (getLowBalanceAccounts state)
  <-> In a (accounts state) /\ hasLowBalance a = true.
Proof.
  unfold getLowBalanceAccounts, getActiveAccounts, hasLowBalance.
  rewrite !filter_In, andb_true_iff. tauto.
Qed.

(** The available balance that the service answers with is the one of the
    state helper [getAvailableBalance]. *)
Theorem checkBalance_getAvailableBalance
    (accountId : Z) (backend : Backend Account) (w : World) (a : Account) :
  backend (List.length (sent w))
          (GET (AccountService.endpoints.accountById accountId)) = Ok a ->
  exists r,
    fst (AccountService.checkBalance accountId backend w) = Next r
    /\ BalanceCheckResponse.availableBalance r = getAvailableBalance a
    /\ BalanceCheckResponse.accountId r = id a
    /\ BalanceCheckResponse.minBalanceRequired r = minBalance a.
Proof.
  intros H. rewrite checkBalance_reply, H. eexists.
  split; [reflexivity|]. repeat split.
Qed.

Lemma checkBalance_getAvailableBalance_witness :
  exists r,
    fst (AccountService.checkBalance 2 account2Backend sampleWorld) = Next r
    /\ BalanceCheckResponse.availableBalance r = getAvailableBalance account2.
Proof.
  destruct (checkBalance_getAvailableBalance 2 account2Backend sampleWorld
              account2 eq_refl) as (r & Hr & Ha & _).
  exists r. split; [exact Hr | exact Ha].
Defined.

(** [accountExists] holds exactly when [getAccountById] finds an account. *)
Lemma accountExists_getAccountById (state : AccountState) (accountId : Z) :
  accountExists state accountId = true
  <-> exists a, getAccountById state accountId = Some a.
Proof.
  unfold accountExists, getAccountById. rewrite existsb_id_In. split.
  - intros [a [Hin Hid]].
    destruct (find (fun account => id account =? accountId) (accounts state))
      as [b|] eqn:E; [now exists b|].
    exfalso. pose proof (find_none _ _ E a Hin) as H. simpl in H.
    apply Z.eqb_neq in H. contradiction.
  - intros [a E]. apply find_some in E. destruct E as [Hin Hid].
    exists a. split; [exact Hin | now apply Z.eqb_eq].
Qed.

(** ** Looking accounts up after a transition *)

Lemma find_id_map_replace (a : Account) (j : Z) (l : list Account) :
  find (fun x => id x =? j)
       (List.map (fun x => if id x =? id a then a else x) l)
  = if j =? id a
    then (if existsb (fun x => id x =? id a) l then Some a else None)
    else find (fun x => id x =? j) l.
Proof.
  induction l as [|x l IH]; simpl.
  - destruct (j =? id a); reflexivity.
  - destruct (Z.eqb_spec (id x) (id a)) as [E|E]; simpl.
    + destruct (Z.eqb_spec j (id a)) as [->|Hj].
      * now rewrite Z.eqb_refl.
      * rewrite E. destruct (Z.eqb_spec (id a) j); [congruence|].
        rewrite IH. destruct (Z.eqb_spec j (id a)); [congruence|reflexivity].
    + destruct (Z.eqb_spec j (id a)) as [->|Hj].
      * destruct (Z.eqb_spec (id x) (id a)); [congruence|]. exact IH.
      * destruct (id x =? j); [reflexivity|].
        rewrite IH. destruct (Z.eqb_spec j (id a)); [congruence|reflexivity].
Qed.

Lemma find_id_app_one (a : Account) (j : Z) (l : list Account) :
  find (fun x => id x =? j) (l ++ [a])
  = match find (fun x => id x =? j) l with
    | Some x => Some x
    | None => if id a =? j then Some a else None
    end.
Proof.
  induction l as [|x l IH]; simpl.
  - reflexivity.
  - destruct (id x =? j); [reflexivity | exact IH].
Qed.

Lemma find_id_none (j : Z) (l : list Account) :
  existsb (fun x => id x =? j) l = false -> find (fun x => id x =? j) l = None.
Proof.
  induction l as [|x l IH]; simpl; [reflexivity|].
  destruct (id x =? j); simpl; [discriminate | exact IH].
Qed.

Lemma find_id_filter_other (X j : Z) (l : list Account) :
  find (fun x => id x =? j) (filter (fun x => negb (id x =? X)) l)
  = if j =? X then None else find (fun x => id x =? j) l.
Proof.
  induction l as [|x l IH]; simpl.
  - destruct (j =? X); reflexivity.
  - destruct (Z.eqb_spec (id x) X) as [E|E]; simpl.
    + rewrite IH. destruct (Z.eqb_spec j X) as [->|Hj]; [reflexivity|].
      destruct (Z.eqb_spec (id x) j); [congruence | reflexivity].
    + destruct (Z.eqb_spec (id x) j) as [E'|E'].
      * destruct (Z.eqb_spec j X); [congruence | reflexivity].
      * exact IH.
Qed.

(** After [loadAccountSuccess {account: a}] the lookup of the id of [a]
    finds [a], and the lookup of any other id finds what it found
    before. *)
Theorem loadAccountSuccess_then_lookup
    (s : AccountState) (a : Account) (c : Clock) (j : Z) :
  let s' := eval (accountReducer s (loadAccountSuccess a)) c in
  getAccountById s' (id a) = Some a
  /\ accountExists s' (id a) = true
  /\ (j <> id a -> getAccountById s' j = getAccountById s j).
Proof.
  intros s'. unfold s'. rewrite loadAccountSuccess_step.
  unfold getAccountById, accountExists. cbn [accounts].
  assert (H : find (fun account => id account =? id a)
                (if existsb (fun account => id account =? id a) (accounts s)
                 then List.map (fun x => if id x =? id a then a else x)
                               (accounts s)
                 else accounts s ++ [a]) = Some a).
  { destruct (existsb (fun account => id account =? id a) (accounts s)) eqn:E.
    - now rewrite find_id_map_replace, Z.eqb_refl, E.
    - now rewrite find_id_app_one, (find_id_none _ _ E), Z.eqb_refl. }
  split; [exact H|]. split.
  - apply existsb_id_In. apply find_some in H. destruct H as [Hin _].
    exists a. split; [exact Hin | reflexivity].
  - intros Hj. destruct (Z.eqb_spec j (id a)) as [|_]; [contradiction|].
    destruct (existsb (fun account => id account =? id a) (accounts s)).
    + rewrite find_id_map_replace.
      destruct (Z.eqb_spec j (id a)); [contradiction | reflexivity].
    + rewrite find_id_app_one.
      destruct (find (fun x => id x =? j) (accounts s)); [reflexivity|].
      destruct (Z.eqb_spec (id a) j); [congruence | reflexivity].
Qed.

(** After [deleteAccountSuccess {accountId: X}] no account has the id X,
    the lookup of any other id finds what it found before, and a second
    [deleteAccountSuccess] of X leaves the collection as it is. *)
Theorem deleteAccountSuccess_then_lookup
    (s : AccountState) (X : Z) (r r' : CloseAccountResponse.t)
    (c c' : Clock) (j : Z) :
  let s' := eval (accountReducer s (deleteAccountSuccess X r)) c in
  getAccountById s' X = None
  /\ accountExists s' X = false
  /\ (j <> X -> getAccountById s' j = getAccountById s j)
  /\ accounts (eval (accountReducer s' (deleteAccountSuccess X r')) c')
     = accounts s'.
Proof.
  intros s'. unfold s'. rewrite !deleteAccountSuccess_step.
  unfold getAccountById, accountExists. cbn [accounts].
  split; [now rewrite find_id_filter_other, Z.eqb_refl|]. split.
  - destruct (existsb _ _) eqn:E; [|reflexivity].
    apply existsb_id_In in E. destruct E as [x [Hin Hid]].
    apply filter_In in Hin. destruct Hin as [_ Hne].
    apply negb_true_iff, Z.eqb_neq in Hne. contradiction.
  - split.
    + intros Hj. rewrite find_id_filter_other.
      destruct (Z.eqb_spec j X); [contradiction | reflexivity].
    + induction (accounts s) as [|x l IH]; simpl; [reflexivity|].
      destruct (id x =? X) eqn:E; simpl; [exact IH|].
      rewrite E. simpl. now rewrite IH.
Qed.

Lemma filter_other_id_all (X : Z) (l : list Account) :
  existsb (fun x => id x =? X) l = false ->
  filter (fun x => negb (id x =? X)) l = l.
Proof.
  induction l as [|x l IH]; simpl; [reflexivity|].
  destruct (id x =? X); simpl; [discriminate|].
  intros H. now rewrite IH.
Qed.

(** Creating an account with an id that no account has and then deleting
    that id gives the collection back. *)
Theorem create_then_delete_restores
    (s : AccountState) (response : CreateAccountResponse.t)
    (r : CloseAccountResponse.t) (c c' : Clock) :
  accountExists s (id (CreateAccountResponse.account response)) = false ->
  let s1 := eval (accountReducer s (createAccountSuccess response)) c in
  let s2 := eval (accountReducer s1
                    (deleteAccountSuccess
                       (id (CreateAccountResponse.account response)) r)) c' in
  accounts s1 = accounts s ++ [CreateAccountResponse.account response]
  /\ getAccountById s1 (id (CreateAccountResponse.account response))
     = Some (CreateAccountResponse.account response)
  /\ accounts s2 = accounts s.
Proof.
  intros Hnew s1 s2. unfold s2. rewrite deleteAccountSuccess_step.
  unfold s1, eval, getAccountById. cbn [accountReducer bind new_Date ret
                                        fst accounts].
  split; [reflexivity|]. split.
  - rewrite find_id_app_one, (find_id_none _ _ Hnew), Z.eqb_refl. reflexivity.
  - rewrite filter_app. cbn [filter]. rewrite Z.eqb_refl. cbn [negb].
    rewrite app_nil_r. now apply filter_other_id_all.
Qed.

Lemma create_then_delete_restores_witness :
  accountExists sampleState (id (CreateAccountResponse.account
                                   (created currentWithoutOverdraft))) = false
  /\ accounts
       (eval (accountReducer
                (eval (accountReducer sampleState
                         (createAccountSuccess
                            (created currentWithoutOverdraft)))
                      (clockFrom 10))
                (deleteAccountSuccess 8 sampleClosed))
             (clockFrom 20))
     = accounts sampleState.
Proof.
  split; [reflexivity|].
  exact (proj2 (proj2 (create_then_delete_restores sampleState
                         (created currentWithoutOverdraft) sampleClosed
                         (clockFrom 10) (clockFrom 20) eq_refl))).
Defined.

(** ** Reading the memoized selectors *)

Lemma reads_after {C S R} (sel : Selector C S R) (c0 : C) (f : S -> R) :
  reads sel c0 f ->
  forall history s, fst (sel (cacheAfter sel c0 history) s) = f s.
Proof.
  intros (inv & H0 & Hsel) history s.
  exact (proj1 (Hsel _ s (cacheAfter_inv sel inv f Hsel history c0 H0))).
Qed.

Lemma reads_createFeatureSelector {S F} (same : S -> S -> bool)
    (feature : S -> F) :
  sound same -> reads (createFeatureSelector same feature) None feature.
Proof.
  intros H. exists (memoConsistent feature). split; [exact I|].
  now apply createFeatureSelector_computes.
Qed.

Lemma reads_createSelector {C S A B} (same : A -> A -> bool)
    (input : Selector C S A) (projector : A -> B) (c0 : C) (f : S -> A) :
  sound same -> reads input c0 f ->
  reads (createSelector same input projector) (c0, None)
        (fun s => projector (f s)).
Proof.
  intros Hsame (inv & H0 & Hin).
  exists (fun cache => inv (fst cache) /\ memoConsistent projector (snd cache)).
  split; [split; [exact H0 | exact I]|].
  now apply createSelector_computes.
Qed.

Lemma sound_pair {A1 A2} (same1 : A1 -> A1 -> bool) (same2 : A2 -> A2 -> bool) :
  sound same1 -> sound same2 ->
  sound (fun x y : A1 * A2 => same1 (fst x) (fst y) && same2 (snd x) (snd y)).
Proof.
  intros H1 H2 [x1 x2] [y1 y2] H. simpl in H. apply andb_prop in H.
  destruct H as [E1 E2]. apply H1 in E1. apply H2 in E2. congruence.
Qed.

Lemma reads_createSelector2 {C1 C2 S A1 A2 B}
    (same1 : A1 -> A1 -> bool) (same2 : A2 -> A2 -> bool)
    (input1 : Selector C1 S A1) (input2 : Selector C2 S A2)
    (projector : A1 -> A2 -> B) (c1 : C1) (c2 : C2)
    (f1 : S -> A1) (f2 : S -> A2) :
  sound same1 -> sound same2 -> reads input1 c1 f1 -> reads input2 c2 f2 ->
  reads (createSelector2 same1 same2 input1 input2 projector) (c1, c2, None)
        (fun s => projector (f1 s) (f2 s)).
Proof.
  intros Hs1 Hs2 (inv1 & H1 & Hin1) (inv2 & H2 & Hin2).
  exists (fun cache =>
            inv1 (fst (fst cache)) /\ inv2 (snd (fst cache))
            /\ memoConsistent (fun p => projector (fst p) (snd p))
                              (snd cache)).
  split; [repeat split; assumption|].
  intros [[d1 d2] m] s (Hd1 & Hd2 & Hm). simpl in Hd1, Hd2, Hm.
  unfold createSelector2. simpl fst. simpl snd.
  destruct (Hin1 d1 s Hd1) as [Hv1 Hd1'].
  destruct (input1 d1 s) as [a1 d1']. simpl in Hv1, Hd1'. subst a1.
  destruct (Hin2 d2 s Hd2) as [Hv2 Hd2'].
  destruct (input2 d2 s) as [a2 d2']. simpl in Hv2, Hd2'. subst a2.
  destruct (memoize_computes _ (fun p => projector (fst p) (snd p)) m
              (f1 s, f2 s) (sound_pair same1 same2 Hs1 Hs2) Hm) as [Hb Hm'].
  destruct (memoize _ _ m (f1 s, f2 s)) as [b m']. simpl in *.
  split; [exact Hb | repeat split; assumption].
Qed.

Lemma sound_Bool_eqb : sound Bool.eqb.
Proof. intros x y H. now apply Bool.eqb_prop. Qed.

Lemma sound_sameText : sound sameText.
Proof.
  intros [x|] [y|] H; simpl in H; try discriminate H; [|reflexivity].
  apply String.eqb_eq in H. now subst.
Qed.

Section SelectorReads.
Variable sameApp : AppState -> AppState -> bool.
Variable sameState : AccountState -> AccountState -> bool.
Variable sameArray : list Account -> list Account -> bool.
Variable sameAccount : option Account -> option Account -> bool.
Hypothesis soundApp : sound sameApp.
Hypothesis soundState : sound sameState.
Hypothesis soundArray : sound sameArray.
Hypothesis soundAccount : sound sameAccount.

Lemma reads_field {R} (field : AccountState -> R) :
  reads (createSelector sameState (selectAccountState sameApp) field)
        (None, None) (fun app => field (accountsFeature app)).
Proof.
  apply reads_createSelector; [exact soundState|].
  now apply reads_createFeatureSelector.
Qed.

Lemma reads_selectAllAccounts :
  reads (selectAllAccounts sameApp sameState) (None, None)
        (fun app => accounts (accountsFeature app)).
Proof. apply reads_field. Qed.

Lemma reads_selectActiveAccounts :
  reads (selectActiveAccounts sameApp sameState sameArray) (None, None, None)
        (fun app => getActiveAccounts (accountsFeature app)).
Proof.
  unfold selectActiveAccounts.
  exact (reads_createSelector sameArray _ _ _ _ soundArray
           reads_selectAllAccounts).
Qed.

Lemma reads_selectLowBalanceAccounts :
  reads (selectLowBalanceAccounts sameApp sameState sameArray)
        (None, None, None, None)
        (fun app => getLowBalanceAccounts (accountsFeature app)).
Proof.
  unfold selectLowBalanceAccounts.
  exact (reads_createSelector sameArray _ _ _ _ soundArray
           reads_selectActiveAccounts).
Qed.
End SelectorReads.

Lemma sound_neverSame {A} : sound (@neverSame A).
Proof. intros x y H. discriminate H. Qed.

Lemma sound_bothEmpty : sound bothEmpty.
Proof. intros [|x l1] [|y l2] H; try discriminate H. reflexivity. Qed.

(** The selectors of the totals and the state helpers of the totals return
    the same amounts and the same count, whatever the selectors were read
    on before. *)
Theorem totals_helper_and_selector_agree
    (sameApp : AppState -> AppState -> bool)
    (sameState : AccountState -> AccountState -> bool)
    (sameArray : list Account -> list Account -> bool)
    (h1 h2 h3 : list AppState) (app : AppState) :
  sound sameApp -> sound sameState -> sound sameArray ->
  let total := selectTotalBalance sameApp sameState sameArray in
  let available := selectTotalAvailableBalance sameApp sameState sameArray in
  let low := selectLowBalanceCount sameApp sameState sameArray in
  fst (total (cacheAfter total (None, None, None, None) h1) app)
  = calculateTotalBalance (accountsFeature app)
  /\ fst (available (cacheAfter available (None, None, None, None) h2) app)
     = calculateTotalAvailableBalance (accountsFeature app)
  /\ fst (low (cacheAfter low (None, None, None, None, None) h3) app)
     = AccountStatistics.lowBalanceCount
         (getAccountStatistics (accountsFeature app)).
Proof.
  intros HA HS HL total available low. split; [|split].
  - refine (reads_after total _
              (fun app => calculateTotalBalance (accountsFeature app)) _
              h1 app).
    exact (reads_createSelector sameArray _ _ _ _ HL
             (reads_selectActiveAccounts sameApp sameState sameArray
                HA HS HL)).
  - refine (reads_after available _
              (fun app => calculateTotalAvailableBalance (accountsFeature app))
              _ h2 app).
    exact (reads_createSelector sameArray _ _ _ _ HL
             (reads_selectActiveAccounts sameApp sameState sameArray
                HA HS HL)).
  - refine (reads_after low _
              (fun app => List.length
                            (getLowBalanceAccounts (accountsFeature app)))
              _ h3 app).
    exact (reads_createSelector sameArray _ _ _ _ HL
             (reads_selectLowBalanceAccounts sameApp sameState sameArray
                HA HS HL)).
Qed.

Lemma totals_helper_and_selector_agree_witness :
  let total := selectTotalBalance neverSame neverSame bothEmpty in
  fst (total (cacheAfter total (None, None, None, None) [emptyApp; sampleApp])
             sampleApp)
  = 2100%Q.
Proof.
  intros total. unfold total.
  rewrite (proj1 (totals_helper_and_selector_agree neverSame neverSame
                    bothEmpty [emptyApp; sampleApp] [] [] sampleApp
                    sound_neverSame sound_neverSame sound_bothEmpty)).
  reflexivity.
Defined.

(** The selector made by [selectAccountById] finds what the state helper
    [getAccountById] finds, and it finds an account exactly when
    [accountExists] holds. *)
Theorem selectAccountById_agrees_with_helpers
    (sameApp : AppState -> AppState -> bool)
    (sameState : AccountState -> AccountState -> bool)
    (sameArray : list Account -> list Account -> bool)
    (accountId : Z) (history : list AppState) (app : AppState) :
  sound sameApp -> sound sameState -> sound sameArray ->
  let selector := selectAccountById sameApp sameState sameArray accountId in
  let found := fst (selector (cacheAfter selector (None, None, None) history)
                             app) in
  found = getAccountById (accountsFeature app) accountId
  /\ (accountExists (accountsFeature app) accountId = true
      <-> exists a, found = Some a /\ id a = accountId).
Proof.
  intros HA HS HL selector found.
  assert (E : found = getAccountById (accountsFeature app) accountId).
  { unfold found.
    refine (reads_after selector _
              (fun app => getAccountById (accountsFeature app) accountId) _
              history app).
    exact (reads_createSelector sameArray _ _ _ _ HL
             (reads_selectAllAccounts sameApp sameState HA HS)). }
  split; [exact E|]. rewrite E, accountExists_getAccountById.
  split; intros [a Ha].
  - exists a. split; [exact Ha|]. unfold getAccountById in Ha.
    apply find_some in Ha. now apply Z.eqb_eq.
  - exists a. tauto.
Qed.

Lemma selectAccountById_agrees_with_helpers_witness :
  let selector := selectAccountById neverSame neverSame bothEmpty 2 in
  fst (selector (cacheAfter selector (None, None, None) [emptyApp]) sampleApp)
  = Some account2.
Proof.
  intros selector. unfold selector.
  rewrite (proj1 (selectAccountById_agrees_with_helpers neverSame neverSame
                    bothEmpty 2 [emptyApp] sampleApp
                    sound_neverSame sound_neverSame sound_bothEmpty)).
  reflexivity.
Defined.

(** ** Low balance and available balance, in every place that computes
    them *)

(** The account views of the selectors, the detail component and the state
    helpers compute the same available balance and the same
    can-transact flag.  Their low-balance flags compare the balance with
    the threshold of the type; the state helper [hasLowBalance] asks for an
    ACTIVE account besides, so an account that is not ACTIVE and below its
    threshold is flagged in the views and is no low-balance account for
    the helpers. *)
Theorem low_balance_flags_agree (a : Account) (state : AccountState) :
  AccountWithStatus.isLowBalance (withStatus a)
  = AccountDetailsComponent.isLowBalance a
  /\ AccountWithStatus.availableBalance (withStatus a) = getAvailableBalance a
  /\ AccountDetailsComponent.getAvailableBalance a = getAvailableBalance a
  /\ AccountWithStatus.canTransact (withStatus a) = canPerformTransactions a
  /\ AccountDetailsComponent.canPerformTransactions a
     = canPerformTransactions a
  /\ hasLowBalance a
     = AccountWithStatus.isLowBalance (withStatus a)
       && AccountWithStatus.canTransact (withStatus a)
  /\ (status a <> ACTIVE ->
      hasLowBalance a = false /\ ~ In a (getLowBalanceAccounts state)).
Proof.
  split; [reflexivity|]. split; [reflexivity|]. split; [reflexivity|].
  split; [reflexivity|]. split; [reflexivity|]. split; [reflexivity|].
  intros Hs.
  assert (H : hasLowBalance a = false).
  { unfold hasLowBalance.
    destruct (AccountStatus_eqb (status a) ACTIVE) eqn:E.
    - apply AccountStatus_eqb_eq in E. contradiction.
    - apply andb_false_r. }
  split; [exact H|].
  rewrite getLowBalanceAccounts_hasLowBalance. intros [_ Hlow]. congruence.
Qed.

Lemma low_balance_flags_agree_witness :
  status closedLowAccount <> ACTIVE
  /\ AccountWithStatus.isLowBalance (withStatus closedLowAccount) = true
  /\ AccountDetailsComponent.isLowBalance closedLowAccount = true
  /\ hasLowBalance closedLowAccount = false.
Proof.
  assert (H : status closedLowAccount <> ACTIVE) by discriminate.
  split; [exact H|].
  destruct (low_balance_flags_agree closedLowAccount sampleState)
    as (E1 & _ & _ & _ & _ & _ & Hclosed).
  split; [reflexivity|]. split; [rewrite <- E1; reflexivity|].
  exact (proj1 (Hclosed H)).
Defined.

(** The list view of the selectors keeps the accounts and their order, and
    the view of the selected account is the view that the list has of
    it. *)
Theorem account_views_keep_accounts
    (sameApp : AppState -> AppState -> bool)
    (sameState : AccountState -> AccountState -> bool)
    (sameArray : list Account -> list Account -> bool)
    (sameAccount : option Account -> option Account -> bool)
    (h1 h2 : list AppState) (app : AppState) :
  sound sameApp -> sound sameState -> sound sameArray -> sound sameAccount ->
  let listView := selectAccountsWithStatus sameApp sameState sameArray in
  let oneView := selectSelectedAccountWithInfo sameApp sameState sameAccount in
  let views := fst (listView (cacheAfter listView (None, None, None) h1) app) in
  let view := fst (oneView (cacheAfter oneView (None, None, None) h2) app) in
  List.map AccountWithStatus.account views = accounts (accountsFeature app)
  /\ List.length views = List.length (accounts (accountsFeature app))
  /\ (forall v, In v views -> v = withStatus (AccountWithStatus.account v))
  /\ view = option_map withStatus (selectedAccount (accountsFeature app))
  /\ (forall a, selectedAccount (accountsFeature app) = Some a ->
      In a (accounts (accountsFeature app)) ->
      exists v, view = Some v /\ In v views).
Proof.
  intros HA HS HL HC listView oneView views view.
  assert (E1 : views = List.map withStatus (accounts (accountsFeature app))).
  { unfold views.
    refine (reads_after listView _
              (fun app => List.map withStatus (accounts (accountsFeature app)))
              _ h1 app).
    exact (reads_createSelector sameArray _
             (fun accounts : list Account =>
                List.map (fun account => withStatus account) accounts) _ _ HL
             (reads_selectAllAccounts sameApp sameState HA HS)). }
  assert (E2 : view
               = option_map withStatus (selectedAccount (accountsFeature app))).
  { unfold view.
    pose proof (reads_after oneView (None, None, None)
                  (fun app => match selectedAccount (accountsFeature app) with
                              | None => None
                              | Some account => Some (withStatus account)
                              end)) as H.
    rewrite H.
    - destruct (selectedAccount (accountsFeature app)); reflexivity.
    - exact (reads_createSelector sameAccount _ _ _ _ HC
               (reads_field sameApp sameState HA HS selectedAccount)). }
  rewrite E1, E2. split; [|split; [|split; [|split]]].
  - rewrite map_map. apply map_id.
  - apply length_map.
  - intros v Hv. apply in_map_iff in Hv. destruct Hv as [a [<- _]].
    reflexivity.
  - reflexivity.
  - intros a Hsel Hin. rewrite Hsel. exists (withStatus a).
    split; [reflexivity | now apply in_map].
Qed.

Lemma account_views_keep_accounts_witness :
  let listView := selectAccountsWithStatus neverSame neverSame bothEmpty in
  List.map AccountWithStatus.account
    (fst (listView (cacheAfter listView (None, None, None) [emptyApp]) sampleApp))
  = [account1; account2; account3].
Proof.
  intros listView. unfold listView.
  rewrite (proj1 (account_views_keep_accounts neverSame neverSame bothEmpty
                    neverSame [emptyApp] [] sampleApp sound_neverSame
                    sound_neverSame sound_bothEmpty sound_neverSame)).
  reflexivity.
Defined.

(** ** Statistics and totals of the state helpers *)

Lemma filter_status_partition (l : list Account) :
  (List.length (filter (fun a => AccountStatus_eqb (status a) ACTIVE) l)
   + List.length (filter (fun a => AccountStatus_eqb (status a) CLOSED) l)
   + List.length (filter (fun a => AccountStatus_eqb (status a) SUSPENDED) l)
   = List.length l)%nat.
Proof.
  induction l as [|a l IH]; simpl; [reflexivity|].
  destruct (status a); simpl; lia.
Qed.

Lemma filter_type_partition (l : list Account) :
  (List.length (filter (fun a => AccountType_eqb (accountType a) SAVINGS) l)
   + List.length (filter (fun a => AccountType_eqb (accountType a) CURRENT) l)
   = List.length l)%nat.
Proof.
  induction l as [|a l IH]; simpl; [reflexivity|].
  destruct (accountType a); simpl; lia.
Qed.

Lemma filter_length_le {A} (p : A -> bool) (l : list A) :
  (List.length (filter p l) <= List.length l)%nat.
Proof.
  induction l as [|a l IH]; simpl; [lia|]. destruct (p a); simpl; lia.
Qed.

(** In the statistics of a state every account is counted under exactly
    one status and exactly one type, and the low-balance accounts are
    among the active ones. *)
Theorem statistics_partition (state : AccountState) :
  let st := getAccountStatistics state in
  (AccountStatistics.activeAccounts st + AccountStatistics.closedAccounts st
   + AccountStatistics.suspendedAccounts st
   = AccountStatistics.totalAccounts st)%nat
  /\ (AccountStatistics.savingsAccounts st
      + AccountStatistics.currentAccounts st
      = AccountStatistics.totalAccounts st)%nat
  /\ (AccountStatistics.lowBalanceCount st
      <= AccountStatistics.activeAccounts st)%nat
  /\ (AccountStatistics.activeAccounts st
      <= AccountStatistics.totalAccounts st)%nat.
Proof.
  intros st. unfold st, getAccountStatistics. simpl.
  split; [apply filter_status_partition|].
  split; [apply filter_type_partition|].
  split; apply filter_length_le.
Qed.

(** Sums that are built element by element with an addition that is
    monotone in both arguments: termwise smaller terms give a sum that is
    not larger. *)
Section MonotoneSums.
Variable add : Q -> Q -> Q.
Hypothesis add_le :
  forall x y u v : Q, (x <= y)%Q -> (u <= v)%Q -> (add x u <= add y v)%Q.

Lemma fold_left_add_le (f g : Account -> Q) (l : list Account) :
  (forall a, In a l -> f a <= g a)%Q ->
  forall x y : Q, (x <= y)%Q ->
    (fold_left (fun total a => add total (f a)) l x
     <= fold_left (fun total a => add total (g a)) l y)%Q.
Proof.
  induction l as [|a l IH]; intros Hfg x y Hxy; cbn [fold_left].
  - exact Hxy.
  - apply IH.
    + intros b Hb. apply Hfg. now right.
    + apply add_le; [exact Hxy | apply Hfg; now left].
Qed.
End MonotoneSums.

Lemma fold_left_ext_in {A} (f g : A -> Account -> A) (l : list Account) :
  (forall x a, In a l -> f x a = g x a) ->
  forall x, fold_left f l x = fold_left g l x.
Proof.
  induction l as [|a l IH]; intros H x; cbn [fold_left]; [reflexivity|].
  rewrite (H x a) by now left. apply IH. intros y b Hb. apply H. now right.
Qed.

Lemma balance_le_getAvailableBalance (a : Account) :
  (forall od, overdraftLimit a = Some od -> 0 <= od)%Q ->
  (balance a <= getAvailableBalance a)%Q.
Proof.
  intros Hod. unfold getAvailableBalance.
  destruct (AccountType_eqb (accountType a) CURRENT
            && truthy (overdraftLimit a)); [|apply Qle_refl].
  destruct (overdraftLimit a) as [od|]; [|apply Qle_refl].
  rewrite <- (Qplus_0_r (balance a)) at 1.
  apply Qplus_le_compat; [apply Qle_refl | now apply Hod].
Qed.

(** The total available balance of a state is not below its total balance
    when no overdraft limit is negative, and it is the total balance when
    no ACTIVE CURRENT account has an overdraft limit that counts.  Only
    ACTIVE accounts count in either total: an account that is not ACTIVE,
    once created, changes neither.  (The order between the two totals
    rests on the additions being monotone, the equalities on both sides
    adding the same amounts in the same order.) *)
Theorem total_available_not_below_total (state : AccountState) :
  ((forall a od, In a (accounts state) ->
                 overdraftLimit a = Some od -> 0 <= od)%Q ->
   (calculateTotalBalance state <= calculateTotalAvailableBalance state)%Q)
  /\ ((forall a, In a (getActiveAccounts state) ->
                 accountType a = CURRENT ->
                 truthy (overdraftLimit a) = false) ->
      calculateTotalAvailableBalance state = calculateTotalBalance state)
  /\ (forall response c,
        status (CreateAccountResponse.account response) <> ACTIVE ->
        let state' :=
          eval (accountReducer state (createAccountSuccess response)) c in
        calculateTotalBalance state' = calculateTotalBalance state
        /\ calculateTotalAvailableBalance state'
           = calculateTotalAvailableBalance state).
Proof.
  split; [|split].
  - intros Hod. unfold calculateTotalBalance, calculateTotalAvailableBalance.
    apply (fold_left_add_le Qplus
             (fun x y u v Hxy Huv => Qplus_le_compat x y u v Hxy Huv)
             balance getAvailableBalance); [|apply Qle_refl].
    intros a Ha. apply balance_le_getAvailableBalance.
    intros od. apply Hod. unfold getActiveAccounts in Ha.
    apply filter_In in Ha. tauto.
  - intros Hno. unfold calculateTotalBalance, calculateTotalAvailableBalance.
    apply fold_left_ext_in. intros x a Ha.
    destruct (AccountType_eqb (accountType a) CURRENT) eqn:E;
      [|reflexivity].
    apply AccountType_eqb_eq in E. now rewrite (Hno a Ha E).
  - intros response c Hs state'.
    assert (E : getActiveAccounts state' = getActiveAccounts state).
    { unfold state', getActiveAccounts, eval. cbn [accountReducer].
      unfold bind, new_Date, ret. cbn [fst accounts].
      rewrite filter_app. cbn [filter].
      destruct (AccountStatus_eqb
                  (status (CreateAccountResponse.account response)) ACTIVE)
        eqn:Ea; [|apply app_nil_r].
      apply AccountStatus_eqb_eq in Ea. contradiction. }
    unfold calculateTotalBalance, calculateTotalAvailableBalance.
    rewrite E. split; reflexivity.
Qed.

Lemma total_available_not_below_total_witness :
  (calculateTotalBalance sampleState == 2100)%Q
  /\ (calculateTotalAvailableBalance sampleState == 12100)%Q
  /\ (calculateTotalBalance sampleState
      <= calculateTotalAvailableBalance sampleState)%Q.
Proof.
  destruct (total_available_not_below_total sampleState) as (Hle & _ & _).
  split; [reflexivity|]. split; [reflexivity|].
  apply Hle. intros a od Ha Hod.
  destruct Ha as [<-|[<-|[<-|[]]]]; simpl in Hod; try discriminate Hod.
  injection Hod as <-. discriminate.
Defined.

(** ** Withdrawal checks of the state helpers *)

Lemma Qgeb_le (x y : Q) : Qgeb x y = true <-> (y <= x)%Q.
Proof. unfold Qgeb. apply Qle_bool_iff. Qed.

(** An amount can be withdrawn exactly when it is not above the available
    balance, so every smaller amount can be withdrawn too; an amount
    exceeds the withdrawal limit exactly when the account is a SAVINGS
    account and the amount is above the limit of the business rules. *)
Theorem withdrawal_checks (a : Account) (amount smaller : Q) :
  hasSufficientBalance a amount = Qgeb (getAvailableBalance a) amount
  /\ (hasSufficientBalance a amount = true <->
      (amount <= getAvailableBalance a)%Q)
  /\ ((smaller <= amount)%Q -> hasSufficientBalance a amount = true ->
      hasSufficientBalance a smaller = true)
  /\ (exceedsWithdrawalLimit a amount = true <->
      accountType a = SAVINGS
      /\ (ACCOUNT_RULES.SAVINGS.WITHDRAWAL_LIMIT < amount)%Q).
Proof.
  assert (E : forall x, hasSufficientBalance a x
                        = Qgeb (getAvailableBalance a) x).
  { intros x. unfold hasSufficientBalance, getAvailableBalance.
    destruct (AccountType_eqb (accountType a) CURRENT
              && truthy (overdraftLimit a)); [|reflexivity].
    destruct (overdraftLimit a); reflexivity. }
  split; [apply E|]. split; [rewrite E; apply Qgeb_le|]. split.
  - rewrite !E, !Qgeb_le. intros H1 H2. now apply Qle_trans with amount.
  - unfold exceedsWithdrawalLimit.
    destruct (accountType a); simpl.
    + rewrite Qltb_lt. split; [intros H; split; [reflexivity | exact H]|].
      now intros [_ H].
    + split; [discriminate|]. now intros [H _].
Qed.

Lemma withdrawal_checks_witness :
  (100 <= 10100)%Q
  /\ hasSufficientBalance account2 10100%Q = true
  /\ hasSufficientBalance account2 100%Q = true.
Proof.
  assert (H : (100 <= 10100)%Q) by discriminate.
  assert (H1 : hasSufficientBalance account2 10100%Q = true) by reflexivity.
  split; [exact H|]. split; [exact H1|].
  destruct (withdrawal_checks account2 10100%Q 100%Q) as (_ & _ & Hmono & _).
  exact (Hmono H H1).
Defined.

(** ** Uniqueness of the ids in the collection *)

Lemma NoDup_map_filter {A B} (g : A -> B) (p : A -> bool) (l : list A) :
  NoDup (List.map g l) -> NoDup (List.map g (filter p l)).
Proof.
  induction l as [|x l IH]; simpl; intros H; [constructor|].
  inversion H as [|y ys Hnot Hrest]; subst.
  destruct (p x); simpl; [|now apply IH].
  constructor; [|now apply IH].
  intros Hin. apply Hnot. apply in_map_iff in Hin.
  destruct Hin as [z [Hz Hin]]. apply filter_In in Hin.
  apply in_map_iff. exists z. tauto.
Qed.

Lemma map_id_replace (a : Account) (l : list Account) :
  List.map id (List.map (fun x => if id x =? id a then a else x) l)
  = List.map id l.
Proof.
  induction l as [|x l IH]; simpl; [reflexivity|].
  rewrite IH. destruct (Z.eqb_spec (id x) (id a)) as [E|E]; congruence.
Qed.

Lemma NoDup_ids_app_one (a : Account) (l : list Account) :
  existsb (fun x => id x =? id a) l = false ->
  NoDup (List.map id l) -> NoDup (List.map id (l ++ [a])).
Proof.
  intros Hnew Hl. rewrite map_app. simpl.
  apply NoDup_app; [exact Hl | constructor; [intros [] | constructor] |].
  intros i Hi [<-|[]]. apply in_map_iff in Hi.
  destruct Hi as [x [Hid Hx]].
  assert (E : existsb (fun x => id x =? id a) l = true).
  { apply existsb_id_In. exists x. tauto. }
  congruence.
Qed.

Lemma uniqueIds_step (s : AccountState) (a : Action) (c : Clock) :
  uniqueIds s -> bringsNewIds s a ->
  uniqueIds (eval (accountReducer s a) c).
Proof.
  unfold uniqueIds. intros Hs Ha.
  destruct a as [ |l|e|i|a|e|r|r|e|i|X r|e|i|r|e| |[i|]|t];
    try exact Hs.
  - (* loadAccountsSuccess *) exact Ha.
  - (* loadAccountSuccess *)
    rewrite loadAccountSuccess_step. cbn [accounts].
    destruct (accountExists s (id a)) eqn:E.
    + now rewrite map_id_replace.
    + now apply NoDup_ids_app_one.
  - (* createAccountSuccess *)
    simpl in Ha. now apply NoDup_ids_app_one.
  - (* deleteAccountSuccess *)
    rewrite deleteAccountSuccess_step. cbn [accounts].
    now apply NoDup_map_filter.
  - (* checkBalanceSuccess *)
    destruct (checkBalanceSuccess_accounts id s r c) as [Hm _];
      [reflexivity|].
    now rewrite Hm.
Qed.

(** The ids of the collection stay different from one another as long as
    every loaded list has different ids and every created account has an
    id that no account of the collection has: the upsert of
    [loadAccountSuccess], the deletion and the balance update never
    duplicate an id.  With different ids an id names at most one
    account. *)
Theorem ids_stay_unique (s : AccountState) :
  reachableBy bringsNewIds s ->
  uniqueIds s
  /\ forall x y, In x (accounts s) -> In y (accounts s) -> id x = id y ->
                 x = y.
Proof.
  intros H.
  assert (U : uniqueIds s).
  { induction H as [|s a c Hreach IH Hok].
    - constructor.
    - now apply uniqueIds_step. }
  split; [exact U|]. unfold uniqueIds in U.
  induction (accounts s) as [|z l IH]; intros x y Hx Hy E; [contradiction|].
  simpl in U. inversion U as [|i rest Hnot Hrest]; subst.
  destruct Hx as [<-|Hx], Hy as [<-|Hy].
  - reflexivity.
  - exfalso. apply Hnot. rewrite E. now apply in_map.
  - exfalso. apply Hnot. rewrite <- E. now apply in_map.
  - now apply IH.
Qed.

Lemma ids_stay_unique_witness :
  let s1 := eval (accountReducer initialAccountState
                    (loadAccountsSuccess [account1; account2])) (clockFrom 10) in
  let s2 := eval (accountReducer s1 (createAccountSuccess (created account3)))
                 (clockFrom 20) in
  reachableBy bringsNewIds s2 /\ uniqueIds s2.
Proof.
  intros s1 s2.
  assert (H : reachableBy bringsNewIds s2).
  { unfold s2, s1.
    apply reachable_step; [|reflexivity].
    apply reachable_step; [apply reachable_init|].
    simpl. repeat constructor; simpl; intuition discriminate. }
  split; [exact H | exact (proj1 (ids_stay_unique s2 H))].
Defined.

(** [createAccountSuccess] does not look at the ids: with an account whose
    id is in the collection already, the collection has two accounts of
    that id, and the lookup by id keeps finding the older one. *)
Theorem createAccountSuccess_may_duplicate
    (s : AccountState) (response : CreateAccountResponse.t) (old : Account)
    (c : Clock) :
  getAccountById s (id (CreateAccountResponse.account response)) = Some old ->
  let s' := eval (accountReducer s (createAccountSuccess response)) c in
  List.length (accounts s') = S (List.length (accounts s))
  /\ In old (accounts s')
  /\ In (CreateAccountResponse.account response) (accounts s')
  /\ getAccountById s' (id (CreateAccountResponse.account response))
     = Some old
  /\ (old <> CreateAccountResponse.account response -> ~ uniqueIds s').
Proof.
  intros Hold s'. unfold s', eval, getAccountById in *.
  cbn [accountReducer bind new_Date ret fst accounts].
  pose proof (find_some _ _ Hold) as [Hin Hid]. apply Z.eqb_eq in Hid.
  split; [rewrite length_app; simpl; lia|].
  split; [apply in_or_app; now left|].
  split; [apply in_or_app; right; now left|].
  split; [now rewrite find_id_app_one, Hold|].
  intros Hne U. unfold uniqueIds in U. cbn [accounts] in U.
  rewrite map_app in U. simpl in U.
  apply NoDup_remove_2 in U. apply U. rewrite app_nil_r.
  rewrite <- Hid. now apply in_map.
Qed.

Lemma createAccountSuccess_may_duplicate_witness :
  getAccountById sampleState (id (CreateAccountResponse.account
                                    (created account2'))) = Some account2
  /\ List.length
       (accounts (eval (accountReducer sampleState
                          (createAccountSuccess (created account2')))
                       (clockFrom 0)))
     = 4%nat.
Proof.
  split; [reflexivity|].
  exact (proj1 (createAccountSuccess_may_duplicate sampleState
                  (created account2') account2 (clockFrom 0) eq_refl)).
Defined.

(** ** Timestamps and staleness *)

Lemma mapM_shifts {A B} (f : A -> Timed B) (xs : list A) (c : Clock) :
  (forall x c0, exists k, forall i, snd (f x c0) i = c0 (k + i)%nat) ->
  exists k, forall i, snd (mapM f xs c) i = c (k + i)%nat.
Proof.
  intros Hf. revert c. induction xs as [|x xs IH]; intros c; simpl.
  - exists O. reflexivity.
  - unfold bind. destruct (Hf x c) as [k1 H1].
    destruct (f x c) as [y c1]. simpl in H1.
    destruct (IH c1) as [k2 H2].
    destruct (mapM f xs c1) as [ys c2]. simpl in *.
    exists (k1 + k2)%nat. intros i. rewrite H2, H1. f_equal. lia.
Qed.

Lemma stamp_is_reading (s : AccountState) (a : Action) (c : Clock) :
  stamps a = true ->
  exists n, lastUpdated (eval (accountReducer s a) c) = Some (c n).
Proof.
  destruct a as [ |l|e|i|a|e|r|r|e|i|X r|e|i|r|e| |[i|]|t];
    intros H; try discriminate H; try (exists O; reflexivity).
  unfold eval. simpl. unfold bind.
  set (f := fun account : Account =>
              if id account =? BalanceCheckResponse.accountId r
              then _ else _).
  destruct (mapM_shifts f (accounts s) c) as [k Hk].
  { intros x c0. unfold f.
    destruct (id x =? BalanceCheckResponse.accountId r); simpl.
    - exists 1%nat. reflexivity.
    - exists O. reflexivity. }
  destruct (mapM f (accounts s) c) as [ys c1]. simpl in Hk.
  destruct (selectedAccount s) as [sel|]; simpl.
  - destruct (id sel =? BalanceCheckResponse.accountId r); simpl.
    + exists (k + 1)%nat. now rewrite Hk.
    + exists (k + 0)%nat. now rewrite Hk.
  - exists (k + 0)%nat. now rewrite Hk.
Qed.

Lemma unstamped_keeps_lastUpdated (s : AccountState) (a : Action) (c : Clock) :
  stamps a = false ->
  lastUpdated (eval (accountReducer s a) c) = lastUpdated s
  /\ initialized (eval (accountReducer s a) c) = initialized s.
Proof.
  destruct a as [ |l|e|i|a|e|r|r|e|i|X r|e|i|r|e| |[i|]|t];
    intros H; try discriminate H; split; reflexivity.
Qed.

(** A state that was never updated needs a refresh, and the clock is not
    read for it.  After a success the state carries a reading of the clock
    of the transition, and it needs a refresh exactly when the clock is
    more than five minutes (300000 ms) past that reading.  A request or a
    failure leaves the timestamp alone: a failed reload does not make old
    data look fresh. *)
Theorem needsRefresh_after_transition
    (s : AccountState) (a : Action) (c c' : Clock) :
  let s' := eval (accountReducer s a) c in
  (lastUpdated s = None -> needsRefresh s c' = (true, c'))
  /\ (stamps a = true ->
      exists n, lastUpdated s' = Some (c n)
                /\ eval (needsRefresh s') c' = (300000 <? c' O - c n))
  /\ (stamps a = false -> needsRefresh s' c' = needsRefresh s c').
Proof.
  intros s'. split; [|split].
  - intros H. unfold needsRefresh. now rewrite H.
  - intros H. destruct (stamp_is_reading s a c H) as [n Hn].
    exists n. split; [exact Hn|]. unfold needsRefresh. subst s'.
    rewrite Hn. reflexivity.
  - intros H. unfold needsRefresh. subst s'.
    now rewrite (proj1 (unstamped_keeps_lastUpdated s a c H)).
Qed.

Lemma needsRefresh_after_transition_witness :
  lastUpdated initialAccountState = None
  /\ needsRefresh initialAccountState (clockFrom 60) = (true, clockFrom 60)
  /\ eval (needsRefresh
             (eval (accountReducer initialAccountState
                      (loadAccountsFailure "Server error. Please try again later."))
                   (clockFrom 50)))
          (clockFrom 60)
     = true.
Proof.
  destruct (needsRefresh_after_transition initialAccountState
              (loadAccountsFailure "Server error. Please try again later.")
              (clockFrom 50) (clockFrom 60)) as (Hnever & _ & Hfail).
  split; [reflexivity|]. split; [exact (Hnever eq_refl)|].
  unfold eval at 1. rewrite (Hfail eq_refl). reflexivity.
Defined.

(** Once the accounts were loaded the state stays initialized and keeps a
    timestamp: no transition resets [initialized] or [lastUpdated], and in
    every reachable state that is initialized [lastUpdated] is set. *)
Theorem initialized_is_kept (s : AccountState) (a : Action) (c : Clock) :
  let s' := eval (accountReducer s a) c in
  (initialized s = true -> initialized s' = true)
  /\ (lastUpdated s <> None -> lastUpdated s' <> None)
  /\ (reachable s -> initialized s = true -> lastUpdated s <> None).
Proof.
  intros s'. subst s'.
  assert (St : forall s0 a0 c0,
             (initialized s0 = true ->
              initialized (eval (accountReducer s0 a0) c0) = true)
             /\ (lastUpdated s0 <> None ->
                 lastUpdated (eval (accountReducer s0 a0) c0) <> None)
             /\ (initialized (eval (accountReducer s0 a0) c0) = true ->
                 initialized s0 = true \/ stamps a0 = true)).
  { intros s0 a0 c0. destruct (stamps a0) eqn:E.
    - destruct (stamp_is_reading s0 a0 c0 E) as [n Hn].
      split; [|split; [intros _; rewrite Hn; discriminate | now right]].
      destruct a0 as [ |l|e|i|b|e|r|r|e|i|X r|e|i|r|e| |[i|]|t];
        try discriminate E; intros H; try exact H; try reflexivity.
      unfold eval. simpl. unfold bind.
      destruct (mapM _ (accounts s0) c0) as [ys c1].
      destruct (selectedAccount s0) as [sel|]; simpl; [|exact H].
      destruct (id sel =? BalanceCheckResponse.accountId r); exact H.
    - destruct (unstamped_keeps_lastUpdated s0 a0 c0 E) as [Hl Hi].
      rewrite Hl, Hi. tauto. }
  split; [apply St|]. split; [apply St|].
  induction 1 as [|s0 a0 c0 Hreach IH _].
  - discriminate.
  - intros Hi. destruct (St s0 a0 c0) as (_ & Hkeep & Hwhy).
    destruct (Hwhy Hi) as [H|H].
    + apply Hkeep. now apply IH.
    + destruct (stamp_is_reading s0 a0 c0 H) as [n Hn]. rewrite Hn.
      discriminate.
Qed.



(** ** The loading and error flags *)

Lemma transition_flags (s : AccountState) (a : Action) (c : Clock) :
  let s' := eval (accountReducer s a) c in
  (requests a = true ->
   loading s' = true /\ error s' = None /\ initialized s' = initialized s)
  /\ (forall e, failureOf a = Some e ->
      loading s' = false /\ error s' = Some e
      /\ initialized s' = initialized s)
  /\ (stamps a = true ->
      loading s' = false /\ error s' = None
      /\ initialized s'
         = match a with
           | loadAccountsSuccess _ => true
           | _ => initialized s
           end).
Proof.
  intros s'. subst s'.
  destruct a as [ |l|e|i|b|e|r|r|e|i|X r|e|i|r|e| |[i|]|t];
    (split; [|split]); try (intros H; discriminate H);
    try (intros e0 H; discriminate H);
    try (intros e0 H; injection H as <-);
    try (intros _); try (repeat split; reflexivity).
  unfold eval. simpl. unfold bind.
  destruct (mapM _ (accounts s) c) as [ys c1].
  destruct (selectedAccount s) as [sel|]; simpl;
    [destruct (id sel =? BalanceCheckResponse.accountId r)|];
    repeat split; reflexivity.
Qed.

(** What the views read after a transition, whatever was read before:
    after a request [selectHasError] is false and [selectIsDataReady] is
    false; after a failure [selectHasError] is true; after a success it is
    false; and after a failure or a success the data is ready exactly when
    the list of accounts was loaded once ([loadAccountsSuccess] makes it
    ready).  The flags depend on the last of these actions only: the
    result of one call ends the loading state also when another call is
    still in flight. *)
Theorem flags_after_transition
    (sameApp : AppState -> AppState -> bool)
    (sameState : AccountState -> AccountState -> bool)
    (soundApp : sound sameApp) (soundState : sound sameState)
    (s : AccountState) (a : Action) (c : Clock)
    (history1 history2 : list AppState) :
  let app := {| accountsFeature := eval (accountReducer s a) c |} in
  let hasError :=
    fst (selectHasError sameApp sameState
           (cacheAfter (selectHasError sameApp sameState)
                       (None, None, None) history1) app) in
  let ready :=
    fst (selectIsDataReady sameApp sameState
           (cacheAfter (selectIsDataReady sameApp sameState)
                       ((None, None), (None, None), None) history2) app) in
  (requests a = true -> hasError = false /\ ready = false)
  /\ (forall e, failureOf a = Some e ->
      hasError = true /\ ready = initialized s)
  /\ (stamps a = true ->
      hasError = false
      /\ ready = match a with
                 | loadAccountsSuccess _ => true
                 | _ => initialized s
                 end).
Proof.
  intros app hasError ready.
  assert (He : hasError
               = match error (accountsFeature app) with
                 | Some _ => true
                 | None => false
                 end).
  { subst hasError. unfold selectHasError.
    refine (reads_after _ _
              (fun app0 => match error (accountsFeature app0) with
                           | Some _ => true
                           | None => false
                           end) _ history1 app).
    refine (reads_createSelector sameText _ _ _
              (fun app0 => error (accountsFeature app0)) sound_sameText _).
    exact (reads_field sameApp sameState soundApp soundState error). }
  assert (Hr : ready
               = initialized (accountsFeature app)
                 && negb (loading (accountsFeature app))).
  { subst ready. unfold selectIsDataReady.
    refine (reads_after _ _
              (fun app0 => initialized (accountsFeature app0)
                           && negb (loading (accountsFeature app0)))
              _ history2 app).
    refine (reads_createSelector2 Bool.eqb Bool.eqb _ _
              (fun i l => i && negb l) _ _
              (fun app0 => initialized (accountsFeature app0))
              (fun app0 => loading (accountsFeature app0))
              sound_Bool_eqb sound_Bool_eqb _ _).
    - exact (reads_field sameApp sameState soundApp soundState initialized).
    - exact (reads_field sameApp sameState soundApp soundState loading). }
  rewrite He, Hr. subst app. cbn [accountsFeature].
  destruct (transition_flags s a c) as (Hreq & Hfail & Hok).
  split; [|split].
  - intros H. destruct (Hreq H) as (-> & -> & ->).
    split; [reflexivity | apply andb_false_r].
  - intros e H. destruct (Hfail e H) as (-> & -> & ->).
    split; [reflexivity | apply andb_true_r].
  - intros H. destruct (Hok H) as (-> & -> & ->).
    split; [reflexivity | apply andb_true_r].
Qed.

Lemma flags_after_transition_witness :
  let app :=
    {| accountsFeature :=
         eval (accountReducer
                 (eval (accountReducer
                          (eval (accountReducer initialAccountState
                                   loadAccounts) (clockFrom 0))
                          (checkBalance 1)) (clockFrom 0))
                 (checkBalanceFailure "Account not found."))
              (clockFrom 0) |} in
  fst (selectHasError neverSame neverSame (None, None, None) app) = true
  /\ fst (selectIsDataReady neverSame neverSame
            ((None, None), (None, None), None) app) = false
  /\ loading (accountsFeature app) = false.
Proof.
  intros app.
  destruct (flags_after_transition neverSame neverSame sound_neverSame
              sound_neverSame
              (eval (accountReducer
                       (eval (accountReducer initialAccountState
                                loadAccounts) (clockFrom 0))
                       (checkBalance 1)) (clockFrom 0))
              (checkBalanceFailure "Account not found.") (clockFrom 0)
              [] [])
    as (_ & Hfail & _).
  destruct (Hfail _ eq_refl) as [He Hr].
  split; [exact He|]. split; [exact Hr | reflexivity].
Defined.

(** ** The queries of the service *)

Lemma lowBalance_filter_of_loaded (l : list Account) (s : AccountState)
    (c : Clock) :
  filter
    (fun account =>
       if negb (AccountStatus_eqb (status account) ACTIVE)
       then false
       else
         let threshold :=
           if AccountType_eqb (accountType account) SAVINGS
           then ACCOUNT_RULES.SAVINGS.LOW_BALANCE_THRESHOLD
           else ACCOUNT_RULES.CURRENT.LOW_BALANCE_THRESHOLD in
         Qltb (balance account) threshold)
    l
  = getLowBalanceAccounts (eval (accountReducer s (loadAccountsSuccess l)) c).
Proof.
  unfold getLowBalanceAccounts, getActiveAccounts, eval. cbn [fst accounts].
  simpl accounts.
  induction l as [|a l IH]; [reflexivity|].
  cbn [filter]. destruct (AccountStatus_eqb (status a) ACTIVE); cbn [negb].
  - cbn [filter]. rewrite IH. reflexivity.
  - exact IH.
Qed.

(** The low-balance accounts and the statistics that the service computes
    from the list of the backend are the ones the store computes once that
    list is loaded: [getLowBalanceAccounts] of the service delivers the
    state helper's low-balance accounts of the state after
    [loadAccountsSuccess], and the seven figures of the service's
    statistics are the figures of the state helper.  Both queries send
    what [getAllAccounts] sends (its retry included) and pass its error
    on. *)
Theorem service_queries_agree_with_store
    (backend : Backend (list Account)) (w : World)
    (s : AccountState) (c : Clock) :
  let loaded l := eval (accountReducer s (loadAccountsSuccess l)) c in
  let listed := AccountService.getAllAccounts backend w in
  let low := AccountServiceQueries.getLowBalanceAccounts backend w in
  let statistics := AccountServiceQueries.getAccountStatistics backend w in
  snd low = snd listed
  /\ snd statistics = snd listed
  /\ fst low = match fst listed with
               | Next l => Next (getLowBalanceAccounts (loaded l))
               | Thrown e => Thrown e
               end
  /\ match fst statistics, fst listed with
     | Next figures, Next l =>
         let helper := getAccountStatistics (loaded l) in
         ServiceStatistics.totalAccounts figures
         = AccountStatistics.totalAccounts helper
         /\ ServiceStatistics.activeAccounts figures
            = AccountStatistics.activeAccounts helper
         /\ ServiceStatistics.closedAccounts figures
            = AccountStatistics.closedAccounts helper
         /\ ServiceStatistics.suspendedAccounts figures
            = AccountStatistics.suspendedAccounts helper
         /\ ServiceStatistics.savingsAccounts figures
            = AccountStatistics.savingsAccounts helper
         /\ ServiceStatistics.currentAccounts figures
            = AccountStatistics.currentAccounts helper
         /\ ServiceStatistics.totalBalance figures
            = AccountStatistics.totalBalance helper
     | Thrown e, Thrown e' => e = e'
     | _, _ => False
     end.
Proof.
  intros loaded listed low statistics.
  subst low statistics.
  unfold AccountServiceQueries.getLowBalanceAccounts,
    AccountServiceQueries.getAccountStatistics, Rx.map, bind.
  fold listed. destruct listed as [[l|e] w'].
  - cbn [fst snd ret]. unfold ret. cbn [fst snd].
    split; [reflexivity|]. split; [reflexivity|].
    split; [f_equal; apply lowBalance_filter_of_loaded|].
    repeat split; reflexivity.
  - unfold ret. cbn [fst snd]. repeat split; reflexivity.
Qed.

(** A second failure of the list request: both queries fail with the
    message of the service. *)
Example service_queries_of_a_failing_backend :
  let backend : Backend (list Account) := fun _ _ => Fail serverError in
  fst (AccountServiceQueries.getLowBalanceAccounts backend sampleWorld)
  = Thrown (new_Error "Server error. Please try again later.")
  /\ List.length
       (sent (snd (AccountServiceQueries.getAccountStatistics backend
                     sampleWorld)))
     = (List.length (sent sampleWorld) + 2)%nat.
Proof. split; reflexivity. Qed.

(** The reads of one account and the filtered lists are sent once,
    whatever the outcome: a failure of the request is the error the caller
    gets, under the message of [handleError].  [checkBalance] sends the
    request of [getAccountById]. *)
Theorem single_reads_are_not_retried
    (backend : Backend Account) (listBackend : Backend (list Account))
    (w : World) (accountId : Z) (s : AccountStatus) (type : AccountType) :
  let n := List.length (sent w) in
  let byId := GET (AccountService.endpoints.accountById accountId) in
  let byStatus :=
    GET (AccountService.endpoints.accounts ++ "?status="
           ++ AccountServiceQueries.statusValue s)%string in
  let byType :=
    GET (AccountService.endpoints.accounts ++ "?accountType="
           ++ AccountServiceQueries.typeValue type)%string in
  sent (snd (AccountService.getAccountById accountId backend w))
  = sent w ++ [byId]
  /\ sent (snd (AccountService.checkBalance accountId backend w))
     = sent w ++ [byId]
  /\ sent (snd (AccountServiceQueries.getAccountsByStatus s listBackend w))
     = sent w ++ [byStatus]
  /\ sent (snd (AccountServiceQueries.getAccountsByType type listBackend w))
     = sent w ++ [byType]
  /\ (forall e, backend n byId = Fail e ->
      fst (AccountService.getAccountById accountId backend w)
      = Thrown (new_Error (AccountService.errorMessageOf e))
      /\ fst (AccountService.checkBalance accountId backend w)
         = Thrown (new_Error (AccountService.errorMessageOf e)))
  /\ (forall e, listBackend n byStatus = Fail e ->
      fst (AccountServiceQueries.getAccountsByStatus s listBackend w)
      = Thrown (new_Error (AccountService.errorMessageOf e)))
  /\ (forall e, listBackend n byType = Fail e ->
      fst (AccountServiceQueries.getAccountsByType type listBackend w)
      = Thrown (new_Error (AccountService.errorMessageOf e))).
Proof.
  intros n byId byStatus byType.
  unfold AccountService.getAccountById, AccountService.checkBalance,
    AccountServiceQueries.getAccountsByStatus,
    AccountServiceQueries.getAccountsByType, Rx.catchError.
  unfold bind. rewrite !map_http_run.
  fold byId byStatus byType n.
  split; [destruct (backend n byId); reflexivity|].
  split; [destruct (backend n byId); reflexivity|].
  split; [destruct (listBackend n byStatus); reflexivity|].
  split; [destruct (listBackend n byType); reflexivity|].
  split; [intros e H; rewrite H; split; reflexivity|].
  split; [intros e H; rewrite H; reflexivity|].
  intros e H; rewrite H; reflexivity.
Qed.

(** [closeAccount] sends the request of [updateAccountStatus] with CLOSED:
    one PATCH of the account's url whose body is the status CLOSED and the
    time of the call.  The reason it is given is part of no request. *)
Theorem closeAccount_is_a_status_update
    (backend : Backend Account) (w : World) (accountId : Z)
    (reason reason' : string) :
  let closing :=
    subscribe (AccountService.closeAccount accountId reason) backend w in
  let updating :=
    subscribe (AccountServiceQueries.updateAccountStatus accountId CLOSED)
              backend w in
  sent (snd closing)
  = sent w ++ [PATCH (AccountService.endpoints.accountById accountId)
                     {| StatusUpdate.status := CLOSED;
                        StatusUpdate.lastModifiedDate := clock w O |}]
  /\ sent (snd updating) = sent (snd closing)
  /\ subscribe (AccountService.closeAccount accountId reason') backend w
     = closing
  /\ (forall e, fst updating = Thrown e <-> fst closing = Thrown e).
Proof.
  intros closing updating. subst closing updating.
  unfold subscribe, AccountService.closeAccount,
    AccountServiceQueries.updateAccountStatus, bind, now, new_Date, ret.
  cbn [clock sent fst snd].
  unfold Rx.catchError, Rx.map, Rx.delay, Rx.http, bind, now, new_Date, ret.
  cbn [clock sent fst snd].
  match goal with |- context [backend ?n ?r] => destruct (backend n r) end;
    cbn [clock sent fst snd];
    (split; [reflexivity|]); (split; [reflexivity|]);
    (split; [reflexivity|]); intros e0;
    unfold AccountService.handleError, Rx.throwError, ret; cbn [fst];
    split; intros H; try discriminate H; inversion H; reflexivity.
Qed.

(** ** The actions of the other effects *)

Lemma inner_of_call {B A} (env : CallEnv B)
    (source : Observable B ErrorValue A)
    (success : A -> Action) (failure : string -> Action) :
  delivers
    (AccountEffects.inner env
       (ret (source
               |> Rx.map (fun x => ret (success x))
               |> Rx.catchError (fun error =>
                    let errorMessage :=
                      AccountEffects.extractErrorMessage error in
                    of_ (failure errorMessage)))))
  = match fst (source (env_backend env) (env_world env)) with
    | Next x => success x
    | Thrown error => failure (AccountEffects.extractErrorMessage error)
    end.
Proof.
  unfold AccountEffects.inner. cbn [delivers].
  unfold subscribe, Rx.catchError, Rx.map, bind, ret.
  destruct (source (env_backend env) (env_world env)) as [[x|error] w'];
    reflexivity.
Qed.

Lemma inner_of_prepared_call {B A} (env : CallEnv B)
    (call : State World (Observable B ErrorValue A))
    (success : A -> Action) (failure : string -> Action) :
  delivers
    (AccountEffects.inner env
       (observable <- call ;;
        ret (observable
               |> Rx.map (fun x => ret (success x))
               |> Rx.catchError (fun error =>
                    let errorMessage :=
                      AccountEffects.extractErrorMessage error in
                    of_ (failure errorMessage)))))
  = match fst (subscribe call (env_backend env) (env_world env)) with
    | Next x => success x
    | Thrown error => failure (AccountEffects.extractErrorMessage error)
    end.
Proof.
  unfold AccountEffects.inner. cbn [delivers].
  unfold subscribe, Rx.catchError, Rx.map, bind, ret.
  destruct (call (env_world env)) as [observable w0].
  destruct (observable (env_backend env) w0) as [[x|error] w'];
    reflexivity.
Qed.

Lemma getAccountById_run (accountId : Z) (backend : Backend Account)
    (w : World) :
  fst (AccountService.getAccountById accountId backend w)
  = match backend (List.length (sent w))
            (GET (AccountService.endpoints.accountById accountId)) with
    | Ok a => Next (AccountService.transformAccountDate a)
    | Fail e => Thrown (new_Error (AccountService.errorMessageOf e))
    end.
Proof.
  unfold AccountService.getAccountById, Rx.catchError, bind.
  rewrite map_http_run. destruct (backend _ _); reflexivity.
Qed.

Lemma checkBalance_run (accountId : Z) (backend : Backend Account)
    (w : World) :
  fst (AccountService.checkBalance accountId backend w)
  = match backend (List.length (sent w))
            (GET (AccountService.endpoints.accountById accountId)) with
    | Ok a => Next (balanceOf a)
    | Fail e => Thrown (new_Error (AccountService.errorMessageOf e))
    end.
Proof.
  unfold AccountService.checkBalance, Rx.catchError, bind.
  rewrite map_http_run. destruct (backend _ _); reflexivity.
Qed.


(** A call that the backend fails leaves the store's data as it was: when
    every request is answered with the error [e], the action of each of the
    five effects, given to the reducer, keeps the collection, the
    selection, [lastUpdated] and [initialized], ends the loading state and
    stores the message of the service for [e]. *)
Theorem failed_calls_keep_store
    (listEnv : nat -> CallEnv (list Account))
    (env : nat -> CallEnv Account) (k : nat) (e : HttpErrorResponse.t)
    (accountId : Z) (request : CreateAccountRequest.t)
    (s : AccountState) (c : Clock)
    (listFails : forall n r, env_backend (listEnv k) n r = Fail e)
    (fails : forall n r, env_backend (env k) n r = Fail e) :
  let after action := eval (accountReducer s action) c in
  let kept := failed s (AccountService.errorMessageOf e) in
  after (delivers (AccountEffects.loadAccounts_inner listEnv k tt)) = kept
  /\ after (delivers (AccountEffects.loadAccount_inner env k accountId))
     = kept
  /\ after (delivers (AccountEffects.checkBalance_inner env k accountId))
     = kept
  /\ after (delivers (AccountEffects.deleteAccount_inner env k accountId))
     = kept
  /\ after (delivers (AccountEffects.createAccount_inner env k request))
     = kept.
Proof.
  intros after kept. subst after kept. cbv beta.
  split; [|split; [|split; [|split]]].
  - unfold AccountEffects.loadAccounts_inner. rewrite inner_of_call.
    rewrite getAllAccounts_run, !listFails. cbn [fst].
    now rewrite extractErrorMessage_of_service_error.
  - unfold AccountEffects.loadAccount_inner. rewrite inner_of_call.
    rewrite getAccountById_run, fails.
    now rewrite extractErrorMessage_of_service_error.
  - unfold AccountEffects.checkBalance_inner. rewrite inner_of_call.
    rewrite checkBalance_run, fails.
    now rewrite extractErrorMessage_of_service_error.
  - unfold AccountEffects.deleteAccount_inner.
    rewrite inner_of_prepared_call.
    destruct (closeAccount_run accountId "Customer request"
                (env_backend (env k)) (env_world (env k)))
      as (patch & _ & ->).
    rewrite fails. now rewrite extractErrorMessage_of_service_error.
  - unfold AccountEffects.createAccount_inner.
    rewrite inner_of_prepared_call.
    destruct (createAccount_run (env_random (env k)) request
                (env_backend (env k)) (env_world (env k)))
      as (post & _ & ->).
    rewrite fails. now rewrite extractErrorMessage_of_service_error.
Qed.

Lemma failed_calls_keep_store_witness :
  let listEnv : nat -> CallEnv (list Account) :=
    fun _ => {| env_backend := fun _ _ => Fail serverError;
                env_world := sampleWorld;
                env_random := 0%Q;
                env_latency := 5 |} in
  let env : nat -> CallEnv Account :=
    fun _ => {| env_backend := fun _ _ => Fail serverError;
                env_world := sampleWorld;
                env_random := 0%Q;
                env_latency := 5 |} in
  eval (accountReducer sampleState
          (delivers (AccountEffects.deleteAccount_inner env 0%nat 2)))
       (clockFrom 0)
  = failed sampleState "Server error. Please try again later."
  /\ accounts (failed sampleState "Server error. Please try again later.")
     = [account1; account2; account3].
Proof.
  intros listEnv env.
  destruct (failed_calls_keep_store listEnv env 0%nat serverError 2
              sampleRequest sampleState (clockFrom 0)
              (fun _ _ => eq_refl) (fun _ _ => eq_refl))
    as (_ & _ & _ & Hdelete & _).
  split; [exact Hdelete | reflexivity].
Defined.

(** ** The account number of a new account *)

Lemma of_lu_lowDigit m d :
  (m < 10)%N ->
  DecimalPos.Unsigned.of_lu (lowDigit m d)
  = (m + 10 * DecimalPos.Unsigned.of_lu d)%N.
Proof.
  intros H.
  destruct m as [|p]; [reflexivity|].
  do 4 (destruct p as [p|p|]; try reflexivity; try lia).
Qed.

Lemma of_lu_littleDigits k : forall n,
  (n < 10 ^ N.of_nat k)%N ->
  DecimalPos.Unsigned.of_lu (littleDigits k n) = n.
Proof.
  induction k as [|k IH]; intros n H.
  - simpl in *. lia.
  - cbn [littleDigits]. rewrite of_lu_lowDigit by (apply N.mod_lt; lia).
    rewrite IH.
    + rewrite (N.div_mod n 10) at 3 by lia. lia.
    + rewrite Nat2N.inj_succ, N.pow_succ_r' in H.
      apply N.Div0.div_lt_upper_bound. lia.
Qed.

Lemma nb_digits_lowDigit m d :
  Decimal.nb_digits (lowDigit m d) = S (Decimal.nb_digits d).
Proof.
  destruct m as [|p]; [reflexivity|].
  do 4 (destruct p as [p|p|]; try reflexivity).
Qed.

Lemma nb_digits_littleDigits k : forall n,
  Decimal.nb_digits (littleDigits k n) = k.
Proof.
  induction k as [|k IH]; intros n; [reflexivity|].
  cbn [littleDigits]. now rewrite nb_digits_lowDigit, IH.
Qed.

Lemma of_lu_lt d :
  (DecimalPos.Unsigned.of_lu d < 10 ^ N.of_nat (Decimal.nb_digits d))%N.
Proof.
  induction d; cbn [Decimal.nb_digits DecimalPos.Unsigned.of_lu];
    rewrite ?Nat2N.inj_succ, ?N.pow_succ_r'; simpl N.of_nat; lia.
Qed.

Lemma length_NilEmpty_string_of_uint d :
  String.length (NilEmpty.string_of_uint d) = Decimal.nb_digits d.
Proof. induction d; simpl; congruence. Qed.

Lemma length_string_of_uint d :
  d <> Decimal.Nil ->
  String.length (NilZero.string_of_uint d) = Decimal.nb_digits d.
Proof.
  intros H. destruct d; [contradiction|..];
    exact (length_NilEmpty_string_of_uint _).
Qed.

Lemma nb_digits_to_uint (p : positive) (k : nat) :
  (10 ^ N.of_nat k <= N.pos p < 10 ^ N.of_nat (S k))%N ->
  Decimal.nb_digits (Pos.to_uint p) = S k.
Proof.
  intros [Hlo Hhi].
  apply Nat.le_antisymm.
  - pose proof (DecimalPos.Unsigned.to_of
                  (Decimal.rev (littleDigits (S k) (N.pos p)))) as H.
    rewrite DecimalPos.Unsigned.of_lu_rev in H.
    rewrite of_lu_littleDigits in H by exact Hhi.
    cbn [N.to_uint] in H. rewrite H.
    etransitivity.
    + apply DecimalFacts.nb_digits_unorm.
      intros E. apply DecimalFacts.rev_nil_inv in E.
      apply (f_equal Decimal.nb_digits) in E.
      rewrite nb_digits_littleDigits in E. discriminate E.
    + now rewrite DecimalFacts.nb_digits_rev, nb_digits_littleDigits.
  - pose proof (DecimalPos.Unsigned.of_to p) as H.
    rewrite DecimalPos.Unsigned.of_uint_alt in H.
    pose proof (of_lu_lt (Decimal.rev (Pos.to_uint p))) as Hlt.
    rewrite H, DecimalFacts.nb_digits_rev in Hlt.
    destruct (Nat.le_gt_cases (S k) (Decimal.nb_digits (Pos.to_uint p)))
      as [|Hsmall]; [assumption|].
    exfalso.
    assert (10 ^ N.of_nat (Decimal.nb_digits (Pos.to_uint p))
            <= 10 ^ N.of_nat k)%N.
    { apply N.pow_le_mono_r; lia. }
    lia.
Qed.

Lemma length_Z_to_string (z : Z) (k : nat) :
  10 ^ Z.of_nat k <= z < 10 ^ Z.of_nat (S k) ->
  String.length (Z_to_string z) = S k.
Proof.
  intros [Hlo Hhi].
  assert (Hpos : 0 < z).
  { assert (0 < 10 ^ Z.of_nat k) by (apply Z.pow_pos_nonneg; lia). lia. }
  destruct z as [|p|p]; try lia.
  unfold Z_to_string. cbn [Z.to_int NilZero.string_of_int].
  rewrite length_string_of_uint
    by apply DecimalPos.Unsigned.to_uint_nonnil.
  apply nb_digits_to_uint. split.
  - apply N2Z.inj_le. rewrite N2Z.inj_pow, nat_N_Z. exact Hlo.
  - apply N2Z.inj_lt. rewrite N2Z.inj_pow, nat_N_Z. exact Hhi.
Qed.

(** For every value of [Math.random()], which is at least 0 and below 1,
    the account number is [ACC] followed by a number between 100000000 and
    999999999: twelve characters. *)
Theorem generateAccountNumber_format (random : Q) :
  (0 <= random)%Q -> (random < 1)%Q ->
  exists digits,
    100000000 <= digits <= 999999999
    /\ AccountService.generateAccountNumber random
       = ("ACC" ++ Z_to_string digits)%string
    /\ String.length (AccountService.generateAccountNumber random) = 12%nat.
Proof.
  intros Hlo Hhi.
  set (x := (100000000 + random * 900000000)%Q).
  assert (H1 : 100000000 <= Qfloor x).
  { change 100000000 with (Qfloor (inject_Z 100000000)) at 1.
    apply Qfloor_resp_le. unfold x.
    rewrite <- (Qplus_0_r (inject_Z 100000000)) at 1.
    apply Qplus_le_r. apply Qmult_le_0_compat; [exact Hlo | discriminate]. }
  assert (H2 : Qfloor x <= 999999999).
  { assert (Hx : (x < inject_Z 1000000000)%Q).
    { unfold x.
      setoid_replace (inject_Z 1000000000)
        with (100000000 + 1 * 900000000)%Q by reflexivity.
      apply Qplus_lt_r. apply Qmult_lt_r; [reflexivity | exact Hhi]. }
    pose proof (Qfloor_le x) as Hf.
    assert (Hlt : (inject_Z (Qfloor x) < inject_Z 1000000000)%Q)
      by (eapply Qle_lt_trans; eassumption).
    rewrite <- Zlt_Qlt in Hlt. lia. }
  exists (Qfloor x). split; [split; assumption|]. split; [reflexivity|].
  unfold AccountService.generateAccountNumber. fold x.
  cbn [String.append String.length].
  rewrite (length_Z_to_string (Qfloor x) 8); [reflexivity|].
  change (10 ^ Z.of_nat 8) with 100000000.
  change (10 ^ Z.of_nat 9) with 1000000000. lia.
Qed.

Lemma generateAccountNumber_format_witness :
  AccountService.generateAccountNumber (1 # 2) = "ACC550000000"
  /\ exists digits,
       100000000 <= digits <= 999999999
       /\ AccountService.generateAccountNumber (1 # 2)
          = ("ACC" ++ Z_to_string digits)%string
       /\ String.length (AccountService.generateAccountNumber (1 # 2))
          = 12%nat.
Proof.
  split; [reflexivity|].
  apply generateAccountNumber_format; [discriminate | reflexivity].
Defined.

(** ** The message of an error *)

(** The message that the effects store for an error is the error's
    [error.message] when that is a non-empty text, else its own [message]
    when that is a non-empty text, a thrown string as it is, and a fixed
    text otherwise.  It is empty for the empty string only. *)
Theorem extractErrorMessage_is_empty_for_empty_string_only
    (error : ErrorValue) :
  let text := AccountEffects.extractErrorMessage error in
  (AccountEffects.nonempty text = false <-> error = errorString EmptyString)
  /\ (forall m own, error = errorObject (Some m) own ->
        AccountEffects.nonempty m = true -> text = m)
  /\ (forall inner m, error = errorObject inner (Some m) ->
        inner = None \/ inner = Some EmptyString ->
        AccountEffects.nonempty m = true -> text = m)
  /\ (forall e, error = new_Error (AccountService.errorMessageOf e) ->
        text = AccountService.errorMessageOf e).
Proof.
  intros text. subst text. split; [|split; [|split]].
  - destruct error as [[m|] [m'|]|s|]; cbn [AccountEffects.extractErrorMessage];
      split; intros H; try discriminate H.
    + destruct (AccountEffects.nonempty m) eqn:E1; [congruence|].
      destruct (AccountEffects.nonempty m') eqn:E2; [congruence|].
      discriminate H.
    + destruct (AccountEffects.nonempty m) eqn:E1; [congruence|].
      discriminate H.
    + destruct (AccountEffects.nonempty m') eqn:E2; [congruence|].
      discriminate H.
    + destruct s; [reflexivity | discriminate H].
    + injection H as ->. reflexivity.
  - intros m own -> Hm. cbn [AccountEffects.extractErrorMessage].
    destruct own; now rewrite Hm.
  - intros inner m -> [-> | ->] Hm; cbn [AccountEffects.extractErrorMessage];
      cbn [AccountEffects.nonempty]; now rewrite Hm.
  - intros e ->. apply extractErrorMessage_of_service_error.
Qed.

(** ** The form of a new account *)

Lemma forms_invariant (edits : list AccountCreateComponent.Edit) :
  forall forms,
    AccountCreateComponent.accountType forms
    = AccountCreateComponent.selectedAccountType forms ->
    AccountCreateComponent.depositMinimum forms
    = match AccountCreateComponent.accountType forms with
      | Some SAVINGS => ACCOUNT_RULES.SAVINGS.INITIAL_DEPOSIT_MIN
      | Some CURRENT => ACCOUNT_RULES.CURRENT.INITIAL_DEPOSIT_MIN
      | None => 100%Q
      end ->
    let forms' := fold_left AccountCreateComponent.edit edits forms in
    AccountCreateComponent.accountType forms'
    = AccountCreateComponent.selectedAccountType forms'
    /\ AccountCreateComponent.depositMinimum forms'
       = match AccountCreateComponent.accountType forms' with
         | Some SAVINGS => ACCOUNT_RULES.SAVINGS.INITIAL_DEPOSIT_MIN
         | Some CURRENT => ACCOUNT_RULES.CURRENT.INITIAL_DEPOSIT_MIN
         | None => 100%Q
         end.
Proof.
  induction edits as [|e edits IH]; intros forms H1 H2.
  - split; assumption.
  - cbn [fold_left]. apply IH.
    + destruct e as [v|v|v|v|t]; try exact H1. reflexivity.
    + destruct e as [v|v|v|v|t]; try exact H2. destruct t; reflexivity.
Qed.

Lemma minLength_required (n : nat) (value : string) :
  AccountCreateComponent.required value = true ->
  AccountCreateComponent.minLength n value = true ->
  (n <= String.length value)%nat.
Proof.
  destruct value as [|c rest]; [discriminate|].
  intros _ H. cbn [AccountCreateComponent.minLength] in H.
  now apply Nat.leb_le.
Qed.

Lemma phonePattern_required (value : string) :
  AccountCreateComponent.required value = true ->
  AccountCreateComponent.phonePattern value = true ->
  String.length value = 10%nat
  /\ forallb AccountCreateComponent.isDigit (list_ascii_of_string value)
     = true.
Proof.
  destruct value as [|c rest]; [discriminate|].
  intros _ H. cbn [AccountCreateComponent.phonePattern] in H.
  apply andb_prop in H. destruct H as [H1 H2].
  split; [now apply Nat.eqb_eq | exact H2].
Qed.

(** What [onSubmit] dispatches: nothing, or one request made of the values
    of the forms, which then passed the validators of their controls. *)
Lemma onSubmit_cases (emailValid : string -> bool)
    (edits : list AccountCreateComponent.Edit) :
  let forms :=
    fold_left AccountCreateComponent.edit edits
              AccountCreateComponent.initializeForms in
  AccountCreateComponent.onSubmit emailValid forms = []
  \/ exists type deposit,
      AccountCreateComponent.onSubmit emailValid forms
      = [createAccount
           {| CreateAccountRequest.accountHolderName :=
                AccountCreateComponent.accountHolderName forms;
              CreateAccountRequest.email :=
                AccountCreateComponent.email forms;
              CreateAccountRequest.phone :=
                AccountCreateComponent.phone forms;
              CreateAccountRequest.accountType := type;
              CreateAccountRequest.initialDeposit := deposit |}]
      /\ (3 <= String.length
                 (AccountCreateComponent.accountHolderName forms))%nat
      /\ emailValid (AccountCreateComponent.email forms) = true
      /\ String.length (AccountCreateComponent.phone forms) = 10%nat
      /\ forallb AccountCreateComponent.isDigit
            (list_ascii_of_string (AccountCreateComponent.phone forms))
          = true
      /\ (match type with
           | SAVINGS => ACCOUNT_RULES.SAVINGS.INITIAL_DEPOSIT_MIN
           | CURRENT => ACCOUNT_RULES.CURRENT.INITIAL_DEPOSIT_MIN
           end <= deposit)%Q.
Proof.
  intros forms.
  destruct (forms_invariant edits AccountCreateComponent.initializeForms
              eq_refl eq_refl) as [_ Hmin].
  fold forms in Hmin.
  unfold AccountCreateComponent.onSubmit.
  destruct (AccountCreateComponent.personalInfoValid emailValid forms)
    eqn:Hp; cbn [negb orb]; [|now left].
  destruct (AccountCreateComponent.accountType forms) as [type|] eqn:Ht;
    cbn [negb orb]; [|now left].
  destruct (AccountCreateComponent.depositValid
              (AccountCreateComponent.depositMinimum forms)
              (AccountCreateComponent.initialDeposit forms)) eqn:Hd;
    cbn [negb]; [|now left].
  destruct (AccountCreateComponent.initialDeposit forms) as [deposit|]
    eqn:Hv; [|discriminate Hd].
  right. exists type, deposit. split; [reflexivity|].
  unfold AccountCreateComponent.personalInfoValid in Hp.
  apply andb_prop in Hp. destruct Hp as [Hp Hphone].
  apply andb_prop in Hp. destruct Hp as [Hname Hemail].
  apply andb_prop in Hname. destruct Hname as [Hname Hlong].
  apply andb_prop in Hemail. destruct Hemail as [_ Hemail].
  apply andb_prop in Hphone. destruct Hphone as [Hphone Hpattern].
  split; [now apply minLength_required|].
  split; [exact Hemail|].
  destruct (phonePattern_required _ Hphone Hpattern) as [Hlen Hdigits].
  split; [exact Hlen|]. split; [exact Hdigits|].
  cbn [AccountCreateComponent.depositValid] in Hd. apply Qgeb_le in Hd.
  rewrite Hmin in Hd. destruct type; exact Hd.
Qed.

(** For a deposit control that holds a number or nothing, as a numeric
    input delivers (a control that holds other text is outside the
    model): after any sequence of edits of the forms, submitting
    dispatches nothing or one [createAccount].  The request that is
    dispatched has a name of at least 3 characters, an e-mail address the
    forms library accepts, a phone number of 10 digits and a deposit of at
    least the minimum of its account type; and the account that the
    service then posts for the request is ACTIVE and starts with a balance
    that is not below its minimum balance. *)
Theorem submitted_request_is_valid
    (emailValid : string -> bool)
    (edits : list AccountCreateComponent.Edit)
    (random : Q) (backend : Backend Account) (w : World) :
  let forms :=
    fold_left AccountCreateComponent.edit edits
              AccountCreateComponent.initializeForms in
  match AccountCreateComponent.onSubmit emailValid forms with
  | [] => True
  | [createAccount request] =>
      (3 <= String.length (CreateAccountRequest.accountHolderName request))%nat
      /\ emailValid (CreateAccountRequest.email request) = true
      /\ String.length (CreateAccountRequest.phone request) = 10%nat
      /\ forallb AccountCreateComponent.isDigit
           (list_ascii_of_string (CreateAccountRequest.phone request))
         = true
      /\ (match CreateAccountRequest.accountType request with
          | SAVINGS => ACCOUNT_RULES.SAVINGS.INITIAL_DEPOSIT_MIN
          | CURRENT => ACCOUNT_RULES.CURRENT.INITIAL_DEPOSIT_MIN
          end <= CreateAccountRequest.initialDeposit request)%Q
      /\ exists body,
          sent (snd (subscribe (AccountService.createAccount random request)
                       backend w))
          = sent w ++ [POST AccountService.endpoints.accounts body]
          /\ NewAccount.status body = ACTIVE
          /\ (NewAccount.minBalance body <= NewAccount.balance body)%Q
  | _ => False
  end.
Proof.
  intros forms. subst forms.
  destruct (onSubmit_cases emailValid edits)
    as [-> | (type & deposit & -> & Hname & Hemail & Hlen & Hdigits & Hdep)];
    [exact I|].
  cbn [CreateAccountRequest.accountHolderName CreateAccountRequest.email
       CreateAccountRequest.phone CreateAccountRequest.accountType
       CreateAccountRequest.initialDeposit].
  split; [exact Hname|]. split; [exact Hemail|].
  split; [exact Hlen|]. split; [exact Hdigits|]. split; [exact Hdep|].
  unfold subscribe, AccountService.createAccount, bind, now, new_Date, ret.
  cbn [clock sent fst snd].
  unfold Rx.catchError, Rx.map, Rx.delay, Rx.http, bind, ret.
  cbn [clock sent fst snd].
  match goal with |- context [POST _ ?b] => exists b end.
  split.
  - match goal with |- context [backend ?n ?r] => destruct (backend n r) end;
      reflexivity.
  - split; [reflexivity|].
    cbn [NewAccount.minBalance NewAccount.balance
         CreateAccountRequest.accountType
         CreateAccountRequest.initialDeposit].
    destruct type; exact Hdep.
Qed.

(** The validation helpers of the service and the validators of the forms:
    a request that the form dispatches passes [validatePhone] and
    [validateInitialDeposit].  It need not pass
    [validateAccountHolderName], which trims the name: a form that can be
    submitted can be submitted with a name of three blanks as well. *)
Theorem form_and_service_validation
    (emailValid : string -> bool)
    (edits : list AccountCreateComponent.Edit) :
  let forms :=
    fold_left AccountCreateComponent.edit edits
              AccountCreateComponent.initializeForms in
  let blanks := "   " in
  match AccountCreateComponent.onSubmit emailValid forms with
  | [createAccount request] =>
      AccountServiceValidation.validatePhone
        (CreateAccountRequest.phone request) = true
      /\ AccountServiceValidation.validateInitialDeposit
           (CreateAccountRequest.initialDeposit request)
           (CreateAccountRequest.accountType request) = true
  | _ => True
  end
  /\ (AccountCreateComponent.onSubmit emailValid forms <> [] ->
      exists request,
        AccountCreateComponent.onSubmit emailValid
          (AccountCreateComponent.edit forms
             (AccountCreateComponent.enterName blanks))
        = [createAccount request]
        /\ CreateAccountRequest.accountHolderName request = blanks
        /\ AccountServiceValidation.validateAccountHolderName
             (CreateAccountRequest.accountHolderName request) = false).
Proof.
  intros forms blanks. split.
  - subst forms.
    destruct (onSubmit_cases emailValid edits)
      as [-> | (type & deposit & -> & _ & _ & Hlen & Hdigits & Hdep)];
      [exact I|].
    cbn [CreateAccountRequest.phone CreateAccountRequest.accountType
         CreateAccountRequest.initialDeposit].
    split.
    + unfold AccountServiceValidation.validatePhone.
      rewrite Hlen. exact Hdigits.
    + unfold AccountServiceValidation.validateInitialDeposit.
      destruct type; cbn [AccountType_eqb]; apply Qgeb_le; exact Hdep.
  - intros Hne. clearbody forms.
    unfold AccountCreateComponent.onSubmit in *.
    unfold AccountCreateComponent.personalInfoValid in *.
    cbn [AccountCreateComponent.edit AccountCreateComponent.accountHolderName
         AccountCreateComponent.email AccountCreateComponent.phone
         AccountCreateComponent.accountType
         AccountCreateComponent.initialDeposit
         AccountCreateComponent.depositMinimum].
    change (AccountCreateComponent.required blanks) with true.
    change (AccountCreateComponent.minLength 3 blanks) with true.
    cbn [andb].
    destruct (AccountCreateComponent.required
                (AccountCreateComponent.accountHolderName forms)
              && AccountCreateComponent.minLength 3
                   (AccountCreateComponent.accountHolderName forms));
      cbn [andb negb orb] in Hne; [|contradiction].
    destruct (AccountCreateComponent.required
                (AccountCreateComponent.email forms)
              && emailValid (AccountCreateComponent.email forms));
      cbn [andb negb orb] in *; [|contradiction].
    destruct (AccountCreateComponent.required
                (AccountCreateComponent.phone forms)
              && AccountCreateComponent.phonePattern
                   (AccountCreateComponent.phone forms));
      cbn [andb negb orb] in *; [|contradiction].
    destruct (AccountCreateComponent.accountType forms) as [type|];
      cbn [negb orb] in *; [|contradiction].
    destruct (AccountCreateComponent.depositValid _ _);
      cbn [negb] in *; [|contradiction].
    destruct (AccountCreateComponent.initialDeposit forms) as [deposit|];
      [|contradiction].
    eexists. split; [reflexivity|]. split; reflexivity.
Qed.

(** The minimum deposit that the form shows is the minimum that the
    deposit control checks once an account type is chosen; before that the
    form shows 0 and the control checks 100. *)
Theorem shown_minimum_is_checked_minimum
    (edits : list AccountCreateComponent.Edit) :
  let forms :=
    fold_left AccountCreateComponent.edit edits
              AccountCreateComponent.initializeForms in
  match AccountCreateComponent.selectedAccountType forms with
  | Some _ =>
      AccountCreateComponent.getMinDeposit forms
      = AccountCreateComponent.depositMinimum forms
  | None =>
      AccountCreateComponent.getMinDeposit forms = 0%Q
      /\ AccountCreateComponent.depositMinimum forms = 100%Q
  end.
Proof.
  intros forms.
  destruct (forms_invariant edits AccountCreateComponent.initializeForms
              eq_refl eq_refl) as [Hsel Hmin].
  fold forms in Hsel, Hmin.
  unfold AccountCreateComponent.getMinDeposit. rewrite Hmin, Hsel.
  destruct (AccountCreateComponent.selectedAccountType forms) as [[|]|];
    try reflexivity. split; reflexivity.
Qed.

(** A form that is submitted with the least deposit of a current account:
    the request is dispatched, and the account it opens is below the
    low-balance threshold of its type from the start. *)
Example least_deposit_is_low_balance :
  let forms :=
    fold_left AccountCreateComponent.edit
      [AccountCreateComponent.enterName "Ravi Kumar";
       AccountCreateComponent.enterEmail "ravi@example.com";
       AccountCreateComponent.enterPhone "9876543210";
       AccountCreateComponent.chooseType CURRENT;
       AccountCreateComponent.enterDeposit (Some 5000%Q)]
      AccountCreateComponent.initializeForms in
  AccountCreateComponent.onSubmit (fun _ => true) forms
  = [createAccount
       {| CreateAccountRequest.accountHolderName := "Ravi Kumar";
          CreateAccountRequest.email := "ravi@example.com";
          CreateAccountRequest.phone := "9876543210";
          CreateAccountRequest.accountType := CURRENT;
          CreateAccountRequest.initialDeposit := 5000%Q |}]
  /\ Qltb 5000 ACCOUNT_RULES.CURRENT.LOW_BALANCE_THRESHOLD = true.
Proof. split; reflexivity. Qed.

(** ** The menu *)

(** After a confirmed logout nobody is logged in, the name shown is Guest,
    and the page navigated to shows no menu; a declined logout changes
    nothing.  When nobody is logged in the name shown is Guest. *)
Theorem logout_ends_the_session
    (storage : AppmenuComponent.Storage) :
  let after := AppmenuComponent.logout true storage in
  AppmenuComponent.isLoggedIn (fst after) = false
  /\ AppmenuComponent.getUsername (fst after) = "Guest"
  /\ (exists url, snd after = Some url
                  /\ AppmenuComponent.showmenu url = false)
  /\ AppmenuComponent.logout false storage = (storage, None)
  /\ (AppmenuComponent.isLoggedIn storage = false ->
      AppmenuComponent.getUsername storage = "Guest").
Proof.
  intros after. split; [reflexivity|]. split; [reflexivity|].
  split; [exists "/login"; split; reflexivity|].
  split; [reflexivity|].
  unfold AppmenuComponent.isLoggedIn, AppmenuComponent.getUsername.
  destruct (AppmenuComponent.getItem "username" storage);
    [discriminate | reflexivity].
Qed.

(** ** Closing an account from its page *)

Lemma deleteAccount_inner_run (env : nat -> CallEnv Account) (k : nat)
    (accountId : Z) :
  exists patch,
    delivers (AccountEffects.deleteAccount_inner env k accountId)
    = match env_backend (env k)
              (List.length (sent (env_world (env k)))) patch with
      | Ok _ =>
          deleteAccountSuccess accountId
            {| CloseAccountResponse.success := true;
               CloseAccountResponse.message := "Account closed successfully";
               CloseAccountResponse.closedDate :=
                 clock (env_world (env k)) 1%nat |}
      | Fail e => deleteAccountFailure (AccountService.errorMessageOf e)
      end.
Proof.
  unfold AccountEffects.deleteAccount_inner.
  rewrite inner_of_prepared_call.
  destruct (closeAccount_run accountId "Customer request"
              (env_backend (env k)) (env_world (env k)))
    as (patch & _ & Hrun).
  exists patch. rewrite Hrun.
  destruct (env_backend (env k) _ patch); [reflexivity|].
  now rewrite extractErrorMessage_of_service_error.
Qed.

(** The page of an account shows the account that [loadAccountSuccess]
    selected.  Closing it there, once confirmed, dispatches one
    [deleteAccount] with the id of that account and leaves the page.  When
    the backend accepts the request, the store holds no account with that
    id afterwards and nothing is selected; when the backend fails it, the
    account is still selected, the accounts are the ones before, and the
    message of the service is stored.  A declined confirmation dispatches
    nothing. *)
Theorem closing_from_the_details_page
    (env : nat -> CallEnv Account) (k : nat) (s : AccountState)
    (a : Account) (c1 c2 c3 : Clock) :
  let shown := eval (accountReducer s (loadAccountSuccess a)) c1 in
  let requested := eval (accountReducer shown (deleteAccount (id a))) c2 in
  let answer := delivers (AccountEffects.deleteAccount_inner env k (id a)) in
  let final := eval (accountReducer requested answer) c3 in
  AccountDetailsComponent.closeAccount true a
  = ([deleteAccount (id a)], Some "/banking/accounts")
  /\ AccountDetailsComponent.closeAccount false a = ([], None)
  /\ selectedAccount shown = Some a
  /\ loading requested = true
  /\ ((exists response, answer = deleteAccountSuccess (id a) response)
      /\ accountExists final (id a) = false
      /\ selectedAccount final = None
      /\ selectedAccountId final = None
      /\ loading final = false
      \/
      (exists e, answer = deleteAccountFailure (AccountService.errorMessageOf e)
                 /\ error final = Some (AccountService.errorMessageOf e))
      /\ accounts final = accounts shown
      /\ selectedAccount final = Some a
      /\ loading final = false).
Proof.
  intros shown requested answer final.
  split; [reflexivity|]. split; [reflexivity|]. split; [reflexivity|].
  split; [reflexivity|].
  destruct (deleteAccount_inner_run env k (id a)) as [patch Hrun].
  fold answer in Hrun. subst final.
  destruct (env_backend (env k) _ patch) as [body|e]; rewrite Hrun.
  - left. split; [eexists; reflexivity|].
    rewrite deleteAccountSuccess_step.
    cbn [accounts selectedAccount selectedAccountId loading].
    subst requested shown. cbn [eval fst accountReducer ret].
    unfold eval. cbn [accountReducer ret fst selectedAccountId].
    cbn. rewrite Z.eqb_refl.
    split; [|repeat split; reflexivity].
    unfold accountExists. cbn [accounts].
    destruct (existsb _ (filter _ _)) eqn:E; [|reflexivity].
    apply existsb_exists in E. destruct E as [x [Hin Hid]].
    apply filter_In in Hin. destruct Hin as [_ Hne].
    rewrite Hid in Hne. discriminate Hne.
  - right. split; [exists e; split; reflexivity|].
    repeat split; reflexivity.
Qed.

(** An account with id 0 cannot be refreshed from its page: the check of
    [accountId] treats 0 as no account.  Every other id dispatches one
    [checkBalance] for it. *)
Theorem refreshBalance_skips_id_zero (accountId : Z) :
  AccountDetailsComponent.refreshBalance None = []
  /\ AccountDetailsComponent.refreshBalance (Some 0) = []
  /\ (accountId <> 0 ->
      AccountDetailsComponent.refreshBalance (Some accountId)
      = [checkBalance accountId]).
Proof.
  split; [reflexivity|]. split; [reflexivity|].
  intros H. unfold AccountDetailsComponent.refreshBalance.
  destruct (Z.eqb_spec accountId 0); [contradiction | reflexivity].
Qed.
